(** * Invoice document-processing pipeline: a shallow embedding

    The development follows the Python package [app]:
    - [app/extraction/extractor.py]   ([ExtractedData], [_parse_date],
      [_parse_decimal], [Extractor.extract], [Extractor._simple_extract]);
    - [app/validation/rule_engine.py] ([ValidationResult], [RuleEngine]);
    - [app/confidence/confidence.py]  ([compute_confidence]);
    - [app/pipeline/pipeline.py]      ([ProcessingPipeline]);
    - [app/ocr/engines.py], [app/ocr/mock_ocr.py], [app/ocr/factory.py]
      (what the engines make of the provider's answer, [get_ocr_engine]);
    - [app/api/routes.py]             ([upload_document]).

    Modelling conventions.
    - Python [str] is [string]; the text is taken to be ASCII, so that
      [str.lower], [str.strip] and the regular-expression classes [\d] and
      [\s] are the ASCII ones.
    - Python [float] scores are exact rationals ([Q]); [round(x, 4)] is
      rounding to the nearest multiple of 1/10000, ties to even.
    - [decimal.Decimal] is a finite decimal [coefficient * 10 ^ exponent];
      NaN, the infinities, the sign of zero and the 28-digit context
      precision are outside the model.
    - A Python exception is a value of type [exn]; a call that may raise
      returns a [result].
    - The SQLAlchemy session is an explicit [Store] threaded through the
      pipeline; its primitives ([get], [add], [flush], [commit], [execute])
      do not fail.  Logging is not modelled. *)

From Stdlib Require Import ZArith QArith Qround Qabs Qpower Lia Lqa Bool List.
From Stdlib Require Import Ascii String.
From Stdlib Require Import DecimalString.
From stdpp Require Import base option gmap strings.

Import ListNotations.
Local Open Scope string_scope.

(* ===================================================================== *)
(** * Exceptions and results *)
(* ===================================================================== *)

Record exn := Exn { exn_type : string; exn_msg : string }.

Inductive result (A : Type) :=
| Ok (a : A)
| Raise (e : exn).
Arguments Ok {A} a.
Arguments Raise {A} e.

(** [o is not None] *)
Definition is_some {A} (o : option A) : bool :=
  match o with Some _ => true | None => false end.

Definition InvalidOperation : exn :=
  Exn "decimal.InvalidOperation" "[<class 'decimal.ConversionSyntax'>]".

(* ===================================================================== *)
(** * Python string primitives (ASCII) *)
(* ===================================================================== *)

Module PyStr.

Definition is_upper (c : ascii) : bool :=
  let n := nat_of_ascii c in (65 <=? n)%nat && (n <=? 90)%nat.

Definition is_lower (c : ascii) : bool :=
  let n := nat_of_ascii c in (97 <=? n)%nat && (n <=? 122)%nat.

Definition is_digit (c : ascii) : bool :=
  let n := nat_of_ascii c in (48 <=? n)%nat && (n <=? 57)%nat.

(** [str.isspace] on one ASCII character: TAB, LF, VT, FF, CR, the four
    separators 0x1c-0x1f and the space. *)
Definition is_space (c : ascii) : bool :=
  let n := nat_of_ascii c in
  ((9 <=? n)%nat && (n <=? 13)%nat) || ((28 <=? n)%nat && (n <=? 32)%nat).

Definition lower_char (c : ascii) : ascii :=
  if is_upper c then ascii_of_nat (nat_of_ascii c + 32) else c.

(** [s.lower()] *)
Fixpoint lower (s : string) : string :=
  match s with
  | EmptyString => EmptyString
  | String c s' => String (lower_char c) (lower s')
  end.

(** [needle in hay] *)
Fixpoint contains (needle hay : string) : bool :=
  String.prefix needle hay ||
  match hay with
  | EmptyString => false
  | String _ hay' => contains needle hay'
  end.

(** [c in s] for a one-character needle *)
Fixpoint has_char (c : ascii) (s : string) : bool :=
  match s with
  | EmptyString => false
  | String d s' => Ascii.eqb c d || has_char c s'
  end.

(** [s.split(c)] for a one-character separator: never empty. *)
Fixpoint split (c : ascii) (s : string) : list string :=
  match s with
  | EmptyString => [EmptyString]
  | String d s' =>
      if Ascii.eqb c d then EmptyString :: split c s'
      else match split c s' with
           | [] => [String d EmptyString]
           | w :: ws => String d w :: ws
           end
  end.

(** [s.split(c, 1)[-1]]: what follows the first [c], or [s] itself. *)
Fixpoint after_first (c : ascii) (s : string) : string :=
  match s with
  | EmptyString => EmptyString
  | String d s' =>
      if Ascii.eqb c d then s'
      else if has_char c s' then after_first c s' else s
  end.

(** [s.split(c)[-1]]: what follows the last [c], or [s] itself. *)
Fixpoint after_last (c : ascii) (s : string) : string :=
  match s with
  | EmptyString => EmptyString
  | String d s' =>
      if has_char c s' then after_last c s'
      else if Ascii.eqb c d then s' else s
  end.

Fixpoint lstrip (s : string) : string :=
  match s with
  | EmptyString => EmptyString
  | String c s' => if is_space c then lstrip s' else s
  end.

Fixpoint rstrip (s : string) : string :=
  match s with
  | EmptyString => EmptyString
  | String c s' =>
      match rstrip s' with
      | EmptyString => if is_space c then EmptyString else String c EmptyString
      | r => String c r
      end
  end.

(** [s.strip()] *)
Definition strip (s : string) : string := rstrip (lstrip s).

(** [s.replace(c, "")] for a one-character [c] *)
Fixpoint remove_char (c : ascii) (s : string) : string :=
  match s with
  | EmptyString => EmptyString
  | String d s' =>
      if Ascii.eqb c d then remove_char c s' else String d (remove_char c s')
  end.

Fixpoint filter (p : ascii -> bool) (s : string) : string :=
  match s with
  | EmptyString => EmptyString
  | String c s' => if p c then String c (filter p s') else filter p s'
  end.

Fixpoint all (p : ascii -> bool) (s : string) : bool :=
  match s with
  | EmptyString => true
  | String c s' => p c && all p s'
  end.

(** Python truthiness of a [str]: non-empty. *)
Definition truthy (s : string) : bool :=
  match s with EmptyString => false | _ => true end.

(** [s.isalnum()]: at least one character, all letters or digits. *)
Definition isalnum (s : string) : bool :=
  truthy s && all (fun c => is_upper c || is_lower c || is_digit c) s.

(** [str(n)] for a natural number *)
Definition of_N (n : N) : string := NilZero.string_of_uint (N.to_uint n).

(** [str(z)] for an integer *)
Definition of_Z (z : Z) : string :=
  if (z <? 0)%Z then "-" ++ of_N (Z.abs_N z) else of_N (Z.abs_N z).

Fixpoint zeros (n : nat) : string :=
  match n with O => EmptyString | S n' => String "0" (zeros n') end.

(** [s[:n]] and [s[n:]] *)
Fixpoint take (n : nat) (s : string) : string :=
  match n, s with
  | S n', String c s' => String c (take n' s')
  | _, _ => EmptyString
  end.

Fixpoint drop (n : nat) (s : string) : string :=
  match n, s with
  | S n', String _ s' => drop n' s'
  | _, _ => s
  end.

End PyStr.

(* ===================================================================== *)
(** * [decimal.Decimal] *)
(* ===================================================================== *)

(** A finite decimal: [coeff * 10 ^ exp]. *)
Record decimal := Dec { coeff : Z; exp : Z }.

Module PyDecimal.

Definition zero : decimal := Dec 0 0.

(** The coefficient of [d] once its exponent is lowered to [e <= exp d]. *)
Definition align (e : Z) (d : decimal) : Z := (coeff d * 10 ^ (exp d - e))%Z.

Definition add (a b : decimal) : decimal :=
  let e := Z.min (exp a) (exp b) in Dec (align e a + align e b) e.

Definition sub (a b : decimal) : decimal :=
  let e := Z.min (exp a) (exp b) in Dec (align e a - align e b) e.

Definition abs (a : decimal) : decimal := Dec (Z.abs (coeff a)) (exp a).

Definition leb (a b : decimal) : bool :=
  let e := Z.min (exp a) (exp b) in (align e a <=? align e b)%Z.

(** Python truthiness of a [Decimal]: non-zero. *)
Definition truthy (a : decimal) : bool := negb (coeff a =? 0)%Z.

(** The rational number a decimal denotes. *)
Definition value (a : decimal) : Q :=
  (inject_Z (coeff a) * (10 # 1) ^ exp a)%Q.

(** [str(d)], after [Decimal.__str__]: plain notation while the exponent
    is at most 0 and more than six places are not needed after the point,
    scientific notation otherwise. *)
Definition to_str (a : decimal) : string :=
  let sign := if (coeff a <? 0)%Z then "-" else "" in
  let digits := PyStr.of_N (Z.abs_N (coeff a)) in
  let len := Z.of_nat (String.length digits) in
  let leftdigits := (exp a + len)%Z in
  let dotplace :=
    if (exp a <=? 0)%Z && (-6 <? leftdigits)%Z then leftdigits else 1%Z in
  let intpart :=
    if (dotplace <=? 0)%Z then "0"
    else if (len <=? dotplace)%Z
         then digits ++ PyStr.zeros (Z.to_nat (dotplace - len))
         else PyStr.take (Z.to_nat dotplace) digits in
  let fracpart :=
    if (dotplace <=? 0)%Z
    then "." ++ PyStr.zeros (Z.to_nat (- dotplace)) ++ digits
    else if (len <=? dotplace)%Z then ""
         else "." ++ PyStr.drop (Z.to_nat dotplace) digits in
  let e := (leftdigits - dotplace)%Z in
  let exppart :=
    if (e =? 0)%Z then ""
    else "E" ++ (if (0 <=? e)%Z then "+" else "") ++ PyStr.of_Z e in
  sign ++ intpart ++ fracpart ++ exppart.

(** The number written by a string of decimal digits, most significant
    first. *)
Fixpoint digits_value (acc : Z) (s : string) : Z :=
  match s with
  | EmptyString => acc
  | String c s' =>
      digits_value (10 * acc + Z.of_nat (nat_of_ascii c - 48)) s'
  end.

(** [Decimal(s)] on the strings the extractor passes to it, made of
    digits and full stops only: the literal is accepted when it has at
    most one point and at least one digit.  [None] stands for
    [InvalidOperation]; any other character is rejected. *)
Definition of_str (s : string) : option decimal :=
  match PyStr.split "." s with
  | [i] =>
      if PyStr.all PyStr.is_digit i && PyStr.truthy i
      then Some (Dec (digits_value 0 i) 0) else None
  | [i; f] =>
      if PyStr.all PyStr.is_digit i && PyStr.all PyStr.is_digit f
         && PyStr.truthy (i ++ f)
      then Some (Dec (digits_value 0 (i ++ f))
                     (- Z.of_nat (String.length f)))
      else None
  | _ => None
  end.

End PyDecimal.

(* ===================================================================== *)
(** * [datetime.datetime] and [datetime.strptime] *)
(* ===================================================================== *)

(** The four formats of [_parse_date] carry no time of day, so a parsed
    [datetime] is a calendar date at midnight. *)
Record datetime := Date { year : Z; month : Z; day : Z }.

Module PyDatetime.

(** [a < b] *)
Definition ltb (a b : datetime) : bool :=
  (year a <? year b)%Z
  || ((year a =? year b)%Z
      && ((month a <? month b)%Z
          || ((month a =? month b)%Z && (day a <? day b)%Z))).

Definition is_leap (y : Z) : bool :=
  ((y mod 4 =? 0) && (negb (y mod 100 =? 0) || (y mod 400 =? 0)))%Z.

Definition days_in_month (y m : Z) : Z :=
  if (m =? 2)%Z then (if is_leap y then 29 else 28)%Z
  else if ((m =? 4) || (m =? 6) || (m =? 9) || (m =? 11))%Z then 30%Z
  else 31%Z.

(** The directives used by [_parse_date]. *)
Inductive directive := DY | Dm | Dd | DLit (c : ascii).

Definition digit_val (c : ascii) : Z := Z.of_nat (nat_of_ascii c - 48).

Definition in_range (lo hi : nat) (c : ascii) : bool :=
  let n := nat_of_ascii c in (lo <=? n)%nat && (n <=? hi)%nat.

(** The alternatives of one directive, in the order of the regular
    expression [_strptime] builds: each gives the number read and what
    is left of the input.
    - [%Y] is [\d\d\d\d];
    - [%m] is [1[0-2]|0[1-9]|[1-9]];
    - [%d] is [3[01]|[12]\d|0[1-9]|[1-9]| [1-9]]. *)
Definition two (p1 p2 : ascii -> bool) (s : list ascii)
  : list (Z * list ascii) :=
  match s with
  | a :: b :: r =>
      if p1 a && p2 b then [((10 * digit_val a + digit_val b)%Z, r)] else []
  | _ => []
  end.

Definition one (p : ascii -> bool) (s : list ascii) : list (Z * list ascii) :=
  match s with
  | a :: r => if p a then [(digit_val a, r)] else []
  | _ => []
  end.

Definition alternatives (d : directive) (s : list ascii)
  : list (Z * list ascii) :=
  match d with
  | DY =>
      match s with
      | a :: b :: c :: e :: r =>
          if PyStr.is_digit a && PyStr.is_digit b
             && PyStr.is_digit c && PyStr.is_digit e
          then [((1000 * digit_val a + 100 * digit_val b
                  + 10 * digit_val c + digit_val e)%Z, r)]
          else []
      | _ => []
      end
  | Dm =>
      (two (in_range 49 49) (in_range 48 50) s
       ++ two (in_range 48 48) (in_range 49 57) s
       ++ one (in_range 49 57) s)%list
  | Dd =>
      (two (in_range 51 51) (in_range 48 49) s
       ++ two (in_range 49 50) PyStr.is_digit s
       ++ two (in_range 48 48) (in_range 49 57) s
       ++ one (in_range 49 57) s
       ++ match s with
          | " "%char :: r => one (in_range 49 57) r
          | _ => []
          end)%list
  | DLit c =>
      match s with
      | a :: r => if Ascii.eqb a c then [(0%Z, r)] else []
      | [] => []
      end
  end.

Definition set_field (d : directive) (v : Z) (t : datetime) : datetime :=
  match d with
  | DY => Date v (month t) (day t)
  | Dm => Date (year t) v (day t)
  | Dd => Date (year t) (month t) v
  | DLit _ => t
  end.

(** All the ways the format matches a prefix of the input, first
    preference first (the regular expression backtracks in this order). *)
Fixpoint matches (fmt : list directive) (s : list ascii) (t : datetime)
  : list (datetime * list ascii) :=
  match fmt with
  | [] => [(t, s)]
  | d :: fmt' =>
      flat_map (fun '(v, r) => matches fmt' r (set_field d v t))
               (alternatives d s)
  end.

(** [datetime.strptime(value, fmt)]: the first match must use up the
    whole input ("unconverted data remains" otherwise) and name a day
    that exists; [None] stands for [ValueError]. *)
Definition strptime (value : string) (fmt : list directive)
  : option datetime :=
  match matches fmt (list_ascii_of_string value) (Date 1900 1 1) with
  | (t, []) :: _ =>
      if ((1 <=? year t) && (1 <=? day t)
          && (day t <=? days_in_month (year t) (month t)))%Z
      then Some t else None
  | _ => None
  end.

Definition fmt_Ymd : list directive := [DY; DLit "-"; Dm; DLit "-"; Dd].
Definition fmt_mdY : list directive := [Dm; DLit "/"; Dd; DLit "/"; DY].
Definition fmt_dmY_slash : list directive := [Dd; DLit "/"; Dm; DLit "/"; DY].
Definition fmt_dmY_dash : list directive := [Dd; DLit "-"; Dm; DLit "-"; DY].

End PyDatetime.

(* ===================================================================== *)
(** * [app/extraction/extractor.py] *)
(* ===================================================================== *)

(** What [Decimal(str(v))] makes of the value [v] stored under the key
    ["total"] of a line item: a decimal, or [InvalidOperation]. *)
Inductive total_value :=
| TotalDecimal (d : decimal)
| TotalNotDecimal.

(** An element of [line_items].  A [dict] is modelled by the keys the
    program reads: ["description"] and ["total"] ([None] when the key is
    absent); anything that is not a [dict] is [ItemOther]. *)
Inductive line_item :=
| ItemDict (description : string) (total : option total_value)
| ItemOther.

Record ExtractedData := {
  vendor_name : option string;
  tax_id : option string;
  invoice_number : option string;
  total_amount : option decimal;
  invoice_date : option datetime;
  due_date : option datetime;
  line_items : option (list line_item);
  extraction_confidence : Q;
  field_confidences : option (gmap string Q)
}.

(** [_parse_date]: the first of the four formats that parses wins. *)
Definition _parse_date (value : option string) : option datetime :=
  match value with
  | None => None
  | Some v =>
      if negb (PyStr.truthy v) then None
      else
        let fix try_formats (fmts : list (list PyDatetime.directive)) :=
          match fmts with
          | [] => None
          | fmt :: rest =>
              match PyDatetime.strptime v fmt with
              | Some t => Some t
              | None => try_formats rest
              end
          end in
        try_formats [PyDatetime.fmt_Ymd; PyDatetime.fmt_mdY;
                     PyDatetime.fmt_dmY_slash; PyDatetime.fmt_dmY_dash]
  end.

(** [_parse_decimal] on a string (or [None]); [InvalidOperation] is caught
    and gives [None]. *)
Definition _parse_decimal (value : option string) : option decimal :=
  match value with
  | None => None
  | Some v => PyDecimal.of_str v
  end.

(** ** The line-item pattern

    The pattern matched against [line.strip()] is, piece by piece,
    - [^(.+?)]          group 1, a shortest non-empty description;
    - [[\s:]+]          one or more blanks or colons;
    - [\$?]             an optional dollar sign;
    - [([\d,]+\.?\d* )] group 2, digits and commas, an optional full stop,
                        digits;
    - [\s*$]            trailing blanks up to the end.
    The matcher below is written out for this one pattern and returns
    groups 1 and 2. *)
Module ItemPattern.

Definition is_sep (c : ascii) : bool := PyStr.is_space c || Ascii.eqb c ":".

Definition is_digit_or_comma (c : ascii) : bool :=
  PyStr.is_digit c || Ascii.eqb c ",".

Fixpoint skip (p : ascii -> bool) (s : string) : string :=
  match s with
  | EmptyString => EmptyString
  | String c s' => if p c then skip p s' else s
  end.

(** Group 2 to the end: group 2 is the input without its trailing
    blanks, and it must be a non-empty run of digits and commas, then at
    most one full stop, then digits up to the end. *)
Definition number (s : string) : option string :=
  let g := PyStr.rstrip s in
  match g with
  | EmptyString => None
  | String c _ =>
      if is_digit_or_comma c then
        match skip is_digit_or_comma g with
        | EmptyString => Some g
        | String "." r => if PyStr.all PyStr.is_digit r then Some g else None
        | _ => None
        end
      else None
  end.

(** From the optional dollar sign on: the sign is taken when it is
    there (without it the number cannot start). *)
Definition tail (s : string) : option string :=
  match s with
  | String "$" s' => number s'
  | _ => number s
  end.

(** From the separators on: at least one separator; the whole run of
    separators is used, since the tail cannot start with one. *)
Definition seps_then_tail (s : string) : option string :=
  match s with
  | String c s' => if is_sep c then tail (skip is_sep s') else None
  | EmptyString => None
  end.

(** [(.+?)]: the shortest non-empty description after which the rest
    matches; [pre] is the description so far, reversed. *)
Fixpoint lazy_description (pre : list ascii) (rest : string)
  : option (string * string) :=
  match seps_then_tail rest with
  | Some g => Some (string_of_list_ascii (List.rev pre), g)
  | None =>
      match rest with
      | EmptyString => None
      | String c rest' => lazy_description (c :: pre) rest'
      end
  end.

Definition item_match (s : string) : option (string * string) :=
  match s with
  | EmptyString => None
  | String c s' => lazy_description [c] s'
  end.

End ItemPattern.

(** ** [Extractor._simple_extract] *)

(** The local variables of the loop over the lines. *)
Record scan := {
  s_vendor_name : option string;
  s_tax_id : option string;
  s_invoice_number : option string;
  s_total_amount : option decimal;
  s_invoice_date : option datetime;
  s_due_date : option datetime;
  s_line_items : list line_item
}.

Definition scan_init : scan :=
  {| s_vendor_name := None; s_tax_id := None; s_invoice_number := None;
     s_total_amount := None; s_invoice_date := None; s_due_date := None;
     s_line_items := [] |}.

(** [line.split(":", 1)[-1].strip()] *)
Definition after_colon (line : string) : string :=
  PyStr.strip (PyStr.after_first ":" line).

(** [line.split(":", 1)[-1].strip() if ":" in line else ""] *)
Definition raw_date (line : string) : string :=
  if PyStr.has_char ":" line then after_colon line else "".

(** [re.sub(r"[^\d.]", "", line.split("$")[-1])] *)
Definition amount_str (line : string) : string :=
  PyStr.filter (fun c => PyStr.is_digit c || Ascii.eqb c ".")
               (PyStr.after_last "$" line).

Definition vendor_cue (line : string) : bool :=
  let line_lower := PyStr.lower line in
  PyStr.contains "vendor" line_lower || PyStr.contains "company" line_lower
  || PyStr.contains "from:" line_lower.

Definition tax_id_cue (line : string) : bool :=
  let line_lower := PyStr.lower line in
  PyStr.contains "tax id" line_lower || PyStr.contains "ein" line_lower
  || PyStr.contains "vat" line_lower.

Definition invoice_number_cue (line : string) : bool :=
  let line_lower := PyStr.lower line in
  PyStr.contains "invoice #" line_lower
  || PyStr.contains "invoice number" line_lower
  || PyStr.contains "inv #" line_lower.

Definition invoice_date_cue (line : string) : bool :=
  let line_lower := PyStr.lower line in
  PyStr.contains "invoice date" line_lower || PyStr.contains "date:" line_lower.

Definition due_date_cue (line : string) : bool :=
  let line_lower := PyStr.lower line in
  PyStr.contains "due date" line_lower || PyStr.contains "payment due" line_lower.

Definition total_cue (line : string) : bool :=
  PyStr.contains "total" (PyStr.lower line) && PyStr.has_char "$" line.

(** The line item a line contributes, if any. *)
Definition line_item_of (line : string) : option line_item :=
  match ItemPattern.item_match (PyStr.strip line) with
  | Some (g1, g2) =>
      if negb (PyStr.contains "total" (PyStr.lower line)) then
        match PyDecimal.of_str (PyStr.remove_char "," g2) with
        | Some amt => Some (ItemDict (PyStr.strip g1) (Some (TotalDecimal amt)))
        | None => None
        end
      else None
  | None => None
  end.

(** One iteration of [for line in lines]. *)
Definition scan_line (st : scan) (line : string) : scan :=
  let vendor_name :=
    if vendor_cue line then
      (if PyStr.has_char ":" line then Some (after_colon line)
       else s_vendor_name st)
    else s_vendor_name st in
  let tax_id :=
    if tax_id_cue line then
      (if PyStr.has_char ":" line then Some (after_colon line)
       else s_tax_id st)
    else s_tax_id st in
  let invoice_number :=
    if invoice_number_cue line then
      (if PyStr.has_char ":" line then Some (after_colon line)
       else s_invoice_number st)
    else s_invoice_number st in
  let invoice_date :=
    if invoice_date_cue line && negb (is_some (s_invoice_date st))
    then _parse_date (Some (raw_date line))
    else s_invoice_date st in
  let due_date :=
    if due_date_cue line then _parse_date (Some (raw_date line))
    else s_due_date st in
  let total_amount :=
    if total_cue line then
      (if PyStr.truthy (amount_str line)
       then _parse_decimal (Some (amount_str line))
       else s_total_amount st)
    else s_total_amount st in
  let line_items :=
    match line_item_of line with
    | Some it => (s_line_items st ++ [it])%list
    | None => s_line_items st
    end in
  {| s_vendor_name := vendor_name; s_tax_id := tax_id;
     s_invoice_number := invoice_number; s_total_amount := total_amount;
     s_invoice_date := invoice_date; s_due_date := due_date;
     s_line_items := line_items |}.

Definition scan_lines (lines : list string) : scan :=
  fold_left scan_line lines scan_init.

(** [0.8 if v else 0.0] *)
Definition presence_score {A} (truthy : A -> bool) (v : option A) : Q :=
  match v with
  | Some a => if truthy a then 0.8%Q else 0%Q
  | None => 0%Q
  end.

Definition _simple_extract (text : string) : ExtractedData :=
  let st := scan_lines (PyStr.split "010" text) in
  let found :=
    is_some (s_vendor_name st) || is_some (s_tax_id st)
    || is_some (s_invoice_number st) || is_some (s_total_amount st) in
  let confidence : Q := if found then 0.7%Q else 0.3%Q in
  let field_confidences : gmap string Q :=
    <["vendor_name" := presence_score PyStr.truthy (s_vendor_name st)]>
    (<["tax_id" := presence_score PyStr.truthy (s_tax_id st)]>
    (<["invoice_number" := presence_score PyStr.truthy (s_invoice_number st)]>
    (<["total_amount" := presence_score PyDecimal.truthy (s_total_amount st)]>
    (<["invoice_date" := presence_score (fun _ => true) (s_invoice_date st)]>
    (<["due_date" := presence_score (fun _ => true) (s_due_date st)]> ∅))))) in
  {| vendor_name := s_vendor_name st;
     tax_id := s_tax_id st;
     invoice_number := s_invoice_number st;
     total_amount := s_total_amount st;
     invoice_date := s_invoice_date st;
     due_date := s_due_date st;
     line_items := Some (s_line_items st);
     extraction_confidence := confidence;
     field_confidences := Some field_confidences |}.

(** ** [Extractor.extract]

    [settings.extraction_mode] and the generative path [_llm_extract] (a
    network call followed by JSON decoding) are parameters: the latter
    either returns an [ExtractedData] or raises. *)
Definition extract (mode : string)
    (_llm_extract : string -> result ExtractedData) (ocr_text : string)
  : result ExtractedData :=
  if String.eqb mode "llm" then
    match _llm_extract ocr_text with
    | Ok data => Ok data
    | Raise exc => Ok (_simple_extract ocr_text)
    end
  else Ok (_simple_extract ocr_text).

(* ===================================================================== *)
(** * [app/validation/rule_engine.py] *)
(* ===================================================================== *)

Record ValidationResult := {
  rule_name : string;
  passed : bool;
  score : Q;
  message : option string
}.

(** [repr(s)] of an ASCII string, as used by the [!r] conversion. *)
Module PyRepr.

Definition double_quote : ascii := ascii_of_nat 34.

Definition hex_digit (n : nat) : ascii :=
  if (n <? 10)%nat then ascii_of_nat (48 + n) else ascii_of_nat (87 + n).

Definition escape (quote : ascii) (c : ascii) : string :=
  let n := nat_of_ascii c in
  if Ascii.eqb c quote || Ascii.eqb c "\" then String "\" (String c "")
  else if (n =? 9)%nat then "\t"
  else if (n =? 10)%nat then "\n"
  else if (n =? 13)%nat then "\r"
  else if (n <? 32)%nat || (127 <=? n)%nat
       then String "\" (String "x" (String (hex_digit (n / 16))
                                      (String (hex_digit (n mod 16)) "")))
  else String c "".

Fixpoint body (quote : ascii) (s : string) : string :=
  match s with
  | EmptyString => EmptyString
  | String c s' => escape quote c ++ body quote s'
  end.

Definition repr (s : string) : string :=
  let quote : ascii :=
    if PyStr.has_char "'" s && negb (PyStr.has_char double_quote s)
    then double_quote else "'"%char in
  String quote (body quote s) ++ String quote "".

End PyRepr.

Module RuleEngine.

(** [not extracted.line_items]: [None] or the empty list. *)
Definition no_line_items (extracted : ExtractedData) : bool :=
  match line_items extracted with
  | None | Some [] => true
  | Some (_ :: _) => false
  end.

(** [not extracted.total_amount]: [None] or a zero decimal. *)
Definition no_total_amount (extracted : ExtractedData) : bool :=
  match total_amount extracted with
  | None => true
  | Some t => negb (PyDecimal.truthy t)
  end.

(** [sum(Decimal(str(item.get("total", 0))) for item in items
        if isinstance(item, dict))], starting from the integer 0; the
    first value that is not a decimal raises [InvalidOperation]. *)
Fixpoint sum_totals (acc : decimal) (items : list line_item)
  : result decimal :=
  match items with
  | [] => Ok acc
  | ItemOther :: rest => sum_totals acc rest
  | ItemDict _ None :: rest => sum_totals (PyDecimal.add acc PyDecimal.zero) rest
  | ItemDict _ (Some (TotalDecimal d)) :: rest =>
      sum_totals (PyDecimal.add acc d) rest
  | ItemDict _ (Some TotalNotDecimal) :: _ => Raise InvalidOperation
  end.

(** [Decimal("0.01")] *)
Definition tolerance : decimal := Dec 1 (-2).

Definition _validate_line_items_sum (extracted : ExtractedData)
  : result ValidationResult :=
  if no_line_items extracted || no_total_amount extracted then
    Ok {| rule_name := "line_items_sum"; passed := true; score := 1;
          message := Some "Skipped: no line items or total" |}
  else
    match line_items extracted, total_amount extracted with
    | Some items, Some total_amount =>
        match sum_totals PyDecimal.zero items with
        | Raise e => Raise e
        | Ok calculated_total =>
            let diff :=
              PyDecimal.abs (PyDecimal.sub calculated_total total_amount) in
            if PyDecimal.leb diff tolerance then
              Ok {| rule_name := "line_items_sum"; passed := true;
                    score := 1;
                    message := Some ("Line items sum matches total: "
                                     ++ PyDecimal.to_str calculated_total) |}
            else
              Ok {| rule_name := "line_items_sum"; passed := false;
                    score := 0;
                    message := Some ("Line items sum ("
                                     ++ PyDecimal.to_str calculated_total
                                     ++ ") does not match total ("
                                     ++ PyDecimal.to_str total_amount
                                     ++ ")") |}
        end
    | _, _ =>
        (* unreachable: both are present once the guard has failed *)
        Ok {| rule_name := "line_items_sum"; passed := true; score := 1;
              message := Some "Skipped: no line items or total" |}
    end.

Definition _validate_tax_id_format (extracted : ExtractedData)
  : ValidationResult :=
  match tax_id extracted with
  | Some raw_tax_id =>
      if PyStr.truthy raw_tax_id then
        let tax_id :=
          PyStr.remove_char " " (PyStr.remove_char "-" raw_tax_id) in
        if PyStr.isalnum tax_id
           && (5 <=? String.length tax_id)%nat
           && (String.length tax_id <=? 20)%nat
        then {| rule_name := "tax_id_format"; passed := true; score := 1;
                message := Some "Tax ID format is valid" |}
        else {| rule_name := "tax_id_format"; passed := false;
                score := 0.5;
                message := Some ("Tax ID format may be invalid: "
                                 ++ raw_tax_id) |}
      else {| rule_name := "tax_id_format"; passed := true; score := 1;
              message := Some "Skipped: no tax ID" |}
  | None => {| rule_name := "tax_id_format"; passed := true; score := 1;
               message := Some "Skipped: no tax ID" |}
  end.

Definition _validate_dates (extracted : ExtractedData) : ValidationResult :=
  match invoice_date extracted with
  | None => {| rule_name := "date_consistency"; passed := true; score := 1;
               message := Some "Skipped: no invoice date" |}
  | Some inv =>
      match due_date extracted with
      | Some due =>
          if PyDatetime.ltb due inv
          then {| rule_name := "date_consistency"; passed := false;
                  score := 0;
                  message := Some "Due date is before invoice date" |}
          else {| rule_name := "date_consistency"; passed := true;
                  score := 1; message := Some "Dates are consistent" |}
      | None => {| rule_name := "date_consistency"; passed := true;
                   score := 1; message := Some "Dates are consistent" |}
      end
  end.

Definition _validate_no_duplicate (extracted : ExtractedData)
    (existing_invoice_numbers : gset string) : ValidationResult :=
  let skipped :=
    {| rule_name := "duplicate_invoice"; passed := true; score := 1;
       message := Some "Skipped: no invoice number extracted" |} in
  match invoice_number extracted with
  | None => skipped
  | Some inv_num =>
      if negb (PyStr.truthy inv_num) then skipped
      else if bool_decide (inv_num ∈ existing_invoice_numbers)
      then {| rule_name := "duplicate_invoice"; passed := false; score := 0;
              message := Some ("Duplicate invoice number detected: "
                               ++ inv_num) |}
      else {| rule_name := "duplicate_invoice"; passed := true; score := 1;
              message := Some ("Invoice number " ++ PyRepr.repr inv_num
                               ++ " is unique") |}
  end.

(** [RuleEngine.validate]: the results are appended in this order; an
    exception of the first rule leaves no result. *)
Definition validate (extracted : ExtractedData)
    (existing_invoice_numbers : option (gset string))
  : result (list ValidationResult) :=
  match _validate_line_items_sum extracted with
  | Raise e => Raise e
  | Ok r1 =>
      let results :=
        [r1; _validate_tax_id_format extracted; _validate_dates extracted] in
      match existing_invoice_numbers with
      | Some known =>
          Ok (results ++ [_validate_no_duplicate extracted known])%list
      | None => Ok results
      end
  end.

End RuleEngine.

(** [app/validation/validator.py]: [Validator.validate] delegates. *)
Module Validator.
Definition validate := RuleEngine.validate.
End Validator.

(* ===================================================================== *)
(** * [app/confidence/confidence.py] *)
(* ===================================================================== *)

Record ConfidenceResult := {
  overall : Q;
  ocr_score : Q;
  extraction_score : Q;
  validation_score : Q;
  per_field : gmap string Q
}.

(** [round(x, ndigits)]: the nearest multiple of [10 ^ -ndigits], a tie
    going to the even one. *)
Definition py_round (x : Q) (ndigits : nat) : Q :=
  let scale := Z.to_pos (10 ^ Z.of_nat ndigits) in
  let scaled := (x * inject_Z (Z.pos scale))%Q in
  let f := Qfloor scaled in
  let n :=
    match Qcompare (scaled - inject_Z f) (1 # 2) with
    | Lt => f
    | Gt => (f + 1)%Z
    | Eq => if Z.even f then f else (f + 1)%Z
    end in
  Qmake n scale.

(** [max(a, b)] and [min(a, b)] of Python: the first argument unless the
    second is strictly greater (smaller). *)
Definition py_max (a b : Q) : Q := if Qlt_le_dec a b then b else a.
Definition py_min (a b : Q) : Q := if Qlt_le_dec b a then b else a.

Fixpoint sum_scores (rs : list ValidationResult) : Q :=
  match rs with
  | [] => 0%Q
  | r :: rs' => (score r + sum_scores rs')%Q
  end.

Definition canonical_fields (extracted : ExtractedData)
  : list (string * bool) :=
  [("vendor_name", is_some (vendor_name extracted));
   ("tax_id", is_some (tax_id extracted));
   ("invoice_number", is_some (invoice_number extracted));
   ("total_amount", is_some (total_amount extracted));
   ("invoice_date", is_some (invoice_date extracted));
   ("due_date", is_some (due_date extracted))].

(** The fallback loop over the six field names:
    [per_field[fname] = 0.8 if getattr(extracted, fname, None) is not None
    else 0.0]. *)
Definition heuristic_per_field (extracted : ExtractedData) : gmap string Q :=
  fold_left
    (fun (per_field : gmap string Q) (f : string * bool) =>
       <[fst f := if snd f then 0.8%Q else 0%Q]> per_field)
    (canonical_fields extracted) ∅.

Definition compute_confidence (ocr_confidence extraction_confidence : Q)
    (validation_results : list ValidationResult)
    (extracted : option ExtractedData) : ConfidenceResult :=
  let ocr_weight : Q := 0.30%Q in
  let extraction_weight : Q := 0.40%Q in
  let validation_weight : Q := 0.30%Q in
  let validation_score : Q :=
    match validation_results with
    | [] => 1%Q
    | _ => (sum_scores validation_results
            / inject_Z (Z.of_nat (length validation_results)))%Q
    end in
  let overall :=
    py_max 0%Q (py_min 1%Q
      (ocr_weight * ocr_confidence
       + extraction_weight * extraction_confidence
       + validation_weight * validation_score)%Q) in
  let per_field : gmap string Q :=
    match extracted with
    | None => ∅
    | Some extracted =>
        match field_confidences extracted with
        | Some fc =>
            if bool_decide (fc = ∅) then heuristic_per_field extracted
            else (fun v => py_round v 4) <$> fc
        | None => heuristic_per_field extracted
        end
    end in
  {| overall := py_round overall 4;
     ocr_score := py_round ocr_confidence 4;
     extraction_score := py_round extraction_confidence 4;
     validation_score := py_round validation_score 4;
     per_field := per_field |}.

(* ===================================================================== *)
(** * [app/db/models.py] and the session *)
(* ===================================================================== *)

(** Document identifiers are UUIDs, kept in their text form. *)
Abbreviation uuid := string (only parsing).

Module Models.

Record Document := {
  filename : string;
  content_type : string;
  status : string
}.

Record Extraction := {
  document_id : uuid;
  vendor_name : option string;
  tax_id : option string;
  invoice_number : option string;
  total_amount : option decimal;
  invoice_date : option datetime;
  due_date : option datetime;
  line_items : list line_item;
  field_confidences : option (gmap string Q);
  ocr_text : option string;
  ocr_confidence : option Q;
  extraction_confidence : option Q
}.

Record Validation := {
  v_document_id : uuid;
  rule_name : string;
  passed : bool;
  score : Q;
  message : option string
}.

Record ProcessingEvent := {
  e_document_id : uuid;
  step : string;
  e_status : string;
  detail : option string;
  duration_ms : option Z
}.

End Models.

(** The session and the database behind it: the documents by identifier,
    the rows added so far in insertion order, and the number of commits. *)
Record Store := {
  documents : gmap string Models.Document;
  extractions : list Models.Extraction;
  validations : list Models.Validation;
  events : list Models.ProcessingEvent;
  commits : nat
}.

(** ** The pipeline monad: the store is threaded through, and survives an
    exception. *)
Definition M (A : Type) : Type := Store -> result A * Store.

Definition ret {A} (a : A) : M A := fun st => (Ok a, st).

Definition raise {A} (e : exn) : M A := fun st => (Raise e, st).

Definition bind {A B} (c : M A) (k : A -> M B) : M B :=
  fun st =>
    match c st with
    | (Ok a, st') => k a st'
    | (Raise e, st') => (Raise e, st')
    end.

(** [try: body  except Exception: handler(exc)] *)
Definition try_except {A} (body : M A) (handler : exn -> M A) : M A :=
  fun st =>
    match body st with
    | (Ok a, st') => (Ok a, st')
    | (Raise e, st') => handler e st'
    end.

Definition lift {A} (r : result A) : M A := fun st => (r, st).

Definition modify (f : Store -> Store) : M unit := fun st => (Ok tt, f st).

Definition gets {A} (f : Store -> A) : M A := fun st => (Ok (f st), st).

Declare Scope pipeline_scope.
Delimit Scope pipeline_scope with pipeline.
Notation "'let*' x ':=' c 'in' k" := (bind c (fun x => k))
  (at level 10, x name, c at level 100, k at level 200) : pipeline_scope.
Notation "c ';;;' k" := (bind c (fun _ => k))
  (at level 100, k at level 200, right associativity) : pipeline_scope.

(** ** Session primitives *)
Module Session.

(** [session.get(Document, document_id)] *)
Definition get (document_id : uuid) : M (option Models.Document) :=
  gets (fun st => documents st !! document_id).

Definition with_status (s : string) (d : Models.Document)
  : Models.Document :=
  {| Models.filename := Models.filename d;
     Models.content_type := Models.content_type d;
     Models.status := s |}.

(** [doc.status = s] on the object the session tracks. *)
Definition set_status (document_id : uuid) (s : string) : M unit :=
  modify (fun st =>
    {| documents := alter (with_status s) document_id (documents st);
       extractions := extractions st;
       validations := validations st;
       events := events st;
       commits := commits st |}).

Definition add_extraction (x : Models.Extraction) : M unit :=
  modify (fun st =>
    {| documents := documents st;
       extractions := (extractions st ++ [x])%list;
       validations := validations st;
       events := events st;
       commits := commits st |}).

Definition add_validation (v : Models.Validation) : M unit :=
  modify (fun st =>
    {| documents := documents st;
       extractions := extractions st;
       validations := (validations st ++ [v])%list;
       events := events st;
       commits := commits st |}).

Definition add_event (e : Models.ProcessingEvent) : M unit :=
  modify (fun st =>
    {| documents := documents st;
       extractions := extractions st;
       validations := validations st;
       events := (events st ++ [e])%list;
       commits := commits st |}).

(** [await session.flush()]: the rows are already in the store. *)
Definition flush : M unit := ret tt.

Definition commit : M unit :=
  modify (fun st =>
    {| documents := documents st;
       extractions := extractions st;
       validations := validations st;
       events := events st;
       commits := S (commits st) |}).

End Session.

(* ===================================================================== *)
(** * [app/pipeline/pipeline.py] *)
(* ===================================================================== *)

(** [app/ocr/base_ocr.py] *)
Record OCRResult := { text : string; confidence : Q }.

(** An awaited provider call: the seconds that pass on the monotonic clock
    between the two readings of [_run_step], and how the call ends. *)
Record awaited (A : Type) := Await { elapsed : Q; outcome : result A }.
Arguments Await {A} elapsed outcome.
Arguments elapsed {A} a.
Arguments outcome {A} a.

(** What the pipeline is constructed with and what it reads from the
    settings: the OCR engine, the extraction mode, the generative
    extraction path, and the time the extraction takes. *)
Record Env := {
  ocr_engine : string -> awaited OCRResult;
  extraction_mode : string;
  _llm_extract : string -> result ExtractedData;
  extraction_elapsed : string -> Q
}.

(** [int(x)]: truncation towards zero. *)
Definition py_int (x : Q) : Z := Z.quot (Qnum x) (Z.pos (Qden x)).

(** [f"{x:.3f}"], for the scores the pipeline prints (none is negative
    after rounding, so the sign case is never "-0.000"). *)
Definition format_3f (x : Q) : string :=
  let n := Qnum (py_round x 3) in
  let frac := PyStr.of_N (Z.abs_N n mod 1000) in
  (if (n <? 0)%Z then "-" else "")
  ++ PyStr.of_N (Z.abs_N n / 1000) ++ "."
  ++ PyStr.zeros (3 - String.length frac) ++ frac.

Module ProcessingPipeline.
Local Open Scope pipeline_scope.

(** [_emit_event]: one [ProcessingEvent] row, then a flush. *)
Definition _emit_event (document_id : uuid) (step status : string)
    (detail : option string) (duration_ms : option Z) : M unit :=
  Session.add_event
    {| Models.e_document_id := document_id;
       Models.step := step;
       Models.e_status := status;
       Models.detail := detail;
       Models.duration_ms := duration_ms |} ;;;
  Session.flush.

(** [_run_step]: a "started" event, the awaited call, then a "completed"
    or a "failed" event with the measured duration; a failure is raised
    again. *)
Definition _run_step {A} (document_id : uuid) (step : string)
    (coro : awaited A) : M A :=
  _emit_event document_id step "started" None None ;;;
  let duration_ms := py_int (elapsed coro * 1000)%Q in
  match outcome coro with
  | Ok result =>
      _emit_event document_id step "completed" None (Some duration_ms) ;;;
      ret result
  | Raise exc =>
      _emit_event document_id step "failed" (Some (exn_msg exc))
                  (Some duration_ms) ;;;
      raise exc
  end.

(** The query of [_get_existing_invoice_numbers] and the set built from
    its rows: the invoice numbers of the extractions of the other
    documents, without [None] and without the empty string. *)
Definition other_invoice_numbers (current_document_id : uuid)
    (rows : list Models.Extraction) : gset string :=
  list_to_set
    (omap (fun x : Models.Extraction =>
             if String.eqb (Models.document_id x) current_document_id
             then None
             else match Models.invoice_number x with
                  | Some r => if PyStr.truthy r then Some r else None
                  | None => None
                  end)
          rows).

Definition _get_existing_invoice_numbers (current_document_id : uuid)
  : M (gset string) :=
  gets (fun st => other_invoice_numbers current_document_id (extractions st)).

(** [Validation(document_id=document_id, rule_name=vr.rule_name, ...)] *)
Definition validation_row (document_id : uuid) (vr : ValidationResult)
  : Models.Validation :=
  {| Models.v_document_id := document_id;
     Models.rule_name := rule_name vr;
     Models.passed := passed vr;
     Models.score := score vr;
     Models.message := message vr |}.

(** [for vr in validation_results: session.add(Validation(...))] *)
Fixpoint add_validations (document_id : uuid)
    (validation_results : list ValidationResult) : M unit :=
  match validation_results with
  | [] => ret tt
  | vr :: rest =>
      Session.add_validation (validation_row document_id vr) ;;;
      add_validations document_id rest
  end.

(** The status decided from the confidence and the rule results. *)
Definition final_status (confidence : ConfidenceResult)
    (validation_results : list ValidationResult) : string :=
  let all_passed := forallb passed validation_results in
  if (if Qlt_le_dec (overall confidence) 0.6 then true else false)
     || negb all_passed
  then "review" else "completed".

(** The body of the [try] statement of [process_document]. *)
Definition try_body (env : Env) (document_id : uuid) (pdf_bytes : string)
  : M unit :=
  Session.set_status document_id "processing" ;;;
  Session.flush ;;;
  let* ocr_result :=
    _run_step document_id "ocr" (ocr_engine env pdf_bytes) in
  let* extracted :=
    _run_step document_id "extraction"
      (Await (extraction_elapsed env (text ocr_result))
             (extract (extraction_mode env) (_llm_extract env)
                      (text ocr_result))) in
  let* existing_invoice_numbers :=
    _get_existing_invoice_numbers document_id in
  let* validation_results :=
    lift (Validator.validate extracted (Some existing_invoice_numbers)) in
  _emit_event document_id "validation" "completed"
    (Some (PyStr.of_N (N.of_nat (length validation_results))
           ++ " rules evaluated, "
           ++ PyStr.of_N (N.of_nat
                (length (List.filter passed validation_results)))
           ++ " passed"))
    None ;;;
  let ocr_confidence := confidence ocr_result in
  let confidence :=
    compute_confidence ocr_confidence
      (extraction_confidence extracted) validation_results
      (Some extracted) in
  _emit_event document_id "confidence" "completed"
    (Some ("overall=" ++ format_3f (overall confidence))) None ;;;
  Session.add_extraction
    {| Models.document_id := document_id;
       Models.vendor_name := vendor_name extracted;
       Models.tax_id := tax_id extracted;
       Models.invoice_number := invoice_number extracted;
       Models.total_amount := total_amount extracted;
       Models.invoice_date := invoice_date extracted;
       Models.due_date := due_date extracted;
       Models.line_items := default [] (line_items extracted);
       Models.field_confidences :=
         if bool_decide (per_field confidence = ∅) then None
         else Some (per_field confidence);
       Models.ocr_text := Some (text ocr_result);
       Models.ocr_confidence := Some ocr_confidence;
       Models.extraction_confidence :=
         Some (extraction_confidence extracted) |} ;;;
  add_validations document_id validation_results ;;;
  let status := final_status confidence validation_results in
  Session.set_status document_id status ;;;
  Session.commit ;;;
  _emit_event document_id "completed" "completed"
    (Some ("final_status=" ++ status
           ++ " confidence=" ++ format_3f (overall confidence)))
    None ;;;
  Session.commit.

(** The [except Exception] clause of [process_document]. *)
Definition on_exception (document_id : uuid) (exc : exn) : M unit :=
  Session.set_status document_id "failed" ;;;
  Session.commit ;;;
  _emit_event document_id "failed" "failed" (Some "Unhandled exception")
              None ;;;
  Session.commit ;;;
  raise exc.

Definition process_document (env : Env) (document_id : uuid)
    (pdf_bytes : string) : M unit :=
  let* doc := Session.get document_id in
  match doc with
  | None =>
      raise (Exn "ValueError" ("Document " ++ document_id ++ " not found"))
  | Some doc =>
      if String.eqb (Models.status doc) "completed" then ret tt
      else try_except (try_body env document_id pdf_bytes)
                      (on_exception document_id)
  end.

End ProcessingPipeline.

(* ===================================================================== *)
(** * [app/ocr/engines.py], [app/ocr/mock_ocr.py], [app/ocr/factory.py] *)
(* ===================================================================== *)

(** [sep.join(parts)] *)
Fixpoint py_join (sep : string) (parts : list string) : string :=
  match parts with
  | [] => EmptyString
  | [p] => p
  | p :: rest => p ++ sep ++ py_join sep rest
  end.

(** [sum(confidences) / len(confidences) if confidences else 0.0] *)
Definition average (confidences : list Q) : Q :=
  match confidences with
  | [] => 0%Q
  | _ => (fold_left Qplus confidences 0 / inject_Z (Z.of_nat (length confidences)))%Q
  end.

Module Engines.

(** A block of the Textract response, by the keys [_call_textract] reads;
    [None] is an absent key.  The values are taken as Textract sends
    them: texts are strings, confidences are numbers.  Building the
    client and decoding the image are outside the model: the engines are
    modelled from the provider's answer on. *)
Record Block := {
  BlockType : option string;
  Text : option string;
  Confidence : option Q
}.

Definition KeyError (key : string) : exn := Exn "KeyError" (PyRepr.repr key).

(** The loop of [_call_textract] over [response.get("Blocks", [])]:
    [block["BlockType"]] raises [KeyError] when the key is absent. *)
Fixpoint collect_lines (blocks : list Block) (lines : list string)
    (confidences : list Q) : result (list string * list Q) :=
  match blocks with
  | [] => Ok (lines, confidences)
  | block :: rest =>
      match BlockType block with
      | None => Raise (KeyError "BlockType")
      | Some block_type =>
          if String.eqb block_type "LINE" then
            collect_lines rest
              (lines ++ [default EmptyString (Text block)])%list
              (confidences ++ [(default 0 (Confidence block) / 100)%Q])%list
          else collect_lines rest lines confidences
      end
  end.

(** [CloudOCREngine._call_textract], from the response of the client
    (its ["Blocks"], [None] when the key is absent). *)
Definition _call_textract (blocks : option (list Block)) : result OCRResult :=
  match collect_lines (default [] blocks) [] [] with
  | Raise e => Raise e
  | Ok (lines, confidences) =>
      Ok {| text := py_join (String "010" EmptyString) lines;
            confidence := average confidences |}
  end.

(** What [ocr.ocr] returns is [None] or a list whose first element is
    [None] or the lines detected, each a text with its confidence.
    [detected_lines] is [result[0]] under the guard
    [if result and result[0]], and no line otherwise. *)
Definition detected_lines
    (result : option (list (option (list (string * Q)))))
  : list (string * Q) :=
  match result with
  | Some (Some lines :: _) => lines
  | _ => []
  end.

(** [LocalOCREngine.extract_text], from what [ocr.ocr] returns. *)
Definition local_extract_text
    (result : option (list (option (list (string * Q))))) : OCRResult :=
  {| text :=
       py_join (String "010" EmptyString)
         (List.map fst (detected_lines result));
     confidence := average (List.map snd (detected_lines result)) |}.

End Engines.

(** [MockOCREngine.extract_text] *)
Definition mock_extract_text (image_bytes : string) : OCRResult :=
  {| text :=
       py_join (String "010" EmptyString)
         ["INVOICE"; "Vendor: Acme Corp"; "Tax ID: 12-3456789";
          "Invoice #: INV-2024-001"; "Date: 2024-01-15"; "";
          "Line Items:"; "Item 1: $100.00"; "Item 2: $200.00";
          "Total: $300.00"];
     confidence := 0.85 |}.

(** The engines [get_ocr_engine] can return. *)
Inductive engine :=
| MockOCREngine
| LocalOCREngine (lang : string) (use_gpu : bool)
| CloudOCREngine (region : string)
    (aws_access_key_id aws_secret_access_key : option string).

(** The settings [get_ocr_engine] reads. *)
Record OcrSettings := {
  ocr_provider : string;
  paddle_lang : string;
  paddle_use_gpu : bool;
  aws_region : string;
  aws_access_key_id : option string;
  aws_secret_access_key : option string
}.

(** [get_ocr_engine] *)
Definition get_ocr_engine (settings : OcrSettings) : result engine :=
  let provider := PyStr.strip (PyStr.lower (ocr_provider settings)) in
  if String.eqb provider "mock" then Ok MockOCREngine
  else if String.eqb provider "paddleocr" then
    Ok (LocalOCREngine (paddle_lang settings) (paddle_use_gpu settings))
  else if String.eqb provider "aws_textract" then
    Ok (CloudOCREngine (aws_region settings) (aws_access_key_id settings)
          (aws_secret_access_key settings))
  else Raise (Exn "ValueError"
                ("Unknown OCR_PROVIDER=" ++ PyRepr.repr (ocr_provider settings))).

(* ===================================================================== *)
(** * [app/api/routes.py]: [upload_document] *)
(* ===================================================================== *)

Module Routes.

(** The uploaded file: its name, its content type and its bytes. *)
Record UploadFile := {
  filename : option string;
  content_type : option string;
  contents : string
}.

Record DocumentUploadResponse := { document_id : uuid; status : string }.

(** [HTTPException(status_code, detail)] *)
Definition HTTPException (status_code : N) (detail : string) : exn :=
  Exn "HTTPException" (PyStr.of_N status_code ++ ": " ++ detail).

(** [session.add(doc)] followed by the flush that gives the row its
    identifier; [new_id] is the UUID that [uuid.uuid4] draws. *)
Definition add_document (new_id : uuid) (doc : Models.Document) : M unit :=
  modify (fun st =>
    {| documents := <[new_id := doc]> (documents st);
       extractions := extractions st;
       validations := validations st;
       events := events st;
       commits := commits st |}).

(** The pipeline [upload_document] constructs: the engine the factory
    returned, run by [run_engine]; the extractor reads the rest of [env]
    from the settings. *)
Definition pipeline_env (run_engine : engine -> string -> awaited OCRResult)
    (env : Env) (ocr_engine : engine) : Env :=
  {| ocr_engine := run_engine ocr_engine;
     extraction_mode := extraction_mode env;
     _llm_extract := _llm_extract env;
     extraction_elapsed := extraction_elapsed env |}.

(** [not x] for an optional string: [None] and the empty string. *)
Definition falsy (x : option string) : bool :=
  negb (PyStr.truthy (default EmptyString x)).

(** [upload_document].  [run_engine] is [extract_text] of each engine
    class; the [ocr_engine] field of [env] is not read.  [doc] is the
    object the session tracks, so the status of the response is read back
    from the store after the pipeline has run. *)
Definition upload_document (settings : OcrSettings)
    (run_engine : engine -> string -> awaited OCRResult) (env : Env)
    (new_id : uuid) (file : UploadFile) : M DocumentUploadResponse :=
  (if falsy (filename file) then
     raise (HTTPException 400 "Missing filename")
   else
     let content_type :=
       if falsy (content_type file) then "application/pdf"
       else default EmptyString (content_type file) in
     if negb (String.eqb content_type "application/pdf") then
       raise (HTTPException 415
                ("Unsupported content_type=" ++ PyRepr.repr content_type))
     else
       let pdf_bytes := contents file in
       add_document new_id
         {| Models.filename := default EmptyString (filename file);
            Models.content_type := content_type;
            Models.status := "pending" |} ;;;
       Session.flush ;;;
       let* ocr_engine := lift (get_ocr_engine settings) in
       ProcessingPipeline.process_document
         (pipeline_env run_engine env ocr_engine) new_id pdf_bytes ;;;
       let* doc := Session.get new_id in
       ret {| document_id := new_id;
              status := default EmptyString (Models.status <$> doc) |})%pipeline.

End Routes.

(* ===================================================================== *)
(** * Fixtures, after [app/ocr/mock_ocr.py] and [tests/] *)
(* ===================================================================== *)

Module Fixtures.

Definition nl : string := String "010" EmptyString.

(** The text [MockOCREngine.extract_text] returns. *)
Definition mock_text : string :=
  "INVOICE" ++ nl ++ "Vendor: Acme Corp" ++ nl ++ "Tax ID: 12-3456789" ++ nl
  ++ "Invoice #: INV-2024-001" ++ nl ++ "Date: 2024-01-15" ++ nl ++ nl
  ++ "Line Items:" ++ nl ++ "Item 1: $100.00" ++ nl ++ "Item 2: $200.00" ++ nl
  ++ "Total: $300.00".

Definition mock_ocr_result : OCRResult :=
  {| text := mock_text; confidence := 0.85 |}.

Definition no_llm (_ : string) : result ExtractedData :=
  Raise (Exn "RuntimeError" "openai package is not installed. Run: pip install openai").

(** [MockOCREngine] with the pattern-based extractor; the OCR call takes
    12.3 ms and the extraction 0.4 ms. *)
Definition mock_env : Env :=
  {| ocr_engine := fun _ => Await (123 # 10000) (Ok mock_ocr_result);
     extraction_mode := "simple";
     _llm_extract := no_llm;
     extraction_elapsed := fun _ => (4 # 10000)%Q |}.

(** An OCR engine that raises, as in
    [test_pipeline_marks_failed_on_ocr_error]. *)
Definition failing_ocr_env : Env :=
  {| ocr_engine := fun _ =>
       Await (2 # 1000) (Raise (Exn "RuntimeError" "OCR hardware error"));
     extraction_mode := "simple";
     _llm_extract := no_llm;
     extraction_elapsed := fun _ => 0%Q |}.

(** [_make_doc(status)] and a session holding that one document. *)
Definition make_doc (status : string) : Models.Document :=
  {| Models.filename := "test_invoice.pdf";
     Models.content_type := "application/pdf";
     Models.status := status |}.

Definition doc_id : uuid := "0b6f0d3e-7c1a-4e57-9d55-2f1f4f6f9a10".

Definition make_store (status : string) : Store :=
  {| documents := {[ doc_id := make_doc status ]};
     extractions := []; validations := []; events := []; commits := 0 |}.

(** A row for another document that already carries the invoice number of
    the mock text, as in [test_pipeline_detects_duplicate_invoice]. *)
Definition other_extraction : Models.Extraction :=
  {| Models.document_id := "5d0c2f0a-0d3b-4b0e-8a57-6c2b7a1e42c3";
     Models.vendor_name := None; Models.tax_id := None;
     Models.invoice_number := Some "INV-2024-001";
     Models.total_amount := None; Models.invoice_date := None;
     Models.due_date := None; Models.line_items := [];
     Models.field_confidences := None; Models.ocr_text := None;
     Models.ocr_confidence := None; Models.extraction_confidence := None |}.

(** [_make_extracted] of [tests/test_validator.py] *)
Definition make_extracted (tax : option string) (number : option string)
    (total : option decimal) (inv due : option datetime)
    (items : option (list line_item)) : ExtractedData :=
  {| vendor_name := None; tax_id := tax; invoice_number := number;
     total_amount := total; invoice_date := inv; due_date := due;
     line_items := items; extraction_confidence := 0.8;
     field_confidences := None |}.

(** [test_validate_duplicate_detected]: the invoice number "INV-001"
    against the known numbers "INV-001" and "INV-002". *)
Definition duplicate_case : ExtractedData :=
  make_extracted None (Some "INV-001") None None None None.

Definition known_numbers : gset string := {[ "INV-001"; "INV-002" ]}.




(** Two lines with the word "total" and a dollar sign; the second has
    nothing after the sign. *)
Definition two_totals_text : string :=
  "Total: $300.00" ++ nl ++ "Totals are in US$".

(** [test_pipeline_processes_document_successfully],
    [test_pipeline_marks_failed_on_ocr_error] and
    [test_pipeline_skips_already_completed_document]. *)
Definition successful_run : result unit * Store :=
  ProcessingPipeline.process_document mock_env doc_id "fake pdf bytes"
    (make_store "pending").


End Fixtures.

(* ===================================================================== *)
(** * Definitions used to state the properties *)
(* ===================================================================== *)

(** An audit row, for stating what the pipeline writes. *)
Definition event (document_id : uuid) (step status : string)
    (detail : option string) (duration_ms : option Z)
  : Models.ProcessingEvent :=
  {| Models.e_document_id := document_id; Models.step := step;
     Models.e_status := status; Models.detail := detail;
     Models.duration_ms := duration_ms |}.

(** The status of a document in the store. *)
Definition status_of (st : Store) (document_id : uuid) : option string :=
  Models.status <$> documents st !! document_id.

(** A result is well scored when it passed with score 1, or failed with
    score 0 or 0.5. *)
Definition well_scored (r : ValidationResult) : Prop :=
  (passed r = true /\ score r = 1%Q)
  \/ (passed r = false /\ (score r = 0%Q \/ score r = 0.5%Q)).

(** Clamping to [0, 1]. *)
Definition clamp01 (x : Q) : Q :=
  if Qlt_le_dec x 0 then 0%Q else if Qlt_le_dec 1 x then 1%Q else x.

(** The arithmetic mean of the scores of a non-empty list of results. *)
Definition mean_score (rs : list ValidationResult) : Q :=
  (sum_scores rs / inject_Z (Z.of_nat (length rs)))%Q.

(** The number ten, the base of [PyDecimal.value]. *)
Definition ten : Q := 10 # 1.

(** What a line item contributes to the sum, as a rational: the value of
    its total, 0 when the key is absent or the element is not a [dict]. *)
Definition item_amount (it : line_item) : Q :=
  match it with
  | ItemDict _ (Some (TotalDecimal d)) => PyDecimal.value d
  | _ => 0%Q
  end.

Fixpoint items_total (items : list line_item) : Q :=
  match items with
  | [] => 0%Q
  | it :: rest => (item_amount it + items_total rest)%Q
  end.

(** The total of a line item, when there is one, converts to a decimal. *)
Definition total_is_decimal (it : line_item) : Prop :=
  match it with
  | ItemDict _ (Some TotalNotDecimal) => False
  | _ => True
  end.



(** The last line that satisfies [p], and the first one. *)
Fixpoint last_such (p : string -> bool) (lines : list string) : option string :=
  match lines with
  | [] => None
  | l :: rest =>
      match last_such p rest with
      | Some l' => Some l'
      | None => if p l then Some l else None
      end
  end.

Definition first_such (p : string -> bool) (lines : list string)
  : option string := List.find p lines.

Definition colon_line (cue : string -> bool) (line : string) : bool :=
  cue line && PyStr.has_char ":" line.

Definition amount_line (line : string) : bool :=
  total_cue line && PyStr.truthy (amount_str line).

Definition date_of (line : string) : option datetime :=
  _parse_date (Some (raw_date line)).

Definition amount_of (line : string) : option decimal :=
  _parse_decimal (Some (amount_str line)).

Definition parsed_date_line (line : string) : bool :=
  invoice_date_cue line && is_some (date_of line).

(** The total as the specification has it: the last total line with a
    currency marker decides. *)
Definition total_amount_as_claimed (text : string) : option decimal :=
  last_such total_cue (PyStr.split "010" text) ≫= amount_of.

(* ===================================================================== *)
(** * Sample uploads and engine results *)
(* ===================================================================== *)

Module Samples.

(** An upload of a PDF, and one of a PNG image. *)
Definition pdf_upload : Routes.UploadFile :=
  {| Routes.filename := Some "invoice.pdf";
     Routes.content_type := Some "application/pdf";
     Routes.contents := "%PDF-1.4" |}.


(** The defaults of [app/core/config.py], and a provider that does not
    exist. *)
Definition default_settings : OcrSettings :=
  {| ocr_provider := "mock"; paddle_lang := "en"; paddle_use_gpu := false;
     aws_region := "us-east-1"; aws_access_key_id := None;
     aws_secret_access_key := None |}.

Definition tesseract_settings : OcrSettings :=
  {| ocr_provider := "tesseract"; paddle_lang := "en";
     paddle_use_gpu := false; aws_region := "us-east-1";
     aws_access_key_id := None; aws_secret_access_key := None |}.

(** A machine where only the mock engine can run: the two others fail on
    their missing package. *)
Definition run_engine (e : engine) (image_bytes : string)
  : awaited OCRResult :=
  match e with
  | MockOCREngine => Await (123 # 10000) (Ok (mock_extract_text image_bytes))
  | LocalOCREngine _ _ =>
      Await 0
        (Raise (Exn "RuntimeError"
                  "PaddleOCR is not installed. Run: pip install paddlepaddle paddleocr"))
  | CloudOCREngine _ _ _ =>
      Await 0
        (Raise (Exn "RuntimeError"
                  "boto3 is not installed. Run: pip install boto3"))
  end.

Definition new_id : uuid := "7f0c9f0e-4f62-4a0b-9a55-0c1d2e3f4a5b".

Definition empty_store : Store :=
  {| documents := ∅; extractions := []; validations := []; events := [];
     commits := 0 |}.

(** A store where another document already carries the invoice number of
    the mock text. *)
Definition store_with_other : Store :=
  {| documents := {[ Fixtures.doc_id := Fixtures.make_doc "pending" ]};
     extractions := [Fixtures.other_extraction];
     validations := []; events := []; commits := 0 |}.

(** A Textract response: a page, two lines and a word. *)
Definition blocks : list Engines.Block :=
  [ {| Engines.BlockType := Some "PAGE"; Engines.Text := None;
       Engines.Confidence := None |};
    {| Engines.BlockType := Some "LINE";
       Engines.Text := Some "Vendor: Acme Corp";
       Engines.Confidence := Some (991 # 10) |};
    {| Engines.BlockType := Some "LINE";
       Engines.Text := Some "Total: $300.00";
       Engines.Confidence := Some (975 # 10) |};
    {| Engines.BlockType := Some "WORD"; Engines.Text := Some "Vendor:";
       Engines.Confidence := Some (99 # 1) |} ].

(** What PaddleOCR returns for a page with two lines. *)
Definition paddle_result : option (list (option (list (string * Q)))) :=
  Some [Some [("Invoice #: INV-7", 0.98%Q); ("Total: $12.50", 0.91%Q)]].




Definition duplicate_run : result unit * Store :=
  ProcessingPipeline.process_document Fixtures.mock_env Fixtures.doc_id
    "bytes" store_with_other.

Definition pdf_run : result Routes.DocumentUploadResponse * Store :=
  Routes.upload_document default_settings run_engine Fixtures.mock_env
    new_id pdf_upload empty_store.


End Samples.

(* ===================================================================== *)
(** * Definitions used to state further properties *)
(* ===================================================================== *)

(** The [Extraction] row [process_document] builds from the OCR result,
    the extracted data and the confidence result. *)
Definition extraction_row (document_id : uuid) (o : OCRResult)
    (x : ExtractedData) (c : ConfidenceResult) : Models.Extraction :=
  {| Models.document_id := document_id;
     Models.vendor_name := vendor_name x;
     Models.tax_id := tax_id x;
     Models.invoice_number := invoice_number x;
     Models.total_amount := total_amount x;
     Models.invoice_date := invoice_date x;
     Models.due_date := due_date x;
     Models.line_items := default [] (line_items x);
     Models.field_confidences :=
       if bool_decide (per_field c = ∅) then None else Some (per_field c);
     Models.ocr_text := Some (text o);
     Models.ocr_confidence := Some (confidence o);
     Models.extraction_confidence := Some (extraction_confidence x) |}.

(** The store after the [except] clause has run on [st]. *)
Definition marked_failed (document_id : uuid) (st : Store) : Store :=
  {| documents :=
       alter (Session.with_status "failed") document_id (documents st);
     extractions := extractions st;
     validations := validations st;
     events :=
       (events st
        ++ [event document_id "failed" "failed" (Some "Unhandled exception")
              None])%list;
     commits := S (S (commits st)) |}.

(** The seven audit rows of a successful run. *)
Definition success_rows (env : Env) (document_id pdf_bytes : string)
    (o : OCRResult) (rs : list ValidationResult) (c : ConfidenceResult)
  : list Models.ProcessingEvent :=
  [event document_id "ocr" "started" None None;
   event document_id "ocr" "completed" None
     (Some (py_int (elapsed (ocr_engine env pdf_bytes) * 1000)));
   event document_id "extraction" "started" None None;
   event document_id "extraction" "completed" None
     (Some (py_int (extraction_elapsed env (text o) * 1000)));
   event document_id "validation" "completed"
     (Some (PyStr.of_N (N.of_nat (length rs)) ++ " rules evaluated, "
            ++ PyStr.of_N (N.of_nat (length (List.filter passed rs)))
            ++ " passed"))
     None;
   event document_id "confidence" "completed"
     (Some ("overall=" ++ format_3f (overall c))) None;
   event document_id "completed" "completed"
     (Some ("final_status=" ++ ProcessingPipeline.final_status c rs
            ++ " confidence=" ++ format_3f (overall c)))
     None].

(** The store after a successful run on [st]. *)
Definition processed (env : Env) (document_id pdf_bytes : string)
    (o : OCRResult) (x : ExtractedData) (rs : list ValidationResult)
    (st : Store) : Store :=
  let c := compute_confidence (confidence o) (extraction_confidence x) rs
             (Some x) in
  {| documents :=
       alter (Session.with_status (ProcessingPipeline.final_status c rs))
         document_id
         (alter (Session.with_status "processing") document_id (documents st));
     extractions := (extractions st ++ [extraction_row document_id o x c])%list;
     validations :=
       (validations st
        ++ List.map (ProcessingPipeline.validation_row document_id) rs)%list;
     events := (events st ++ success_rows env document_id pdf_bytes o rs c)%list;
     commits := S (S (commits st)) |}.

(** The store after the OCR step has failed with [e] in the [try] body. *)
Definition ocr_failed (env : Env) (document_id pdf_bytes : string) (e : exn)
    (st : Store) : Store :=
  {| documents :=
       alter (Session.with_status "processing") document_id (documents st);
     extractions := extractions st;
     validations := validations st;
     events :=
       (events st
        ++ [event document_id "ocr" "started" None None;
            event document_id "ocr" "failed" (Some (exn_msg e))
              (Some (py_int (elapsed (ocr_engine env pdf_bytes) * 1000)))])%list;
     commits := commits st |}.

(** The store after validation has raised in the [try] body. *)
Definition validation_failed (env : Env) (document_id pdf_bytes : string)
    (o : OCRResult) (st : Store) : Store :=
  {| documents :=
       alter (Session.with_status "processing") document_id (documents st);
     extractions := extractions st;
     validations := validations st;
     events :=
       (events st
        ++ [event document_id "ocr" "started" None None;
            event document_id "ocr" "completed" None
              (Some (py_int (elapsed (ocr_engine env pdf_bytes) * 1000)));
            event document_id "extraction" "started" None None;
            event document_id "extraction" "completed" None
              (Some (py_int (extraction_elapsed env (text o) * 1000)))])%list;
     commits := commits st |}.

(** The outcome of [process_document], case by case. *)
Inductive run_outcome (env : Env) (document_id pdf_bytes : string)
    (st : Store) : result unit -> Store -> Prop :=
| run_not_found :
    documents st !! document_id = None ->
    run_outcome env document_id pdf_bytes st
      (Raise (Exn "ValueError" ("Document " ++ document_id ++ " not found")))
      st
| run_skipped doc :
    documents st !! document_id = Some doc ->
    Models.status doc = "completed" ->
    run_outcome env document_id pdf_bytes st (Ok tt) st
| run_ocr_failed doc e :
    documents st !! document_id = Some doc ->
    Models.status doc <> "completed" ->
    outcome (ocr_engine env pdf_bytes) = Raise e ->
    run_outcome env document_id pdf_bytes st (Raise e)
      (marked_failed document_id (ocr_failed env document_id pdf_bytes e st))
| run_validation_failed doc o x e :
    documents st !! document_id = Some doc ->
    Models.status doc <> "completed" ->
    outcome (ocr_engine env pdf_bytes) = Ok o ->
    extract (extraction_mode env) (_llm_extract env) (text o) = Ok x ->
    Validator.validate x
      (Some (ProcessingPipeline.other_invoice_numbers document_id (extractions st))) = Raise e ->
    run_outcome env document_id pdf_bytes st (Raise e)
      (marked_failed document_id
         (validation_failed env document_id pdf_bytes o st))
| run_processed doc o x rs :
    documents st !! document_id = Some doc ->
    Models.status doc <> "completed" ->
    outcome (ocr_engine env pdf_bytes) = Ok o ->
    extract (extraction_mode env) (_llm_extract env) (text o) = Ok x ->
    Validator.validate x
      (Some (ProcessingPipeline.other_invoice_numbers document_id (extractions st))) = Ok rs ->
    run_outcome env document_id pdf_bytes st (Ok tt) (processed env document_id pdf_bytes o x rs st).

(** A line item as the pattern-based extractor writes it: a [dict] with a
    non-empty description and a total that is a decimal, not negative,
    with no positive exponent. *)
Definition pattern_item (it : line_item) : Prop :=
  match it with
  | ItemDict desc (Some (TotalDecimal d)) =>
      desc <> EmptyString /\ (0 <= coeff d)%Z /\ (exp d <= 0)%Z
  | _ => False
  end.

(** [0.8 if present else 0.0] *)
Definition presence (present : bool) : Q := if present then 0.8%Q else 0%Q.

(** The six field names of the per-field scores. *)
Definition six_fields : gset string :=
  {[ "vendor_name"; "tax_id"; "invoice_number"; "total_amount";
     "invoice_date"; "due_date" ]}.

(** A calendar date that exists, with a year of at most four digits. *)
Definition valid_date (t : datetime) : Prop :=
  (1 <= year t <= 9999)%Z /\ (1 <= month t <= 12)%Z
  /\ (1 <= day t <= PyDatetime.days_in_month (year t) (month t))%Z.

(** [t.strftime("%Y-%m-%d")]: four, two and two digits. *)
Definition digit_char (n : Z) : ascii := ascii_of_nat (48 + Z.to_nat n).

Definition two_digits (n : Z) : string :=
  String (digit_char (n / 10)) (String (digit_char (n mod 10)) EmptyString).

Definition four_digits (n : Z) : string :=
  String (digit_char (n / 1000))
    (String (digit_char (n / 100 mod 10)) (two_digits (n mod 100))).

Definition isoformat (t : datetime) : string :=
  four_digits (year t) ++ "-" ++ two_digits (month t) ++ "-"
  ++ two_digits (day t).

(** What a directive can read. *)
Definition reads (d : PyDatetime.directive) (v : Z) : Prop :=
  match d with
  | PyDatetime.DY => (0 <= v <= 9999)%Z
  | PyDatetime.Dm => (1 <= v <= 12)%Z
  | PyDatetime.Dd => (1 <= v <= 31)%Z
  | PyDatetime.DLit _ => True
  end.

(** The blocks [_call_textract] keeps, and what it reads from them. *)
Definition is_line (block : Engines.Block) : bool :=
  match Engines.BlockType block with
  | Some block_type => String.eqb block_type "LINE"
  | None => false
  end.

Definition line_texts (blocks : list Engines.Block) : list string :=
  List.map (fun block => default EmptyString (Engines.Text block))
    (List.filter is_line blocks).

Definition line_confidences (blocks : list Engines.Block) : list Q :=
  List.map (fun block => (default 0 (Engines.Confidence block) / 100)%Q)
    (List.filter is_line blocks).

(** A recognised line that holds no line break. *)
Definition one_line (s : string) : Prop := PyStr.has_char "010" s = false.

(** The score stored under [field] is that of [present]. *)
Definition scored (scores : gmap string Q) (field : string) (present : bool)
  : Prop :=
  exists v, scores !! field = Some v /\ (v == presence present)%Q.

(** An upload that [upload_document] turns down. *)
Definition rejected (file : Routes.UploadFile) : Prop :=
  Routes.filename file = None \/ Routes.filename file = Some EmptyString
  \/ exists content_type,
       Routes.content_type file = Some content_type
       /\ content_type <> EmptyString
       /\ content_type <> "application/pdf".

(** Another document's stored extraction carries the invoice number [n]. *)
Definition known_elsewhere (document_id : uuid) (n : string) (st : Store)
  : Prop :=
  exists row, In row (extractions st)
              /\ Models.document_id row <> document_id
              /\ Models.invoice_number row = Some n.

(** The row [upload_document] creates, and the store once it is added. *)
Definition pending_document (file : Routes.UploadFile) : Models.Document :=
  {| Models.filename := default EmptyString (Routes.filename file);
     Models.content_type := "application/pdf";
     Models.status := "pending" |}.

Definition with_pending (new_id : uuid) (file : Routes.UploadFile)
    (st : Store) : Store :=
  {| documents := <[new_id := pending_document file]> (documents st);
     extractions := extractions st;
     validations := validations st;
     events := events st;
     commits := commits st |}.

(* ===================================================================== *)
(** * Theorems *)
(* ===================================================================== *)

(* ===================================================================== *)
(** * The pipeline: runs of [process_document] *)
(* ===================================================================== *)

Section PipelineRuns.
Import ProcessingPipeline.

Variable env : Env.
Variables document_id pdf_bytes : string.

Ltac run_pipeline :=
  cbv [bind Session.set_status Session.flush modify ret _run_step
       _emit_event Session.add_event raise _get_existing_invoice_numbers
       gets lift Session.add_extraction Session.commit
       documents extractions validations events commits].

Ltac project_store :=
  cbn [documents extractions validations events commits] in *.

Lemma add_validations_run rs st :
  exists st', add_validations document_id rs st = (Ok tt, st')
    /\ documents st' = documents st /\ extractions st' = extractions st
    /\ validations st'
       = (validations st ++ List.map (validation_row document_id) rs)%list
    /\ events st' = events st /\ commits st' = commits st.
Proof.
  revert st. induction rs as [|vr rs' IH]; intros st.
  - exists st. cbn. rewrite app_nil_r. tauto.
  - cbn [add_validations]. unfold bind at 1.
    cbn [Session.add_validation modify].
    match goal with |- context [add_validations _ rs' ?s] =>
      destruct (IH s) as (st' & Hrun & Hd & Hx & Hv & He & Hc) end.
    exists st'. rewrite Hrun. project_store.
    rewrite Hv, <- app_assoc. tauto.
Qed.

(** A run of the [try] body that ends normally went through every step:
    OCR, extraction and validation returned, and the store holds the
    decided status, the seven audit rows, the validation rows and two
    more commits. *)
Lemma try_body_ok_inv st st' :
  try_body env document_id pdf_bytes st = (Ok tt, st') ->
  exists o x rs,
    outcome (ocr_engine env pdf_bytes) = Ok o
    /\ extract (extraction_mode env) (_llm_extract env) (text o) = Ok x
    /\ Validator.validate x
         (Some (other_invoice_numbers document_id (extractions st))) = Ok rs
    /\ let c := compute_confidence (confidence o) (extraction_confidence x)
                  rs (Some x) in
       documents st' =
         alter (Session.with_status (final_status c rs)) document_id
           (alter (Session.with_status "processing") document_id
                  (documents st))
       /\ (exists m1 m2 m3,
            events st' =
            (events st ++
             [event document_id "ocr" "started" None None;
              event document_id "ocr" "completed" None
                (Some (py_int (elapsed (ocr_engine env pdf_bytes) * 1000)));
              event document_id "extraction" "started" None None;
              event document_id "extraction" "completed" None
                (Some (py_int (extraction_elapsed env (text o) * 1000)));
              event document_id "validation" "completed" (Some m1) None;
              event document_id "confidence" "completed" (Some m2) None;
              event document_id "completed" "completed" (Some m3) None])%list)
       /\ validations st'
          = (validations st ++ List.map (validation_row document_id) rs)%list
       /\ commits st' = S (S (commits st)).
Proof.
  unfold try_body. intros Hrun. destruct st as [docs xs vs es n].
  project_store.
  destruct (outcome (ocr_engine env pdf_bytes)) as [o|e] eqn:Hocr.
  2:{ exfalso. revert Hrun. run_pipeline. rewrite Hocr. discriminate. }
  destruct (extract (extraction_mode env) (_llm_extract env) (text o))
    as [x|e] eqn:Hx.
  2:{ exfalso. revert Hrun. run_pipeline. rewrite Hocr. cbn [outcome].
      rewrite Hx. discriminate. }
  destruct (Validator.validate x
              (Some (other_invoice_numbers document_id xs)))
    as [rs|e] eqn:Hv.
  2:{ exfalso. revert Hrun. run_pipeline. rewrite Hocr. cbn [outcome].
      rewrite Hx, Hv. discriminate. }
  exists o, x, rs.
  split; [reflexivity|]. split; [exact Hx|]. split; [exact Hv|].
  revert Hrun. run_pipeline.
  rewrite Hocr. cbn [outcome elapsed]. rewrite Hx, Hv.
  match goal with |- context [add_validations _ rs ?s] =>
    destruct (add_validations_run rs s)
      as (s1 & Hs1 & Hd & Hxs & Hvs & He & Hc) end.
  rewrite Hs1. destruct s1 as [docs1 xs1 vs1 es1 n1]. project_store.
  subst. cbv beta iota. intros [= <-]. project_store.
  split; [reflexivity|]. split; [|split; reflexivity].
  do 3 eexists. rewrite <- !app_assoc. reflexivity.
Qed.

(** Only a normal end of the [try] body makes [process_document] end
    normally on a document that is not yet completed. *)
Lemma process_document_ok_inv st st' doc :
  documents st !! document_id = Some doc ->
  String.eqb (Models.status doc) "completed" = false ->
  process_document env document_id pdf_bytes st = (Ok tt, st') ->
  try_body env document_id pdf_bytes st = (Ok tt, st').
Proof.
  intros Hdoc Hstatus. unfold process_document, bind, Session.get, gets.
  rewrite Hdoc, Hstatus. unfold try_except.
  destruct (try_body env document_id pdf_bytes st) as [[[]|e] st1].
  - intros [= <-]. reflexivity.
  - unfold on_exception. run_pipeline. discriminate.
Qed.

(** [Extractor.extract] always returns. *)
Lemma extract_returns mode llm ocr_text :
  exists x, extract mode llm ocr_text = Ok x.
Proof.
  unfold extract. destruct (String.eqb mode "llm"); [|eauto].
  destruct (llm ocr_text); eauto.
Qed.

(** The two ways the [try] body raises: the OCR provider fails, or a rule
    of the validator does. *)
Lemma try_body_ocr_raises st e :
  outcome (ocr_engine env pdf_bytes) = Raise e ->
  try_body env document_id pdf_bytes st =
  (Raise e,
   {| documents :=
        alter (Session.with_status "processing") document_id (documents st);
      extractions := extractions st;
      validations := validations st;
      events :=
        ((events st ++ [event document_id "ocr" "started" None None])
         ++ [event document_id "ocr" "failed" (Some (exn_msg e))
               (Some (py_int (elapsed (ocr_engine env pdf_bytes) * 1000)))])%list;
      commits := commits st |}).
Proof.
  intros Hocr. unfold try_body. destruct st as [docs xs vs es n].
  run_pipeline. rewrite Hocr. reflexivity.
Qed.

Lemma try_body_validation_raises st o x e :
  outcome (ocr_engine env pdf_bytes) = Ok o ->
  extract (extraction_mode env) (_llm_extract env) (text o) = Ok x ->
  Validator.validate x
    (Some (other_invoice_numbers document_id (extractions st))) = Raise e ->
  try_body env document_id pdf_bytes st =
  (Raise e,
   {| documents :=
        alter (Session.with_status "processing") document_id (documents st);
      extractions := extractions st;
      validations := validations st;
      events :=
        ((((events st ++ [event document_id "ocr" "started" None None])
           ++ [event document_id "ocr" "completed" None
                 (Some (py_int (elapsed (ocr_engine env pdf_bytes) * 1000)))])
          ++ [event document_id "extraction" "started" None None])
         ++ [event document_id "extraction" "completed" None
               (Some (py_int (extraction_elapsed env (text o) * 1000)))])%list;
      commits := commits st |}).
Proof.
  intros Hocr Hx Hv. unfold try_body. destruct st as [docs xs vs es n].
  project_store. run_pipeline.
  rewrite Hocr. cbn [outcome elapsed]. rewrite Hx, Hv. reflexivity.
Qed.


End PipelineRuns.

Section PipelineClaims.
Import ProcessingPipeline.

Variable env : Env.
Variables document_id pdf_bytes : string.

Lemma forallb_passed_false (rs : list ValidationResult) :
  forallb passed rs = false <-> exists r, In r rs /\ passed r = false.
Proof.
  induction rs as [|r rs' IH]; cbn.
  - split; [discriminate | intros (r & [] & _)].
  - rewrite andb_false_iff, IH. split.
    + intros [Hr | (r' & Hin & Hr')]; eauto.
    + intros (r' & [<- | Hin] & Hr'); eauto.
Qed.

(** C1.  A run of [process_document] that gets as far as the decision
    (OCR, extraction, validation, scoring and the two persistence steps
    have succeeded) leaves the document in status "review" when the
    overall confidence is below 0.6 or some rule result has
    [passed = false], and in status "completed" otherwise; it assigns no
    other status there. *)
Theorem final_status_review_or_completed st st' doc :
  documents st !! document_id = Some doc ->
  String.eqb (Models.status doc) "completed" = false ->
  process_document env document_id pdf_bytes st = (Ok tt, st') ->
  exists o x rs,
    outcome (ocr_engine env pdf_bytes) = Ok o
    /\ extract (extraction_mode env) (_llm_extract env) (text o) = Ok x
    /\ Validator.validate x
         (Some (other_invoice_numbers document_id (extractions st))) = Ok rs
    /\ validations st'
       = (validations st ++ List.map (validation_row document_id) rs)%list
    /\ let c := compute_confidence (confidence o) (extraction_confidence x)
                  rs (Some x) in
       let needs_review :=
         (overall c < 0.6)%Q \/ (exists r, In r rs /\ passed r = false) in
       (needs_review -> status_of st' document_id = Some "review")
       /\ (~ needs_review -> status_of st' document_id = Some "completed")
       /\ (status_of st' document_id = Some "review"
           \/ status_of st' document_id = Some "completed").
Proof.
  intros Hdoc Hstatus Hrun.
  apply (process_document_ok_inv env document_id pdf_bytes st st' doc Hdoc Hstatus)
    in Hrun.
  destruct (try_body_ok_inv env document_id pdf_bytes st st' Hrun)
    as (o & x & rs & Hocr & Hx & Hv & Hd & _ & Hvs & _).
  exists o, x, rs. repeat (split; [assumption|]).
  cbv zeta. unfold status_of. rewrite Hd, !lookup_alter_eq, Hdoc. cbn.
  unfold final_status.
  destruct (Qlt_le_dec _ 0.6) as [Hlt|Hge]; cbn [orb].
  - split; [reflexivity|]. split; [|left; reflexivity].
    intros Hn. exfalso. apply Hn. left. exact Hlt.
  - destruct (forallb passed rs) eqn:Hall; cbn [negb].
    + split; [|split; [reflexivity | right; reflexivity]].
      intros [Hlt | Hex].
      * exfalso. apply (Qlt_not_le _ _ Hlt Hge).
      * apply forallb_passed_false in Hex. congruence.
    + split; [reflexivity|]. split; [|left; reflexivity].
      intros Hn. exfalso. apply Hn. right.
      apply forallb_passed_false. exact Hall.
Qed.

(** C2.  When the document is already "completed", [process_document]
    returns at the guard: the store it leaves is the store it found, so no
    field of a document changed and no extraction, validation or audit
    row was added. *)
Theorem completed_document_is_skipped st doc :
  documents st !! document_id = Some doc ->
  Models.status doc = "completed" ->
  process_document env document_id pdf_bytes st = (Ok tt, st).
Proof.
  intros Hdoc Hstatus. unfold process_document, bind, Session.get, gets.
  rewrite Hdoc, Hstatus. reflexivity.
Qed.


(** C8.  A successful run on a found, not yet completed document appends
    exactly seven audit rows, in this order: "started" and "completed"
    for the OCR step and for the extraction step (the "completed" rows
    carry the duration in milliseconds), one "completed" row for
    validation, one for confidence, and the final
    "completed"/"completed" row.  The only "started" rows belong to the
    OCR and extraction steps. *)
Theorem audit_rows_of_successful_run st st' doc :
  documents st !! document_id = Some doc ->
  String.eqb (Models.status doc) "completed" = false ->
  process_document env document_id pdf_bytes st = (Ok tt, st') ->
  exists o m1 m2 m3 new_rows,
    outcome (ocr_engine env pdf_bytes) = Ok o
    /\ events st' = (events st ++ new_rows)%list
    /\ new_rows =
       [event document_id "ocr" "started" None None;
        event document_id "ocr" "completed" None
          (Some (py_int (elapsed (ocr_engine env pdf_bytes) * 1000)));
        event document_id "extraction" "started" None None;
        event document_id "extraction" "completed" None
          (Some (py_int (extraction_elapsed env (text o) * 1000)));
        event document_id "validation" "completed" (Some m1) None;
        event document_id "confidence" "completed" (Some m2) None;
        event document_id "completed" "completed" (Some m3) None]
    /\ (forall row, In row new_rows -> Models.e_status row = "started" ->
          Models.step row = "ocr" \/ Models.step row = "extraction").
Proof.
  intros Hdoc Hstatus Hrun.
  apply (process_document_ok_inv env document_id pdf_bytes st st' doc Hdoc Hstatus)
    in Hrun.
  destruct (try_body_ok_inv env document_id pdf_bytes st st' Hrun)
    as (o & x & rs & Hocr & _ & _ & _ & (m1 & m2 & m3 & Hev) & _).
  exists o, m1, m2, m3. eexists. split; [exact Hocr|].
  split; [exact Hev|]. split; [reflexivity|].
  intros row Hin Hst. cbn in Hin.
  repeat (destruct Hin as [<- | Hin]; [cbn in Hst |- *; first [discriminate | tauto]|]).
  destruct Hin.
Qed.

End PipelineClaims.

Lemma final_status_review_or_completed_witness :
  exists o x rs,
    outcome (ocr_engine Fixtures.mock_env "fake pdf bytes") = Ok o
    /\ extract "simple" Fixtures.no_llm (text o) = Ok x
    /\ Validator.validate x (Some ∅) = Ok rs
    /\ validations (snd Fixtures.successful_run)
       = List.map (ProcessingPipeline.validation_row Fixtures.doc_id) rs
    /\ let c := compute_confidence (confidence o) (extraction_confidence x)
                  rs (Some x) in
       let needs_review :=
         (overall c < 0.6)%Q \/ (exists r, In r rs /\ passed r = false) in
       (needs_review ->
        status_of (snd Fixtures.successful_run) Fixtures.doc_id = Some "review")
       /\ (~ needs_review ->
           status_of (snd Fixtures.successful_run) Fixtures.doc_id
           = Some "completed")
       /\ (status_of (snd Fixtures.successful_run) Fixtures.doc_id
           = Some "review"
           \/ status_of (snd Fixtures.successful_run) Fixtures.doc_id
              = Some "completed").
Proof.
  apply (final_status_review_or_completed Fixtures.mock_env Fixtures.doc_id
           "fake pdf bytes" (Fixtures.make_store "pending")
           (snd Fixtures.successful_run) (Fixtures.make_doc "pending")).
  - reflexivity.
  - reflexivity.
  - vm_compute. reflexivity.
Defined.

Lemma completed_document_is_skipped_witness :
  ProcessingPipeline.process_document Fixtures.mock_env Fixtures.doc_id "bytes"
    (Fixtures.make_store "completed")
  = (Ok tt, Fixtures.make_store "completed").
Proof.
  apply (completed_document_is_skipped Fixtures.mock_env Fixtures.doc_id
           "bytes" (Fixtures.make_store "completed")
           (Fixtures.make_doc "completed")).
  - reflexivity.
  - reflexivity.
Defined.


Lemma audit_rows_of_successful_run_witness :
  exists o m1 m2 m3 new_rows,
    outcome (ocr_engine Fixtures.mock_env "fake pdf bytes") = Ok o
    /\ events (snd Fixtures.successful_run) = new_rows
    /\ new_rows =
       [event Fixtures.doc_id "ocr" "started" None None;
        event Fixtures.doc_id "ocr" "completed" None
          (Some (py_int
                   (elapsed (ocr_engine Fixtures.mock_env "fake pdf bytes")
                    * 1000)));
        event Fixtures.doc_id "extraction" "started" None None;
        event Fixtures.doc_id "extraction" "completed" None
          (Some (py_int (extraction_elapsed Fixtures.mock_env (text o) * 1000)));
        event Fixtures.doc_id "validation" "completed" (Some m1) None;
        event Fixtures.doc_id "confidence" "completed" (Some m2) None;
        event Fixtures.doc_id "completed" "completed" (Some m3) None]
    /\ (forall row, In row new_rows -> Models.e_status row = "started" ->
          Models.step row = "ocr" \/ Models.step row = "extraction").
Proof.
  apply (audit_rows_of_successful_run Fixtures.mock_env Fixtures.doc_id
           "fake pdf bytes" (Fixtures.make_store "pending")
           (snd Fixtures.successful_run) (Fixtures.make_doc "pending")).
  - reflexivity.
  - reflexivity.
  - vm_compute. reflexivity.
Defined.

(* ===================================================================== *)
(** * The extractor facade *)
(* ===================================================================== *)

(** C4.  In "llm" mode, when the generative path raises (whatever the
    exception), [Extractor.extract] returns what the pattern-based
    extraction gives for the same text; it does not raise. *)
Theorem extract_falls_back_on_failure mode llm ocr_text exc :
  mode = "llm" ->
  llm ocr_text = Raise exc ->
  extract mode llm ocr_text = Ok (_simple_extract ocr_text).
Proof.
  intros -> Hllm. unfold extract. cbn. rewrite Hllm. reflexivity.
Qed.

Lemma extract_falls_back_on_failure_witness :
  extract "llm" Fixtures.no_llm Fixtures.mock_text
  = Ok (_simple_extract Fixtures.mock_text).
Proof.
  apply (extract_falls_back_on_failure "llm" Fixtures.no_llm Fixtures.mock_text
           (Exn "RuntimeError"
              "openai package is not installed. Run: pip install openai")).
  - reflexivity.
  - reflexivity.
Defined.

(* ===================================================================== *)
(** * The rule engine *)
(* ===================================================================== *)

Section RuleEngineFacts.
Import RuleEngine.

Variable extracted : ExtractedData.

Lemma line_items_sum_result r :
  _validate_line_items_sum extracted = Ok r ->
  rule_name r = "line_items_sum" /\ well_scored r.
Proof.
  unfold _validate_line_items_sum, well_scored.
  destruct (no_line_items extracted || no_total_amount extracted).
  { intros [= <-]. cbn. auto. }
  destruct (line_items extracted) as [items|]; [|intros [= <-]; cbn; auto].
  destruct (total_amount extracted) as [t|]; [|intros [= <-]; cbn; auto].
  destruct (sum_totals PyDecimal.zero items) as [c|e]; [|discriminate].
  destruct (PyDecimal.leb _ tolerance); intros [= <-]; cbn; auto.
Qed.

Lemma tax_id_format_result :
  rule_name (_validate_tax_id_format extracted) = "tax_id_format"
  /\ well_scored (_validate_tax_id_format extracted).
Proof.
  unfold _validate_tax_id_format, well_scored.
  destruct (tax_id extracted) as [t|]; [|cbn; auto].
  destruct (PyStr.truthy t); [|cbn; auto].
  match goal with |- context [if ?b then _ else _] => destruct b end;
    cbn; auto.
Qed.

Lemma dates_result :
  rule_name (_validate_dates extracted) = "date_consistency"
  /\ well_scored (_validate_dates extracted).
Proof.
  unfold _validate_dates, well_scored.
  destruct (invoice_date extracted) as [i|]; [|cbn; auto].
  destruct (due_date extracted) as [d|]; [|cbn; auto].
  destruct (PyDatetime.ltb d i); cbn; auto.
Qed.

Lemma no_duplicate_result known :
  rule_name (_validate_no_duplicate extracted known) = "duplicate_invoice"
  /\ well_scored (_validate_no_duplicate extracted known).
Proof.
  unfold _validate_no_duplicate, well_scored.
  destruct (invoice_number extracted) as [n|]; [|cbn; auto].
  destruct (PyStr.truthy n); cbn; [|auto].
  destruct (bool_decide (n ∈ known)); cbn; auto.
Qed.

(** C5.  Without a set of known invoice numbers, no result of
    [RuleEngine.validate] is named "duplicate_invoice".  With a set,
    exactly one is; it passed with score 1 when no invoice number was
    extracted ([None] or the empty string), it failed with score 0 when
    the extracted number is in the set, and it passed with score 1
    otherwise. *)
Theorem duplicate_rule_runs_only_with_a_set known rs :
  validate extracted known = Ok rs ->
  match known with
  | None => forall r, In r rs -> rule_name r <> "duplicate_invoice"
  | Some numbers =>
      exists r,
        List.filter (fun r => String.eqb (rule_name r) "duplicate_invoice") rs
        = [r]
        /\ (invoice_number extracted = None
            \/ invoice_number extracted = Some "" ->
            passed r = true /\ score r = 1%Q)
        /\ (forall n, invoice_number extracted = Some n -> n <> "" ->
              n ∈ numbers -> passed r = false /\ score r = 0%Q)
        /\ (forall n, invoice_number extracted = Some n -> n <> "" ->
              n ∉ numbers -> passed r = true /\ score r = 1%Q)
  end.
Proof.
  unfold validate.
  destruct (_validate_line_items_sum extracted) as [r1|e] eqn:H1;
    [|discriminate].
  destruct (line_items_sum_result r1 H1) as [Hn1 _].
  destruct tax_id_format_result as [Hn2 _].
  destruct dates_result as [Hn3 _].
  destruct known as [numbers|]; intros [= <-].
  - exists (_validate_no_duplicate extracted numbers).
    destruct (no_duplicate_result numbers) as [Hn4 _].
    split.
    { cbn. rewrite Hn1, Hn2, Hn3, Hn4. reflexivity. }
    unfold _validate_no_duplicate.
    destruct (invoice_number extracted) as [n|].
    + destruct n as [|c n']; cbn [PyStr.truthy negb].
      * repeat split; cbn; intros; congruence.
      * destruct (bool_decide_reflect (String c n' ∈ numbers)) as [Hin|Hout];
          (split; [intros [|]; discriminate|]);
          split; intros m [= <-] _ Hm; cbn; auto; contradiction.
    + repeat split; cbn; intros; congruence.
  - intros r [<- | [<- | [<- | []]]]; congruence.
Qed.

(** C9.  Every result [RuleEngine.validate] returns has score 1 when it
    passed and score 0 or 0.5 when it failed; so the score is 0, 0.5 or
    1, and the result passed exactly when the score is 1. *)
Theorem validation_results_are_well_scored known rs :
  validate extracted known = Ok rs ->
  forall r, In r rs ->
    (passed r = true -> score r = 1%Q)
    /\ (passed r = false -> score r = 0%Q \/ score r = 0.5%Q)
    /\ (score r = 0%Q \/ score r = 0.5%Q \/ score r = 1%Q)
    /\ (passed r = true <-> (score r == 1)%Q).
Proof.
  intros Hrun r Hin.
  assert (Hr : well_scored r).
  { revert Hrun Hin. unfold validate.
    destruct (_validate_line_items_sum extracted) as [r1|e] eqn:H1;
      [|discriminate].
    destruct (line_items_sum_result r1 H1) as [_ Hw1].
    destruct tax_id_format_result as [_ Hw2].
    destruct dates_result as [_ Hw3].
    destruct known as [numbers|]; intros [= <-].
    - destruct (no_duplicate_result numbers) as [_ Hw4].
      intros [<- | [<- | [<- | [<- | []]]]]; assumption.
    - intros [<- | [<- | [<- | []]]]; assumption. }
  destruct Hr as [[Hp Hs] | [Hp [Hs | Hs]]]; rewrite Hp, Hs;
    repeat split; auto; try discriminate; try reflexivity;
    intros H; exfalso; revert H; cbv; discriminate.
Qed.

End RuleEngineFacts.

Lemma duplicate_rule_runs_only_with_a_set_witness :
  exists rs,
    RuleEngine.validate Fixtures.duplicate_case (Some Fixtures.known_numbers)
    = Ok rs
    /\ exists r,
         List.filter (fun r => String.eqb (rule_name r) "duplicate_invoice") rs
         = [r]
         /\ (invoice_number Fixtures.duplicate_case = None
             \/ invoice_number Fixtures.duplicate_case = Some "" ->
             passed r = true /\ score r = 1%Q)
         /\ (forall n, invoice_number Fixtures.duplicate_case = Some n ->
               n <> "" -> n ∈ Fixtures.known_numbers ->
               passed r = false /\ score r = 0%Q)
         /\ (forall n, invoice_number Fixtures.duplicate_case = Some n ->
               n <> "" -> n ∉ Fixtures.known_numbers ->
               passed r = true /\ score r = 1%Q).
Proof.
  eexists. split.
  - vm_compute. reflexivity.
  - apply (duplicate_rule_runs_only_with_a_set Fixtures.duplicate_case
             (Some Fixtures.known_numbers)).
    vm_compute. reflexivity.
Defined.

Lemma validation_results_are_well_scored_witness :
  exists rs,
    RuleEngine.validate Fixtures.duplicate_case (Some Fixtures.known_numbers)
    = Ok rs
    /\ forall r, In r rs ->
         (passed r = true -> score r = 1%Q)
         /\ (passed r = false -> score r = 0%Q \/ score r = 0.5%Q)
         /\ (score r = 0%Q \/ score r = 0.5%Q \/ score r = 1%Q)
         /\ (passed r = true <-> (score r == 1)%Q).
Proof.
  eexists. split.
  - vm_compute. reflexivity.
  - apply (validation_results_are_well_scored Fixtures.duplicate_case
             (Some Fixtures.known_numbers)).
    vm_compute. reflexivity.
Defined.

(* ===================================================================== *)
(** * The confidence aggregator *)
(* ===================================================================== *)

Section Rounding.
Local Open Scope Q_scope.

Lemma py_round_comp x y n : x == y -> py_round x n = py_round y n.
Proof.
  intros Hxy. unfold py_round.
  set (S := Z.to_pos (10 ^ Z.of_nat n)).
  assert (Hs : x * inject_Z (Z.pos S) == y * inject_Z (Z.pos S))
    by (rewrite Hxy; reflexivity).
  rewrite (Qfloor_comp _ _ Hs).
  assert (Hc : x * inject_Z (Z.pos S) - inject_Z (Qfloor (y * inject_Z (Z.pos S)))
               == y * inject_Z (Z.pos S) - inject_Z (Qfloor (y * inject_Z (Z.pos S))))
    by (rewrite Hs; reflexivity).
  rewrite (Qcompare_comp _ _ Hc (1#2) (1#2) (Qeq_refl _)). reflexivity.
Qed.




End Rounding.

Section Confidence.
Local Open Scope Q_scope.

Lemma py_clamp_is_clamp01 w : py_max 0 (py_min 1 w) == clamp01 w.
Proof.
  unfold py_max, py_min, clamp01.
  destruct (Qlt_le_dec w 1) as [H1|H1]; destruct (Qlt_le_dec w 0) as [H0|H0].
  - destruct (Qlt_le_dec 0 w) as [H|H]; [|reflexivity].
    exfalso. apply (Qlt_irrefl 0). apply Qlt_trans with w; assumption.
  - destruct (Qlt_le_dec 1 w) as [H|H].
    + exfalso. apply (Qlt_irrefl 1). apply Qlt_trans with w; assumption.
    + destruct (Qlt_le_dec 0 w) as [H'|H']; [reflexivity|].
      apply Qle_antisym; assumption.
  - exfalso. apply (Qlt_irrefl 0). apply Qlt_le_trans with 1; [reflexivity|].
    apply Qle_trans with w; [assumption|]. apply Qlt_le_weak; assumption.
  - destruct (Qlt_le_dec 0 1) as [H|H]; [|exfalso; apply H; reflexivity].
    destruct (Qlt_le_dec 1 w) as [H'|H']; [reflexivity|].
    apply Qle_antisym; assumption.
Qed.



End Confidence.

(* ===================================================================== *)
(** * Decimals and the line-item rule *)
(* ===================================================================== *)

Section DecimalValues.
Import PyDecimal.
Local Open Scope Q_scope.

Lemma ten_neq_0 : ~ ten == 0.
Proof. discriminate. Qed.


(** Lowering the exponent keeps the value. *)
Lemma value_align (e : Z) (d : decimal) :
  (e <= exp d)%Z -> inject_Z (align e d) * ten ^ e == value d.
Proof.
  intros He. unfold align, value. fold ten.
  rewrite inject_Z_mult, (Zpower_Qpower 10 (exp d - e)) by lia.
  change (inject_Z 10) with ten.
  rewrite <- Qmult_assoc, <- Qpower_plus by apply ten_neq_0.
  replace (exp d - e + e)%Z with (exp d) by lia. reflexivity.
Qed.

Lemma value_add a b : value (add a b) == value a + value b.
Proof.
  unfold add.
  rewrite <- (value_align (Z.min (exp a) (exp b)) a) by lia.
  rewrite <- (value_align (Z.min (exp a) (exp b)) b) by lia.
  unfold value at 1. cbn [coeff exp]. fold ten.
  rewrite inject_Z_plus. ring.
Qed.



Lemma value_zero : value zero == 0.
Proof. reflexivity. Qed.




End DecimalValues.

Section LineItemsSum.
Import RuleEngine.
Local Open Scope Q_scope.

Lemma sum_totals_value items : forall acc,
  Forall total_is_decimal items ->
  exists c, sum_totals acc items = Ok c
            /\ PyDecimal.value c == PyDecimal.value acc + items_total items.
Proof.
  induction items as [|it items IH]; intros acc Hall.
  - exists acc. split; [reflexivity|]. cbn. ring.
  - inversion Hall as [|? ? Hit Hrest]; subst.
    destruct it as [desc [[d|]|]|]; cbn [sum_totals items_total item_amount].
    + destruct (IH (PyDecimal.add acc d) Hrest) as (c & Hc & Hv).
      exists c. split; [exact Hc|]. rewrite Hv, value_add. ring.
    + destruct Hit.
    + destruct (IH (PyDecimal.add acc PyDecimal.zero) Hrest) as (c & Hc & Hv).
      exists c. split; [exact Hc|]. rewrite Hv, value_add, value_zero. ring.
    + destruct (IH acc Hrest) as (c & Hc & Hv).
      exists c. split; [exact Hc|]. rewrite Hv. ring.
Qed.

End LineItemsSum.

Section LineItemsSumRule.
Import RuleEngine.
Local Open Scope Q_scope.


End LineItemsSumRule.


(* ===================================================================== *)
(** * The pattern-based extractor *)
(* ===================================================================== *)

Section SimpleExtract.

Lemma fold_last_such {A} (get : scan -> option A) (p : string -> bool)
    (v : string -> option A) :
  (forall st l, get (scan_line st l) = if p l then v l else get st) ->
  forall lines st,
    get (fold_left scan_line lines st)
    = match last_such p lines with
      | Some l => v l
      | None => get st
      end.
Proof.
  intros Hstep. induction lines as [|l lines IH]; intros st.
  - reflexivity.
  - cbn [fold_left last_such]. rewrite IH, Hstep.
    destruct (last_such p lines); [reflexivity|].
    destruct (p l); reflexivity.
Qed.

Lemma fold_first_parsed lines : forall st,
  s_invoice_date (fold_left scan_line lines st)
  = match s_invoice_date st with
    | Some d => Some d
    | None => first_such parsed_date_line lines ≫= date_of
    end.
Proof.
  unfold first_such.
  induction lines as [|l lines IH]; intros st.
  - cbn. destruct (s_invoice_date st); reflexivity.
  - cbn [fold_left find]. rewrite IH. cbn [scan_line s_invoice_date].
    unfold parsed_date_line at 2. fold (date_of l).
    destruct (s_invoice_date st) as [d|]; cbn [is_some negb].
    + rewrite andb_false_r. reflexivity.
    + rewrite andb_true_r.
      destruct (invoice_date_cue l); cbn [andb].
      * destruct (date_of l) as [d|] eqn:E; cbn [is_some]; [|reflexivity].
        cbn. exact (eq_sym E).
      * reflexivity.
Qed.

(** C10, as amended.  In [_simple_extract] the last line with the cue
    and a colon gives [vendor_name], [tax_id] and [invoice_number]; the
    last line with "total", a dollar sign and at least one digit or full
    stop after the last dollar sign gives [total_amount]; the last line
    with the due-date cue gives [due_date], which is absent when that
    line does not parse; [invoice_date] comes from the first line with
    its cue that parses, and once it is set no later line changes it. *)
Theorem simple_extract_line_precedence (text : string) :
  let lines := PyStr.split "010" text in
  let data := _simple_extract text in
  vendor_name data
  = after_colon <$> last_such (colon_line vendor_cue) lines
  /\ tax_id data = after_colon <$> last_such (colon_line tax_id_cue) lines
  /\ invoice_number data
     = after_colon <$> last_such (colon_line invoice_number_cue) lines
  /\ total_amount data = last_such amount_line lines ≫= amount_of
  /\ due_date data = last_such due_date_cue lines ≫= date_of
  /\ invoice_date data = first_such parsed_date_line lines ≫= date_of
  /\ (forall st d more,
        s_invoice_date st = Some d ->
        s_invoice_date (fold_left scan_line more st) = Some d).
Proof.
  cbv zeta. unfold _simple_extract, scan_lines.
  cbn [vendor_name tax_id invoice_number total_amount due_date invoice_date].
  split; [|split; [|split; [|split; [|split; [|split]]]]].
  - rewrite (fold_last_such s_vendor_name (colon_line vendor_cue)
               (fun l => Some (after_colon l))).
    + destruct (last_such _ _); reflexivity.
    + intros st l. cbn [scan_line s_vendor_name]. unfold colon_line.
      destruct (vendor_cue l), (PyStr.has_char ":" l); reflexivity.
  - rewrite (fold_last_such s_tax_id (colon_line tax_id_cue)
               (fun l => Some (after_colon l))).
    + destruct (last_such _ _); reflexivity.
    + intros st l. cbn [scan_line s_tax_id]. unfold colon_line.
      destruct (tax_id_cue l), (PyStr.has_char ":" l); reflexivity.
  - rewrite (fold_last_such s_invoice_number (colon_line invoice_number_cue)
               (fun l => Some (after_colon l))).
    + destruct (last_such _ _); reflexivity.
    + intros st l. cbn [scan_line s_invoice_number]. unfold colon_line.
      destruct (invoice_number_cue l), (PyStr.has_char ":" l); reflexivity.
  - rewrite (fold_last_such s_total_amount amount_line amount_of).
    + destruct (last_such _ _); reflexivity.
    + intros st l. cbn [scan_line s_total_amount]. unfold amount_line.
      destruct (total_cue l), (PyStr.truthy (amount_str l)); reflexivity.
  - rewrite (fold_last_such s_due_date due_date_cue date_of).
    + destruct (last_such _ _); reflexivity.
    + intros st l. cbn [scan_line s_due_date].
      destruct (due_date_cue l); reflexivity.
  - rewrite fold_first_parsed. reflexivity.
  - intros st d more Hset. rewrite fold_first_parsed, Hset. reflexivity.
Qed.

End SimpleExtract.

(** C10 as stated fails for [total_amount]: the last line with "total"
    and a dollar sign is "Totals are in US$", which holds no amount, and
    the total stays the 300.00 of the line before. *)
Lemma total_amount_last_line_counterexample :
  total_amount (_simple_extract Fixtures.two_totals_text)
  = Some (Dec 30000 (-2))
  /\ last_such total_cue (PyStr.split "010" Fixtures.two_totals_text)
     = Some "Totals are in US$"
  /\ total_amount_as_claimed Fixtures.two_totals_text = None
  /\ total_amount (_simple_extract Fixtures.two_totals_text)
     <> total_amount_as_claimed Fixtures.two_totals_text.
Proof.
  assert (H1 : total_amount (_simple_extract Fixtures.two_totals_text)
               = Some (Dec 30000 (-2))) by (vm_compute; reflexivity).
  assert (H2 : total_amount_as_claimed Fixtures.two_totals_text = None)
    by (vm_compute; reflexivity).
  split; [exact H1|]. split; [vm_compute; reflexivity|]. split; [exact H2|].
  rewrite H1, H2. discriminate.
Qed.


(* ===================================================================== *)
(** * The scenarios of [tests/], evaluated *)
(* ===================================================================== *)

(** The mock invoice goes through: four rules pass, the overall score is
    0.30 * 0.85 + 0.40 * 0.7 + 0.30 * 1 = 0.835, the document is
    completed after two commits. *)
Example mock_run_is_completed :
  fst Fixtures.successful_run = Ok tt
  /\ status_of (snd Fixtures.successful_run) Fixtures.doc_id = Some "completed"
  /\ List.map Models.detail (events (snd Fixtures.successful_run))
     = [None; None; None; None;
        Some "4 rules evaluated, 4 passed";
        Some "overall=0.835";
        Some "final_status=completed confidence=0.835"]
  /\ List.map Models.duration_ms (events (snd Fixtures.successful_run))
     = [None; Some 12%Z; None; Some 0%Z; None; None; None]
  /\ commits (snd Fixtures.successful_run) = 2.
Proof. vm_compute. repeat split. Qed.

(** The same invoice when another document already has its number: the
    duplicate rule fails and the document goes to review. *)
Example duplicate_run_goes_to_review :
  let st :=
    {| documents := documents (Fixtures.make_store "pending");
       extractions := [Fixtures.other_extraction];
       validations := []; events := []; commits := 0 |} in
  let out :=
    ProcessingPipeline.process_document Fixtures.mock_env Fixtures.doc_id
      "bytes" st in
  fst out = Ok tt
  /\ status_of (snd out) Fixtures.doc_id = Some "review"
  /\ List.map Models.passed (validations (snd out)) = [true; true; true; false].
Proof. vm_compute. repeat split. Qed.

(** A failing OCR engine: the error comes back, the document is failed,
    and the audit trail shows the started, failed and final failed rows. *)
Example failing_ocr_run_is_failed :
  let out :=
    ProcessingPipeline.process_document Fixtures.failing_ocr_env
      Fixtures.doc_id "bytes" (Fixtures.make_store "pending") in
  fst out = Raise (Exn "RuntimeError" "OCR hardware error")
  /\ status_of (snd out) Fixtures.doc_id = Some "failed"
  /\ List.map (fun row => (Models.step row, Models.e_status row))
       (events (snd out))
     = [("ocr", "started"); ("ocr", "failed"); ("failed", "failed")]
  /\ commits (snd out) = 2.
Proof. vm_compute. repeat split. Qed.

(** A line item whose total is not a decimal makes validation raise, and
    the run fails after the extraction step. *)
Example bad_total_run_is_failed :
  let llm (_ : string) : result ExtractedData :=
    Ok (Fixtures.make_extracted None None (Some (Dec 5 0)) None None
          (Some [ItemDict "x" (Some TotalNotDecimal)])) in
  let env :=
    {| ocr_engine := ocr_engine Fixtures.mock_env;
       extraction_mode := "llm"; _llm_extract := llm;
       extraction_elapsed := fun _ => 0%Q |} in
  let out :=
    ProcessingPipeline.process_document env Fixtures.doc_id "bytes"
      (Fixtures.make_store "pending") in
  fst out = Raise InvalidOperation
  /\ status_of (snd out) Fixtures.doc_id = Some "failed"
  /\ List.map (fun row => (Models.step row, Models.e_status row))
       (events (snd out))
     = [("ocr", "started"); ("ocr", "completed");
        ("extraction", "started"); ("extraction", "completed");
        ("failed", "failed")].
Proof. vm_compute. repeat split. Qed.

(** The pattern-based extraction of the mock invoice. *)
Example mock_text_extraction :
  let data := _simple_extract Fixtures.mock_text in
  vendor_name data = Some "Acme Corp"
  /\ tax_id data = Some "12-3456789"
  /\ invoice_number data = Some "INV-2024-001"
  /\ total_amount data = Some (Dec 30000 (-2))
  /\ invoice_date data = Some (Date 2024 1 15)
  /\ due_date data = None
  /\ line_items data
     = Some [ItemDict "Item 1" (Some (TotalDecimal (Dec 10000 (-2))));
             ItemDict "Item 2" (Some (TotalDecimal (Dec 20000 (-2))))]
  /\ extraction_confidence data = 0.7%Q.
Proof. vm_compute. repeat split. Qed.

(* ===================================================================== *)
(** * Further properties of the code *)
(* ===================================================================== *)

(** ** The outcomes of [process_document], case by case *)

Section PipelineOutcomes.
Import ProcessingPipeline.

Variable env : Env.
Variables document_id pdf_bytes : string.

Ltac eval_pipeline :=
  cbv [bind Session.set_status Session.flush modify ret _run_step
       _emit_event Session.add_event raise _get_existing_invoice_numbers
       gets lift Session.add_extraction Session.commit
       documents extractions validations events commits].

Lemma try_body_returns st o x rs :
  outcome (ocr_engine env pdf_bytes) = Ok o ->
  extract (extraction_mode env) (_llm_extract env) (text o) = Ok x ->
  Validator.validate x
    (Some (other_invoice_numbers document_id (extractions st))) = Ok rs ->
  try_body env document_id pdf_bytes st
  = (Ok tt, processed env document_id pdf_bytes o x rs st).
Proof.
  intros Hocr Hx Hv. unfold try_body, processed.
  destruct st as [docs xs vs es n].
  cbn [documents extractions validations events commits] in *.
  eval_pipeline. rewrite Hocr. cbn [outcome elapsed]. rewrite Hx, Hv.
  match goal with |- context [add_validations _ rs ?s] =>
    destruct (add_validations_run document_id rs s)
      as (s1 & Hs1 & Hd & Hxs & Hvs & He & Hc) end.
  rewrite Hs1. destruct s1 as [docs1 xs1 vs1 es1 n1].
  cbn [documents extractions validations events commits] in *.
  subst. cbv beta iota. unfold success_rows, extraction_row, event.
  rewrite <- !app_assoc. reflexivity.
Qed.

Lemma on_exception_run e st :
  on_exception document_id e st = (Raise e, marked_failed document_id st).
Proof.
  destruct st as [docs xs vs es n]. unfold on_exception, marked_failed.
  eval_pipeline. reflexivity.
Qed.

Lemma try_body_ocr_failed st e :
  outcome (ocr_engine env pdf_bytes) = Raise e ->
  try_body env document_id pdf_bytes st
  = (Raise e, ocr_failed env document_id pdf_bytes e st).
Proof.
  intros Hocr. rewrite (try_body_ocr_raises env document_id pdf_bytes st e Hocr).
  unfold ocr_failed. rewrite <- app_assoc. reflexivity.
Qed.

Lemma try_body_validation_failed st o x e :
  outcome (ocr_engine env pdf_bytes) = Ok o ->
  extract (extraction_mode env) (_llm_extract env) (text o) = Ok x ->
  Validator.validate x
    (Some (other_invoice_numbers document_id (extractions st))) = Raise e ->
  try_body env document_id pdf_bytes st
  = (Raise e, validation_failed env document_id pdf_bytes o st).
Proof.
  intros Hocr Hx Hv.
  rewrite (try_body_validation_raises env document_id pdf_bytes st o x e Hocr Hx Hv).
  unfold validation_failed. rewrite <- !app_assoc. reflexivity.
Qed.

Lemma process_document_outcome st :
  run_outcome env document_id pdf_bytes st
    (fst (process_document env document_id pdf_bytes st))
    (snd (process_document env document_id pdf_bytes st)).
Proof.
  unfold process_document, bind, Session.get, gets.
  destruct (documents st !! document_id) as [doc|] eqn:Hdoc.
  2:{ cbn. apply run_not_found. exact Hdoc. }
  destruct (String.eqb_spec (Models.status doc) "completed") as [Hs|Hs].
  { cbn. apply (run_skipped env document_id pdf_bytes st doc); assumption. }
  unfold try_except.
  destruct (outcome (ocr_engine env pdf_bytes)) as [o|e] eqn:Hocr.
  2:{ rewrite (try_body_ocr_failed st e Hocr), on_exception_run. cbn.
      apply (run_ocr_failed env document_id pdf_bytes st doc); assumption. }
  destruct (extract_returns (extraction_mode env) (_llm_extract env) (text o))
    as [x Hx].
  destruct (Validator.validate x
              (Some (other_invoice_numbers document_id (extractions st))))
    as [rs|e] eqn:Hv.
  - rewrite (try_body_returns st o x rs Hocr Hx Hv). cbn.
    apply (run_processed env document_id pdf_bytes st doc); assumption.
  - rewrite (try_body_validation_failed st o x e Hocr Hx Hv), on_exception_run.
    cbn. apply (run_validation_failed env document_id pdf_bytes st doc o x); assumption.
Qed.

End PipelineOutcomes.

(** ** What a run writes *)

Section PipelineProperties.
Import ProcessingPipeline.

Variable env : Env.
Variables document_id pdf_bytes : string.

Lemma with_status_keeps s doc :
  Models.filename (Session.with_status s doc) = Models.filename doc
  /\ Models.content_type (Session.with_status s doc) = Models.content_type doc.
Proof. split; reflexivity. Qed.

Lemma run_result st r st' :
  process_document env document_id pdf_bytes st = (r, st') ->
  run_outcome env document_id pdf_bytes st r st'.
Proof.
  intros Hrun. pose proof (process_document_outcome env document_id pdf_bytes st) as H.
  rewrite Hrun in H. exact H.
Qed.

(** X1.  Whatever its outcome, a run of [process_document] only appends
    rows, and only rows of its own document: the events, extractions and
    validations of the store are kept as a prefix and every new row
    carries [document_id]; the number of commits never decreases; every
    other document is left as it was; the document itself keeps its
    filename and content type; and no document is created. *)
Theorem process_document_only_appends st r st' :
  process_document env document_id pdf_bytes st = (r, st') ->
  (exists rows, events st' = (events st ++ rows)%list
                /\ forall row, In row rows ->
                     Models.e_document_id row = document_id)
  /\ (exists rows, extractions st' = (extractions st ++ rows)%list
                   /\ forall row, In row rows ->
                        Models.document_id row = document_id)
  /\ (exists rows, validations st' = (validations st ++ rows)%list
                   /\ forall row, In row rows ->
                        Models.v_document_id row = document_id)
  /\ commits st <= commits st'
  /\ (forall other, other <> document_id ->
        documents st' !! other = documents st !! other)
  /\ (forall doc', documents st' !! document_id = Some doc' ->
        exists doc, documents st !! document_id = Some doc
                    /\ Models.filename doc' = Models.filename doc
                    /\ Models.content_type doc' = Models.content_type doc)
  /\ (documents st !! document_id = None ->
      documents st' !! document_id = None).
Proof.
  intros Hrun. apply run_result in Hrun.
  assert (Hnil : forall {A} (l : list A), l = (l ++ [])%list)
    by (intros; rewrite app_nil_r; reflexivity).
  destruct Hrun as [Hdoc | doc Hdoc Hs | doc e Hdoc Hs Hocr
                    | doc o x e Hdoc Hs Hocr Hx Hv | doc o x rs Hdoc Hs Hocr Hx Hv].
  - repeat split; try (exists []; split; [apply Hnil | intros ? []]); auto.
    intros doc' H. congruence.
  - repeat split; try (exists []; split; [apply Hnil | intros ? []]); auto.
    intros doc' H. exists doc'. auto.
  - cbn [marked_failed ocr_failed documents extractions validations events commits].
    split; [|split; [|split; [|split; [|split; [|split]]]]].
    + eexists. rewrite <- app_assoc. split; [reflexivity|].
      cbn. intros row [<-|[<-|[<-|[]]]]; reflexivity.
    + exists []. split; [apply Hnil | intros ? []].
    + exists []. split; [apply Hnil | intros ? []].
    + lia.
    + intros other Hne. rewrite !lookup_alter_ne by congruence. reflexivity.
    + intros doc'. rewrite !lookup_alter_eq, Hdoc. cbn. intros [= <-].
      exists doc. auto.
    + congruence.
  - cbn [marked_failed validation_failed documents extractions validations
         events commits].
    split; [|split; [|split; [|split; [|split; [|split]]]]].
    + eexists. rewrite <- app_assoc. split; [reflexivity|].
      cbn. intros row [<-|[<-|[<-|[<-|[<-|[]]]]]]; reflexivity.
    + exists []. split; [apply Hnil | intros ? []].
    + exists []. split; [apply Hnil | intros ? []].
    + lia.
    + intros other Hne. rewrite !lookup_alter_ne by congruence. reflexivity.
    + intros doc'. rewrite !lookup_alter_eq, Hdoc. cbn. intros [= <-].
      exists doc. auto.
    + congruence.
  - cbn [processed documents extractions validations events commits].
    split; [|split; [|split; [|split; [|split; [|split]]]]].
    + eexists. split; [reflexivity|].
      cbn. intros row [<-|[<-|[<-|[<-|[<-|[<-|[<-|[]]]]]]]]; reflexivity.
    + eexists. split; [reflexivity|]. intros row [<-|[]]. reflexivity.
    + eexists. split; [reflexivity|]. intros row Hin.
      apply in_map_iff in Hin. destruct Hin as (vr & <- & _). reflexivity.
    + lia.
    + intros other Hne. rewrite !lookup_alter_ne by congruence. reflexivity.
    + intros doc'. rewrite !lookup_alter_eq, Hdoc. cbn. intros [= <-].
      exists doc. auto.
    + congruence.
Qed.

End PipelineProperties.

(** ** Line items of the pattern-based extractor *)

Section PatternItems.

Lemma digits_value_nonneg s : forall acc,
  (0 <= acc)%Z -> (0 <= PyDecimal.digits_value acc s)%Z.
Proof.
  induction s as [|c s IH]; intros acc Hacc; cbn; [exact Hacc|].
  apply IH. lia.
Qed.

Lemma of_str_nonneg s d :
  PyDecimal.of_str s = Some d -> (0 <= coeff d)%Z /\ (exp d <= 0)%Z.
Proof.
  unfold PyDecimal.of_str.
  destruct (PyStr.split "." s) as [|i [|f [|? ?]]]; try discriminate.
  - destruct (_ && _); [|discriminate]. intros [= <-]. cbn.
    split; [apply digits_value_nonneg|]; lia.
  - destruct (_ && _); [|discriminate]. intros [= <-]. cbn.
    split; [apply digits_value_nonneg|]; lia.
Qed.

Lemma rstrip_head c r c' r' :
  PyStr.rstrip (String c r) = String c' r' -> c' = c.
Proof.
  cbn. destruct (PyStr.rstrip r).
  - destruct (PyStr.is_space c); [discriminate|]. intros [= -> _]. reflexivity.
  - intros [= -> _]. reflexivity.
Qed.

Lemma lstrip_head s c r :
  PyStr.lstrip s = String c r -> PyStr.is_space c = false.
Proof.
  induction s as [|d s IH]; cbn; [discriminate|].
  destruct (PyStr.is_space d) eqn:E; [exact IH|].
  intros [= <- _]. exact E.
Qed.

Lemma strip_head s c r :
  PyStr.strip s = String c r -> PyStr.is_space c = false.
Proof.
  unfold PyStr.strip. destruct (PyStr.lstrip s) as [|d t] eqn:E;
    [discriminate|].
  intros H. apply rstrip_head in H. subst. exact (lstrip_head s d t E).
Qed.

Lemma strip_nonempty c r :
  PyStr.is_space c = false -> PyStr.strip (String c r) <> EmptyString.
Proof.
  intros Hc. unfold PyStr.strip. cbn [PyStr.lstrip]. rewrite Hc.
  cbn. destruct (PyStr.rstrip r); [rewrite Hc|]; discriminate.
Qed.

Lemma lazy_description_prefix rest : forall pre g1 g2,
  ItemPattern.lazy_description pre rest = Some (g1, g2) ->
  exists more, g1 = string_of_list_ascii (List.rev pre ++ more).
Proof.
  induction rest as [|c rest IH]; intros pre g1 g2; cbn.
  - discriminate.
  - destruct (ItemPattern.seps_then_tail (String c rest)) as [g|] eqn:E.
    + cbn in E. rewrite E. intros [= <- <-]. exists []. rewrite app_nil_r.
      reflexivity.
    + cbn in E. rewrite E. intros H. apply IH in H. destruct H as [more ->].
      exists (c :: more). cbn [List.rev]. rewrite <- app_assoc. reflexivity.
Qed.

Lemma line_item_of_pattern line it :
  line_item_of line = Some it ->
  pattern_item it /\ PyStr.contains "total" (PyStr.lower line) = false.
Proof.
  unfold line_item_of.
  destruct (ItemPattern.item_match (PyStr.strip line)) as [[g1 g2]|] eqn:Em;
    [|discriminate].
  destruct (PyStr.contains "total" (PyStr.lower line)); [discriminate|].
  cbn [negb].
  destruct (PyDecimal.of_str (PyStr.remove_char "," g2)) as [amt|] eqn:Ed;
    [|discriminate].
  intros [= <-]. split; [|reflexivity]. cbn.
  split; [|exact (of_str_nonneg _ _ Ed)].
  unfold ItemPattern.item_match in Em.
  destruct (PyStr.strip line) as [|c s'] eqn:Es; [discriminate|].
  apply lazy_description_prefix in Em. destruct Em as [more ->].
  cbn. apply strip_nonempty. exact (strip_head line c s' Es).
Qed.

Lemma scan_lines_items lines : forall st,
  Forall pattern_item (s_line_items st) ->
  Forall pattern_item (s_line_items (fold_left scan_line lines st))
  /\ length (s_line_items (fold_left scan_line lines st))
     <= length (s_line_items st) + length lines.
Proof.
  induction lines as [|l lines IH]; intros st Hst.
  - cbn. split; [exact Hst | lia].
  - cbn [fold_left].
    assert (Hstep : Forall pattern_item (s_line_items (scan_line st l))
                    /\ length (s_line_items (scan_line st l))
                       <= S (length (s_line_items st))).
    { cbn [scan_line s_line_items].
      destruct (line_item_of l) as [it|] eqn:E.
      - split.
        + apply Forall_app. split; [exact Hst|]. constructor; [|constructor].
          exact (proj1 (line_item_of_pattern l it E)).
        + rewrite length_app. cbn. lia.
      - split; [exact Hst | lia]. }
    destruct (IH (scan_line st l) (proj1 Hstep)) as [Hall Hlen].
    split; [exact Hall|]. cbn [length]. lia.
Qed.

Lemma pattern_item_decimal it : pattern_item it -> total_is_decimal it.
Proof. destruct it as [desc [[d|]|]|]; cbn; tauto. Qed.

(** X2.  Every line item the pattern-based extractor returns is a [dict]
    with a non-empty description and a total that reads as a decimal,
    not negative and with no positive exponent; there are at most as many
    items as lines of text; and a total amount, when one is found, is a
    non-negative decimal of the same kind. *)
Theorem simple_extract_items_are_well_formed (text : string) :
  exists items,
    line_items (_simple_extract text) = Some items
    /\ Forall pattern_item items
    /\ length items <= length (PyStr.split "010" text)
    /\ (forall t, total_amount (_simple_extract text) = Some t ->
          (0 <= coeff t)%Z /\ (exp t <= 0)%Z).
Proof.
  unfold _simple_extract. cbn [line_items total_amount]. eexists.
  split; [reflexivity|].
  destruct (scan_lines_items (PyStr.split "010" text) scan_init)
    as [Hall Hlen]; [constructor|].
  split; [exact Hall|]. split; [exact Hlen|].
  unfold scan_lines.
  assert (Hinv : forall lines st,
             (forall t, s_total_amount st = Some t ->
                (0 <= coeff t)%Z /\ (exp t <= 0)%Z) ->
             forall t, s_total_amount (fold_left scan_line lines st) = Some t ->
               (0 <= coeff t)%Z /\ (exp t <= 0)%Z).
  { induction lines as [|l lines IH]; intros st Hst; [exact Hst|].
    cbn [fold_left]. apply IH. cbn [scan_line s_total_amount].
    destruct (total_cue l); [|exact Hst].
    destruct (PyStr.truthy (amount_str l)); [|exact Hst].
    intros t Ht. exact (of_str_nonneg _ _ Ht). }
  apply Hinv. cbn. discriminate.
Qed.

Lemma validate_simple_extract_returns (text : string)
    (known : option (gset string)) :
  exists rs, RuleEngine.validate (_simple_extract text) known = Ok rs.
Proof.
  destruct (scan_lines_items (PyStr.split "010" text) scan_init)
    as [Hall _]; [constructor|].
  fold (scan_lines (PyStr.split "010" text)) in Hall.
  set (items := s_line_items (scan_lines (PyStr.split "010" text))) in *.
  assert (Hitems : line_items (_simple_extract text) = Some items)
    by reflexivity.
  assert (Hdec : Forall total_is_decimal items).
  { eapply Forall_impl; [exact Hall | exact pattern_item_decimal]. }
  unfold RuleEngine.validate, RuleEngine._validate_line_items_sum.
  rewrite Hitems.
  destruct (RuleEngine.no_line_items (_simple_extract text)
            || RuleEngine.no_total_amount (_simple_extract text)).
  { destruct known; eauto. }
  destruct (total_amount (_simple_extract text)) as [t|].
  2:{ destruct known; eauto. }
  destruct (sum_totals_value items PyDecimal.zero Hdec) as (c & Hc & _).
  rewrite Hc. destruct (PyDecimal.leb _ RuleEngine.tolerance);
    destruct known; eauto.
Qed.


End PatternItems.

(** ** The shape of the rule results *)

Section RuleEngineShape.
Import RuleEngine.

Lemma validate_shape extracted known rs :
  validate extracted known = Ok rs ->
  exists r1,
    _validate_line_items_sum extracted = Ok r1
    /\ rs = ([r1; _validate_tax_id_format extracted; _validate_dates extracted]
             ++ match known with
                | Some numbers => [_validate_no_duplicate extracted numbers]
                | None => []
                end)%list.
Proof.
  unfold validate.
  destruct (_validate_line_items_sum extracted) as [r1|e]; [|discriminate].
  destruct known; intros [= <-]; exists r1; split; reflexivity.
Qed.

End RuleEngineShape.

(** ** Known invoice numbers *)

Section InvoiceNumbers.
Import ProcessingPipeline.

Lemma elem_of_other_invoice_numbers document_id rows n :
  n ∈ other_invoice_numbers document_id rows
  <-> (n <> EmptyString
       /\ exists row, In row rows
                      /\ Models.document_id row <> document_id
                      /\ Models.invoice_number row = Some n).
Proof.
  unfold other_invoice_numbers.
  rewrite elem_of_list_to_set, list_elem_of_omap. split.
  - intros (row & Hin & Hrow). apply list_elem_of_In in Hin.
    destruct (String.eqb_spec (Models.document_id row) document_id);
      [discriminate|].
    destruct (Models.invoice_number row) as [r|] eqn:Er; [|discriminate].
    destruct r as [|c r']; cbn in Hrow; [discriminate|].
    injection Hrow as <-. split; [discriminate|]. exists row. auto.
  - intros (Hne & row & Hin & Hdoc & Hnum). exists row.
    split; [apply list_elem_of_In; exact Hin|].
    destruct (String.eqb_spec (Models.document_id row) document_id);
      [contradiction|].
    rewrite Hnum. destruct n; [contradiction | reflexivity].
Qed.

(** X4.  The set [_get_existing_invoice_numbers] builds holds exactly the
    non-empty invoice numbers of the extraction rows of the other
    documents: a row of the current document never contributes, the
    empty string is never a member, and a store whose rows all belong to
    the current document gives the empty set. *)
Theorem existing_invoice_numbers_exclude_own_and_empty document_id rows :
  (forall n, n ∈ other_invoice_numbers document_id rows
             <-> (n <> EmptyString
                  /\ exists row, In row rows
                                 /\ Models.document_id row <> document_id
                                 /\ Models.invoice_number row = Some n))
  /\ (EmptyString ∉ other_invoice_numbers document_id rows)
  /\ ((forall row, In row rows -> Models.document_id row = document_id) ->
      other_invoice_numbers document_id rows = ∅).
Proof.
  split; [intros n; apply elem_of_other_invoice_numbers|]. split.
  - rewrite elem_of_other_invoice_numbers. intros [H _]. apply H. reflexivity.
  - intros Hown. apply set_eq. intros n.
    rewrite elem_of_other_invoice_numbers. split.
    + intros (_ & row & Hin & Hdoc & _). exfalso. apply Hdoc, Hown, Hin.
    + intros H. exfalso. revert H. apply not_elem_of_empty.
Qed.

End InvoiceNumbers.

(** ** Failing and successful runs *)

Section PipelineProperties2.
Import ProcessingPipeline.

Variable env : Env.
Variables document_id pdf_bytes : string.


(** X6.  When the OCR engine raises [e] on a found, not yet completed
    document, [process_document] raises the same [e], the document ends
    "failed", and the audit trail gains exactly three rows: "ocr"
    started, "ocr" failed with [str(e)] as detail and the measured
    duration, and "failed" with detail "Unhandled exception". *)
Theorem ocr_failure_is_recorded_and_raised st doc e :
  documents st !! document_id = Some doc ->
  Models.status doc <> "completed" ->
  outcome (ocr_engine env pdf_bytes) = Raise e ->
  exists st',
    process_document env document_id pdf_bytes st = (Raise e, st')
    /\ events st'
       = (events st
          ++ [event document_id "ocr" "started" None None;
              event document_id "ocr" "failed" (Some (exn_msg e))
                (Some (py_int (elapsed (ocr_engine env pdf_bytes) * 1000)));
              event document_id "failed" "failed"
                (Some "Unhandled exception") None])%list
    /\ status_of st' document_id = Some "failed".
Proof.
  intros Hdoc Hs Hocr.
  destruct (process_document env document_id pdf_bytes st) as [r st'] eqn:Hrun.
  exists st'. apply run_result in Hrun.
  inversion Hrun as [Hdoc' | doc' Hdoc' Hs' | doc' e' Hdoc' Hs' Hocr'
                     | doc' o x e' Hdoc' Hs' Hocr' Hx Hv
                     | doc' o x rs Hdoc' Hs' Hocr' Hx Hv]; subst;
    try congruence.
  assert (e' = e) by congruence. subst e'.
  split; [reflexivity|].
  cbn [marked_failed ocr_failed documents extractions validations events
       commits].
  split; [rewrite <- app_assoc; reflexivity|].
  unfold status_of. cbn [marked_failed ocr_failed documents].
  rewrite !lookup_alter_eq, Hdoc. reflexivity.
Qed.


(** X8.  When a successful run extracts a non-empty invoice number that
    an extraction row of another document already carries, the document
    ends in "review", whatever its confidence, and the last validation
    row stored is the failed "duplicate_invoice" rule. *)
Theorem duplicate_invoice_number_sends_to_review st st' doc o x n row :
  documents st !! document_id = Some doc ->
  Models.status doc <> "completed" ->
  process_document env document_id pdf_bytes st = (Ok tt, st') ->
  outcome (ocr_engine env pdf_bytes) = Ok o ->
  extract (extraction_mode env) (_llm_extract env) (text o) = Ok x ->
  invoice_number x = Some n -> n <> EmptyString ->
  In row (extractions st) ->
  Models.document_id row <> document_id ->
  Models.invoice_number row = Some n ->
  status_of st' document_id = Some "review"
  /\ exists v, last (validations st') = Some v
               /\ Models.rule_name v = "duplicate_invoice"
               /\ Models.passed v = false.
Proof.
  intros Hdoc Hs Hrun Hocr Hx Hn Hne Hin Hother Hnum.
  apply run_result in Hrun.
  inversion Hrun as [Hdoc' | doc' Hdoc' Hs' | | 
                     | doc' o' x' rs Hdoc' Hs' Hocr' Hx' Hv]; subst;
    try congruence.
  assert (o' = o) by congruence. subst o'.
  assert (x' = x) by congruence. subst x'.
  destruct (validate_shape _ _ _ Hv) as (r1 & _ & ->).
  assert (Hmem : n ∈ other_invoice_numbers document_id (extractions st)).
  { apply elem_of_other_invoice_numbers. split; [exact Hne|]. exists row. auto. }
  assert (Hdup : RuleEngine._validate_no_duplicate x
                   (other_invoice_numbers document_id (extractions st))
                 = {| rule_name := "duplicate_invoice"; passed := false;
                      score := 0;
                      message := Some ("Duplicate invoice number detected: "
                                       ++ n) |}).
  { unfold RuleEngine._validate_no_duplicate. rewrite Hn.
    destruct n as [|c n']; [contradiction|]. cbn [PyStr.truthy negb].
    rewrite bool_decide_eq_true_2 by exact Hmem. reflexivity. }
  split.
  - unfold status_of, processed. cbn [documents].
    rewrite !lookup_alter_eq, Hdoc. cbn. unfold final_status.
    cbn [app forallb]. rewrite Hdup. cbn [passed].
    rewrite !andb_false_r. cbn [negb]. rewrite orb_true_r. reflexivity.
  - unfold processed. cbn [validations app List.map].
    rewrite Hdup. eexists. split.
    + rewrite last_app. cbn. reflexivity.
    + split; reflexivity.
Qed.

(** X9.  A successful run on a found, not yet completed document stores
    exactly four validation rows, in the order "line_items_sum",
    "tax_id_format", "date_consistency", "duplicate_invoice", and exactly
    one extraction row, of this document, with two commits; if the
    document ends "completed", all four stored rules passed. *)
Theorem successful_run_persists_all_four_rules st st' doc :
  documents st !! document_id = Some doc ->
  Models.status doc <> "completed" ->
  process_document env document_id pdf_bytes st = (Ok tt, st') ->
  exists rows row,
    validations st' = (validations st ++ rows)%list
    /\ List.map Models.rule_name rows
       = ["line_items_sum"; "tax_id_format"; "date_consistency";
          "duplicate_invoice"]
    /\ extractions st' = (extractions st ++ [row])%list
    /\ Models.document_id row = document_id
    /\ (status_of st' document_id = Some "completed" ->
        Forall (fun v => Models.passed v = true) rows)
    /\ commits st' = S (S (commits st)).
Proof.
  intros Hdoc Hs Hrun. apply run_result in Hrun.
  inversion Hrun as [Hdoc' | doc' Hdoc' Hs' | | 
                     | doc' o x rs Hdoc' Hs' Hocr Hx Hv]; subst;
    try congruence.
  destruct (validate_shape _ _ _ Hv) as (r1 & H1 & ->).
  destruct (line_items_sum_result x r1 H1) as [Hn1 _].
  destruct (tax_id_format_result x) as [Hn2 _].
  destruct (dates_result x) as [Hn3 _].
  destruct (no_duplicate_result x
              (other_invoice_numbers document_id (extractions st))) as [Hn4 _].
  unfold processed. cbn [validations extractions commits documents].
  eexists. eexists. split; [reflexivity|].
  split; [cbn; rewrite Hn1, Hn2, Hn3, Hn4; reflexivity|].
  split; [reflexivity|]. split; [reflexivity|]. split; [|reflexivity].
  unfold status_of. cbn [documents]. rewrite !lookup_alter_eq, Hdoc. cbn.
  unfold final_status.
  match goal with |- context [forallb passed ?l] =>
    destruct (forallb passed l) eqn:Hall end.
  - intros _. cbn in Hall. rewrite !andb_true_iff in Hall.
    destruct Hall as (H1' & H2' & H3' & H4' & _).
    repeat constructor; assumption.
  - cbn [negb]. rewrite orb_true_r. discriminate.
Qed.

End PipelineProperties2.

(** ** Order of the rules, and when validation raises *)

Section RuleEngineMore.
Import RuleEngine.

Variable extracted : ExtractedData.


(** X10.  The results [RuleEngine.validate] returns come in a fixed
    order, "line_items_sum", "tax_id_format", "date_consistency" and then
    "duplicate_invoice" when a set of known numbers is given; every
    result carries a message; and giving the set only appends the
    duplicate result to the results obtained without it. *)
Theorem validate_runs_rules_in_fixed_order known rs :
  validate extracted known = Ok rs ->
  List.map rule_name rs
  = (["line_items_sum"; "tax_id_format"; "date_consistency"]
     ++ match known with Some _ => ["duplicate_invoice"] | None => [] end)%list
  /\ (forall r, In r rs -> exists text, message r = Some text)
  /\ (forall numbers, known = Some numbers ->
        exists rs0,
          validate extracted None = Ok rs0
          /\ rs = (rs0 ++ [_validate_no_duplicate extracted numbers])%list).
Proof.
  intros Hrun. destruct (validate_shape _ _ _ Hrun) as (r1 & H1 & ->).
  destruct (line_items_sum_result extracted r1 H1) as [Hn1 _].
  destruct (tax_id_format_result extracted) as [Hn2 _].
  destruct (dates_result extracted) as [Hn3 _].
  assert (Hm1 : exists text, message r1 = Some text).
  { revert H1. unfold _validate_line_items_sum.
    destruct (no_line_items extracted || no_total_amount extracted);
      [intros [= <-]; cbn; eauto|].
    destruct (line_items extracted); [|intros [= <-]; cbn; eauto].
    destruct (total_amount extracted); [|intros [= <-]; cbn; eauto].
    destruct (sum_totals _ _); [|discriminate].
    destruct (PyDecimal.leb _ _); intros [= <-]; cbn; eauto. }
  assert (Hm2 : exists text,
             message (_validate_tax_id_format extracted) = Some text).
  { unfold _validate_tax_id_format.
    destruct (tax_id extracted) as [t|]; [|cbn; eauto].
    destruct (PyStr.truthy t); [|cbn; eauto].
    match goal with |- context [if ?b then _ else _] => destruct b end;
      cbn; eauto. }
  assert (Hm3 : exists text, message (_validate_dates extracted) = Some text).
  { unfold _validate_dates.
    destruct (invoice_date extracted) as [inv|]; [|cbn; eauto].
    destruct (due_date extracted) as [due|]; [|cbn; eauto].
    destruct (PyDatetime.ltb due inv); cbn; eauto. }
  assert (Hm4 : forall numbers, exists text,
             message (_validate_no_duplicate extracted numbers) = Some text).
  { intros numbers. unfold _validate_no_duplicate.
    destruct (invoice_number extracted) as [n|]; [|cbn; eauto].
    destruct (PyStr.truthy n); cbn; [|eauto].
    destruct (bool_decide _); cbn; eauto. }
  split; [|split].
  - destruct known as [numbers|]; cbn; rewrite Hn1, Hn2, Hn3; [|reflexivity].
    destruct (no_duplicate_result extracted numbers) as [-> _]. reflexivity.
  - destruct known as [numbers|]; cbn.
    + intros r [<-|[<-|[<-|[<-|[]]]]]; auto.
    + intros r [<-|[<-|[<-|[]]]]; auto.
  - intros numbers ->. eexists. split; [|reflexivity].
    unfold validate. rewrite H1. reflexivity.
Qed.


End RuleEngineMore.

(** ** Monotonicity and range of the scores *)

Section ConfidenceMore.
Local Open Scope Q_scope.

Lemma py_round_monotone x y n : x <= y -> py_round x n <= py_round y n.
Proof.
  intros Hxy. unfold py_round.
  set (S := Z.to_pos (10 ^ Z.of_nat n)).
  set (sx := x * inject_Z (Z.pos S)). set (sy := y * inject_Z (Z.pos S)).
  assert (Hs : sx <= sy).
  { unfold sx, sy. apply Qmult_le_compat_r; [exact Hxy|].
    unfold Qle; cbn; lia. }
  assert (Hf : (Qfloor sx <= Qfloor sy)%Z) by (apply Qfloor_resp_le; exact Hs).
  unfold Qle. cbn [Qnum Qden].
  apply Z.mul_le_mono_nonneg_r; [lia|].
  destruct (Z.eq_dec (Qfloor sx) (Qfloor sy)) as [Heq|Hne].
  - rewrite <- Heq.
    assert (Hr : sx - inject_Z (Qfloor sx) <= sy - inject_Z (Qfloor sx)).
    { apply Qplus_le_l. exact Hs. }
    destruct (sx - inject_Z (Qfloor sx) ?= 1 # 2) eqn:Ex.
    + apply Qeq_alt in Ex.
      destruct (sy - inject_Z (Qfloor sx) ?= 1 # 2) eqn:Ey.
      * lia.
      * exfalso. apply Qlt_alt in Ey. rewrite Ex in Hr.
        apply (Qlt_irrefl (1 # 2)). apply Qle_lt_trans with (2 := Ey). exact Hr.
      * destruct (Z.even (Qfloor sx)); lia.
    + destruct (sy - inject_Z (Qfloor sx) ?= 1 # 2);
        [destruct (Z.even (Qfloor sx))|..]; lia.
    + apply Qgt_alt in Ex.
      destruct (sy - inject_Z (Qfloor sx) ?= 1 # 2) eqn:Ey.
      * exfalso. apply Qeq_alt in Ey. rewrite Ey in Hr.
        apply (Qlt_irrefl (1 # 2)). apply Qlt_le_trans with (1 := Ex). exact Hr.
      * exfalso. apply Qlt_alt in Ey. apply (Qlt_irrefl (1 # 2)).
        apply Qlt_le_trans with (1 := Ex).
        apply Qle_trans with (1 := Hr). apply Qlt_le_weak. exact Ey.
      * lia.
  - assert (Qfloor sx + 1 <= Qfloor sy)%Z by lia.
    destruct (sx - inject_Z (Qfloor sx) ?= 1 # 2);
      destruct (sy - inject_Z (Qfloor sy) ?= 1 # 2);
      try destruct (Z.even (Qfloor sx)); try destruct (Z.even (Qfloor sy)); lia.
Qed.

Lemma clamp01_monotone x y : x <= y -> clamp01 x <= clamp01 y.
Proof.
  intros Hxy. unfold clamp01.
  destruct (Qlt_le_dec x 0); destruct (Qlt_le_dec y 0);
    try destruct (Qlt_le_dec 1 x); try destruct (Qlt_le_dec 1 y); lra.
Qed.

Lemma overall_unfold o e rs x :
  overall (compute_confidence o e rs x)
  = py_round
      (clamp01 (0.30 * o + 0.40 * e
                + 0.30 * match rs with [] => 1 | _ => mean_score rs end)) 4.
Proof.
  unfold compute_confidence. cbn [overall].
  apply py_round_comp. apply py_clamp_is_clamp01.
Qed.

(** X12.  The overall confidence is monotone in the OCR and the
    extraction confidence: raising either, with the same rule results,
    never lowers the overall score, rounding and clamping included. *)
Theorem overall_confidence_is_monotone
    (o1 o2 e1 e2 : Q) (rs : list ValidationResult)
    (x1 x2 : option ExtractedData) :
  o1 <= o2 -> e1 <= e2 ->
  overall (compute_confidence o1 e1 rs x1)
  <= overall (compute_confidence o2 e2 rs x2).
Proof.
  intros Ho He. rewrite !overall_unfold.
  apply py_round_monotone, clamp01_monotone.
  apply Qplus_le_l. apply Qplus_le_compat.
  - apply Qmult_le_l; [reflexivity | exact Ho].
  - apply Qmult_le_l; [reflexivity | exact He].
Qed.




End ConfidenceMore.

(** ** The validation score *)

Section ConfidenceFields.
Local Open Scope Q_scope.

(** X14.  For the results [RuleEngine.validate] returns, the validation
    score of [compute_confidence] is 1 exactly when every rule passed,
    and it is at most 0.875 otherwise: one failed rule costs at least an
    eighth of the validation score. *)
Theorem validation_score_tells_whether_all_rules_passed
    extracted known rs (o e : Q) (x : option ExtractedData) :
  RuleEngine.validate extracted known = Ok rs ->
  let c := compute_confidence o e rs x in
  (validation_score c == 1 <-> forall r, In r rs -> passed r = true)
  /\ (validation_score c == 1 \/ validation_score c <= 0.875).
Proof.
  intros Hrun. destruct (validate_shape _ _ _ Hrun) as (r1 & H1 & ->).
  destruct (line_items_sum_result extracted r1 H1) as [_ Hw1].
  destruct (tax_id_format_result extracted) as [_ Hw2].
  destruct (dates_result extracted) as [_ Hw3].
  set (r2 := RuleEngine._validate_tax_id_format extracted) in *.
  set (r3 := RuleEngine._validate_dates extracted) in *.
  clearbody r2 r3. clear H1 Hrun.
  assert (Hcases : forall r, well_scored r ->
             (passed r = true /\ score r = 1)
             \/ (passed r = false /\ score r = 0)
             \/ (passed r = false /\ score r = 0.5)).
  { intros r [[? ?]|[? [?|?]]]; auto. }
  cbv zeta. unfold compute_confidence. cbn [validation_score].
  destruct known as [numbers|]; cbn [app].
  - destruct (no_duplicate_result extracted numbers) as [_ Hw4].
    set (r4 := RuleEngine._validate_no_duplicate extracted numbers) in *.
    clearbody r4.
    destruct (Hcases r1 Hw1) as [[P1 S1]|[[P1 S1]|[P1 S1]]];
    destruct (Hcases r2 Hw2) as [[P2 S2]|[[P2 S2]|[P2 S2]]];
    destruct (Hcases r3 Hw3) as [[P3 S3]|[[P3 S3]|[P3 S3]]];
    destruct (Hcases r4 Hw4) as [[P4 S4]|[[P4 S4]|[P4 S4]]];
    cbn [sum_scores length]; rewrite S1, S2, S3, S4;
    (split;
     [ split;
       [ intros H;
         first [ intros r [<-|[<-|[<-|[<-|[]]]]]; assumption
               | exfalso; revert H; vm_compute; discriminate ]
       | intros H;
         first [ vm_compute; reflexivity
               | exfalso;
                 pose proof (H r1 (or_introl eq_refl));
                 pose proof (H r2 (or_intror (or_introl eq_refl)));
                 pose proof (H r3 (or_intror (or_intror (or_introl eq_refl))));
                 pose proof (H r4 (or_intror (or_intror (or_intror
                                     (or_introl eq_refl)))));
                 congruence ] ]
     | first [ left; vm_compute; reflexivity
             | right; vm_compute; discriminate ] ]).
  - destruct (Hcases r1 Hw1) as [[P1 S1]|[[P1 S1]|[P1 S1]]];
    destruct (Hcases r2 Hw2) as [[P2 S2]|[[P2 S2]|[P2 S2]]];
    destruct (Hcases r3 Hw3) as [[P3 S3]|[[P3 S3]|[P3 S3]]];
    cbn [sum_scores length]; rewrite S1, S2, S3;
    (split;
     [ split;
       [ intros H;
         first [ intros r [<-|[<-|[<-|[]]]]; assumption
               | exfalso; revert H; vm_compute; discriminate ]
       | intros H;
         first [ vm_compute; reflexivity
               | exfalso;
                 pose proof (H r1 (or_introl eq_refl));
                 pose proof (H r2 (or_intror (or_introl eq_refl)));
                 pose proof (H r3 (or_intror (or_intror (or_introl eq_refl))));
                 congruence ] ]
     | first [ left; vm_compute; reflexivity
             | right; vm_compute; discriminate ] ]).
Qed.

End ConfidenceFields.

(** ** [_parse_date] returns calendar dates *)

Section ParseDate.
Import PyDatetime.

Lemma in_range_digit lo hi c :
  in_range lo hi c = true ->
  (Z.of_nat lo - 48 <= digit_val c <= Z.of_nat hi - 48)%Z \/ (lo < 48)%nat.
Proof.
  unfold in_range, digit_val. rewrite andb_true_iff, !Nat.leb_le. lia.
Qed.

Lemma is_digit_val c :
  PyStr.is_digit c = true -> (0 <= digit_val c <= 9)%Z.
Proof.
  unfold PyStr.is_digit, digit_val. rewrite andb_true_iff, !Nat.leb_le. lia.
Qed.

Lemma two_range (p1 p2 : ascii -> bool) lo1 hi1 lo2 hi2 s v r :
  (forall c, p1 c = true -> (lo1 <= digit_val c <= hi1)%Z) ->
  (forall c, p2 c = true -> (lo2 <= digit_val c <= hi2)%Z) ->
  In (v, r) (two p1 p2 s) ->
  (10 * lo1 + lo2 <= v <= 10 * hi1 + hi2)%Z.
Proof.
  intros H1 H2. unfold two. destruct s as [|a [|b s']].
  - intros [].
  - intros [].
  - destruct (p1 a) eqn:E1; [|intros []].
    destruct (p2 b) eqn:E2; [|intros []].
    cbn. intros [H|[]]. injection H as <- <-.
    specialize (H1 a E1). specialize (H2 b E2). lia.
Qed.

Lemma one_range (p : ascii -> bool) lo hi s v r :
  (forall c, p c = true -> (lo <= digit_val c <= hi)%Z) ->
  In (v, r) (one p s) -> (lo <= v <= hi)%Z.
Proof.
  intros H. unfold one. destruct s as [|a s']; [intros []|].
  destruct (p a) eqn:E; [|intros []]. intros [H'|[]].
  injection H' as <- <-. exact (H a E).
Qed.

Lemma range_digit lo hi c :
  (48 <= lo)%nat ->
  in_range lo hi c = true ->
  (Z.of_nat lo - 48 <= digit_val c <= Z.of_nat hi - 48)%Z.
Proof.
  intros Hlo H. destruct (in_range_digit lo hi c H); lia.
Qed.

Lemma alternatives_reads d s v r : In (v, r) (alternatives d s) -> reads d v.
Proof.
  destruct d; cbn [alternatives reads].
  - destruct s as [|a [|b [|c [|e s']]]]; try (intros []).
    destruct (PyStr.is_digit a) eqn:Ea; [|intros []].
    destruct (PyStr.is_digit b) eqn:Eb; [|intros []].
    destruct (PyStr.is_digit c) eqn:Ec; [|intros []].
    destruct (PyStr.is_digit e) eqn:Ee; [|intros []].
    cbn. intros [H|[]]. injection H as <- <-.
    apply is_digit_val in Ea, Eb, Ec, Ee. lia.
  - rewrite !in_app_iff. intros [H|[H|H]].
    + eapply two_range in H;
        [| intros c0 Hc; exact (range_digit 49 49 c0 ltac:(lia) Hc)
         | intros c0 Hc; exact (range_digit 48 50 c0 ltac:(lia) Hc)].
      cbn in H. lia.
    + eapply two_range in H;
        [| intros c0 Hc; exact (range_digit 48 48 c0 ltac:(lia) Hc)
         | intros c0 Hc; exact (range_digit 49 57 c0 ltac:(lia) Hc)].
      cbn in H. lia.
    + eapply one_range in H;
        [| intros c0 Hc; exact (range_digit 49 57 c0 ltac:(lia) Hc)].
      cbn in H. lia.
  - rewrite !in_app_iff. intros [H|[H|[H|[H|H]]]].
    + eapply two_range in H;
        [| intros c0 Hc; exact (range_digit 51 51 c0 ltac:(lia) Hc)
         | intros c0 Hc; exact (range_digit 48 49 c0 ltac:(lia) Hc)].
      cbn in H. lia.
    + eapply two_range in H;
        [| intros c0 Hc; exact (range_digit 49 50 c0 ltac:(lia) Hc)
         | intros c0 Hc; exact (is_digit_val c0 Hc)].
      cbn in H. lia.
    + eapply two_range in H;
        [| intros c0 Hc; exact (range_digit 48 48 c0 ltac:(lia) Hc)
         | intros c0 Hc; exact (range_digit 49 57 c0 ltac:(lia) Hc)].
      cbn in H. lia.
    + eapply one_range in H;
        [| intros c0 Hc; exact (range_digit 49 57 c0 ltac:(lia) Hc)].
      cbn in H. lia.
    + destruct s as [|a s']; [destruct H|].
      destruct (Ascii.eqb_spec a " "); [|].
      * subst. eapply one_range in H;
          [| intros c0 Hc; exact (range_digit 49 57 c0 ltac:(lia) Hc)].
        cbn in H. lia.
      * exfalso. revert H.
        destruct a as [[] [] [] [] [] [] [] []]; cbn; try tauto; congruence.
  - exact (fun _ => I).
Qed.

(** The fields a format fills are in range, the others are untouched. *)
Lemma matches_fields fmt : forall s t0 t r,
  In (t, r) (matches fmt s t0) ->
  (In DY fmt \/ (0 <= year t0 <= 9999)%Z -> (0 <= year t <= 9999)%Z)
  /\ (In Dm fmt \/ (1 <= month t0 <= 12)%Z -> (1 <= month t <= 12)%Z)
  /\ (In Dd fmt \/ (1 <= day t0 <= 31)%Z -> (1 <= day t <= 31)%Z).
Proof.
  induction fmt as [|d fmt IH]; intros s t0 t r.
  - cbn. intros [H|[]]. injection H as <- <-.
    split; [|split]; intros [[]|H0]; exact H0.
  - cbn [matches]. rewrite in_flat_map. intros ([v r'] & Hin & Hrest).
    apply alternatives_reads in Hin.
    destruct (IH _ _ _ _ Hrest) as (Hy & Hm & Hd).
    split; [|split]; intros [[Hd0|Hfmt]|H0];
      first [ apply Hy | apply Hm | apply Hd ];
      try (left; exact Hfmt);
      try (right; subst d; exact Hin);
      right; destruct d; cbn in *; first [assumption | exact Hin].
Qed.

Lemma strptime_valid v fmt t :
  In DY fmt -> In Dm fmt -> In Dd fmt ->
  strptime v fmt = Some t -> valid_date t.
Proof.
  intros HY Hm Hd. unfold strptime.
  destruct (matches fmt (list_ascii_of_string v) (Date 1900 1 1))
    as [|[t' [|? ?]] rest] eqn:E; try discriminate.
  destruct (_ && _) eqn:Echeck; [|discriminate]. intros [= <-].
  assert (Hin : In (t', []) (matches fmt (list_ascii_of_string v)
                               (Date 1900 1 1)))
    by (rewrite E; left; reflexivity).
  destruct (matches_fields _ _ _ _ _ Hin) as (Hy' & Hm' & _).
  specialize (Hy' (or_introl HY)). specialize (Hm' (or_introl Hm)).
  rewrite !andb_true_iff, !Z.leb_le in Echeck.
  unfold valid_date. lia.
Qed.

(** X15.  Whatever the input, a date [_parse_date] returns is a date of
    the calendar: its year lies in 1..9999, its month in 1..12 and its
    day in 1..the length of that month, leap years included. *)
Theorem parse_date_returns_only_real_dates (value : option string) t :
  _parse_date value = Some t -> valid_date t.
Proof.
  unfold _parse_date. destruct value as [v|]; [|discriminate].
  destruct (negb (PyStr.truthy v)); [discriminate|].
  destruct (strptime v fmt_Ymd) eqn:E1.
  { intros [= <-]. eapply strptime_valid; [..|exact E1]; cbv; auto 10. }
  destruct (strptime v fmt_mdY) eqn:E2.
  { intros [= <-]. eapply strptime_valid; [..|exact E2]; cbv; auto 10. }
  destruct (strptime v fmt_dmY_slash) eqn:E3.
  { intros [= <-]. eapply strptime_valid; [..|exact E3]; cbv; auto 10. }
  destruct (strptime v fmt_dmY_dash) eqn:E4; [|discriminate].
  intros [= <-]. eapply strptime_valid; [..|exact E4]; cbv; auto 10.
Qed.

End ParseDate.

(** ** [_parse_date] reads ISO dates back *)

Section IsoRoundTrip.
Import PyDatetime.

Lemma digit_char_spec k :
  (0 <= k <= 9)%Z ->
  PyStr.is_digit (digit_char k) = true /\ digit_val (digit_char k) = k.
Proof.
  intros Hk.
  assert (H : (k = 0 \/ k = 1 \/ k = 2 \/ k = 3 \/ k = 4 \/ k = 5 \/ k = 6
               \/ k = 7 \/ k = 8 \/ k = 9)%Z) by lia.
  repeat (destruct H as [->|H]; [split; reflexivity|]).
  subst. split; reflexivity.
Qed.

Lemma matches_cons d fmt s t :
  matches (d :: fmt) s t
  = flat_map (fun '(v, r) => matches fmt r (set_field d v t))
      (alternatives d s).
Proof. reflexivity. Qed.

(** The month and the day, once the year and the first dash are read. *)
Lemma matches_month_day t0 m d :
  (1 <= m <= 12)%Z -> (1 <= d <= 31)%Z ->
  hd_error
    (matches [Dm; DLit "-"; Dd]
       (list_ascii_of_string (two_digits m ++ "-" ++ two_digits d)) t0)
  = Some (Date (year t0) m d, []).
Proof.
  intros Hm Hd.
  assert (Hm' : (m = 1 \/ m = 2 \/ m = 3 \/ m = 4 \/ m = 5 \/ m = 6 \/ m = 7
                \/ m = 8 \/ m = 9 \/ m = 10 \/ m = 11 \/ m = 12)%Z) by lia.
  assert (Hd' : (d = 1 \/ d = 2 \/ d = 3 \/ d = 4 \/ d = 5 \/ d = 6 \/ d = 7
                \/ d = 8 \/ d = 9 \/ d = 10 \/ d = 11 \/ d = 12 \/ d = 13
                \/ d = 14 \/ d = 15 \/ d = 16 \/ d = 17 \/ d = 18 \/ d = 19
                \/ d = 20 \/ d = 21 \/ d = 22 \/ d = 23 \/ d = 24 \/ d = 25
                \/ d = 26 \/ d = 27 \/ d = 28 \/ d = 29 \/ d = 30 \/ d = 31)%Z)
    by lia.
  clear Hm Hd. destruct t0 as [y0 m0 d0].
  repeat (destruct Hm' as [->|Hm']);
    [ .. | subst m ];
    (repeat (destruct Hd' as [->|Hd']); [ .. | subst d ]; reflexivity).
Qed.

Lemma matches_iso t :
  (0 <= year t <= 9999)%Z -> (1 <= month t <= 12)%Z -> (1 <= day t <= 31)%Z ->
  hd_error (matches fmt_Ymd (list_ascii_of_string (isoformat t))
              (Date 1900 1 1))
  = Some (t, []).
Proof.
  intros Hy Hm Hd. destruct t as [y m d]. cbn [year month day] in *.
  unfold isoformat, four_digits, fmt_Ymd. cbn [year month day].
  set (tail := two_digits m ++ "-" ++ two_digits d).
  unfold two_digits. cbv [String.append list_ascii_of_string].
  fold String.append. fold list_ascii_of_string.
  destruct (digit_char_spec (y / 1000)) as [Da Va].
  { split; [apply Z.div_pos; lia|].
    apply Z.lt_succ_r, Z.div_lt_upper_bound; lia. }
  destruct (digit_char_spec (y / 100 mod 10)) as [Db Vb].
  { pose proof (Z.mod_pos_bound (y / 100) 10 ltac:(lia)). lia. }
  destruct (digit_char_spec (y mod 100 / 10)) as [Dc Vc].
  { pose proof (Z.mod_pos_bound y 100 ltac:(lia)).
    split; [apply Z.div_pos; lia|].
    apply Z.lt_succ_r, Z.div_lt_upper_bound; lia. }
  destruct (digit_char_spec (y mod 100 mod 10)) as [De Ve].
  { pose proof (Z.mod_pos_bound (y mod 100) 10 ltac:(lia)). lia. }
  rewrite (matches_cons DY). cbn [alternatives].
  rewrite Da, Db, Dc, De. cbn [andb flat_map].
  rewrite Va, Vb, Vc, Ve.
  replace (1000 * (y / 1000) + 100 * (y / 100 mod 10) + 10 * (y mod 100 / 10)
           + y mod 100 mod 10)%Z with y.
  2:{ pose proof (Z.div_mod y 1000 ltac:(lia)).
      pose proof (Z.div_mod y 100 ltac:(lia)).
      pose proof (Z.div_mod (y / 100) 10 ltac:(lia)).
      pose proof (Z.div_mod (y mod 100) 10 ltac:(lia)).
      pose proof (Z.div_div y 100 10 ltac:(lia) ltac:(lia)).
      change (100 * 10)%Z with 1000%Z in *. lia. }
  rewrite app_nil_r. rewrite (matches_cons (DLit "-")).
  cbn [alternatives]. rewrite Ascii.eqb_refl. cbn [flat_map set_field].
  rewrite app_nil_r. cbn [year month day]. unfold tail.
  rewrite (matches_month_day (Date y 1 1) m d Hm Hd). reflexivity.
Qed.

(** X16.  [_parse_date] reads back every calendar date written in the
    ISO form YYYY-MM-DD that the extraction prompt asks for: the first
    format matches and none of the later formats is consulted. *)
Theorem parse_date_reads_iso_dates_back (t : datetime) :
  valid_date t -> _parse_date (Some (isoformat t)) = Some t.
Proof.
  intros (Hy & Hm & Hd).
  assert (Hd31 : (1 <= day t <= 31)%Z).
  { split; [lia|]. apply Z.le_trans with (1 := proj2 Hd).
    unfold days_in_month. destruct (month t =? 2)%Z;
      [destruct (is_leap (year t)); lia|].
    destruct (_ || _); lia. }
  assert (Hs : strptime (isoformat t) fmt_Ymd = Some t).
  { unfold strptime.
    pose proof (matches_iso t ltac:(lia) Hm Hd31) as Hhd.
    destruct (matches fmt_Ymd (list_ascii_of_string (isoformat t))
                (Date 1900 1 1)) as [|[t' r] rest]; [discriminate|].
    cbn in Hhd. injection Hhd as -> ->.
    replace ((1 <=? year t) && (1 <=? day t)
             && (day t <=? days_in_month (year t) (month t)))%Z with true;
      [reflexivity|].
    symmetry. rewrite !andb_true_iff, !Z.leb_le. lia. }
  unfold _parse_date.
  assert (Ht : PyStr.truthy (isoformat t) = true) by reflexivity.
  rewrite Ht. cbn [negb]. rewrite Hs. reflexivity.
Qed.

End IsoRoundTrip.

(** ** The OCR engines *)

Section OcrEngines.
Local Open Scope Q_scope.

Lemma split_one_line c s : PyStr.has_char c s = false -> PyStr.split c s = [s].
Proof.
  induction s as [|d s IH]; [reflexivity|]. cbn [PyStr.has_char PyStr.split].
  intros H. apply orb_false_iff in H. destruct H as [Hc Hs].
  rewrite Hc, (IH Hs). reflexivity.
Qed.

Lemma split_append c s rest :
  PyStr.has_char c s = false ->
  PyStr.split c (s ++ String c rest) = s :: PyStr.split c rest.
Proof.
  induction s as [|d s IH]; intros H.
  - change (EmptyString ++ String c rest)%string with (String c rest).
    cbn [PyStr.split]. rewrite Ascii.eqb_refl. reflexivity.
  - cbn [PyStr.has_char] in H. apply orb_false_iff in H. destruct H as [Hc Hs].
    change (String d s ++ String c rest)%string
      with (String d (s ++ String c rest)).
    cbn [PyStr.split]. rewrite Hc, (IH Hs). reflexivity.
Qed.

Lemma split_join (lines : list string) :
  lines <> [] -> Forall one_line lines ->
  PyStr.split "010" (py_join (String "010" EmptyString) lines) = lines.
Proof.
  induction lines as [|l lines IH]; [congruence|]. intros _ Hall.
  inversion Hall as [|? ? Hl Hrest]; subst.
  destruct lines as [|l' lines].
  - cbn [py_join]. apply split_one_line. exact Hl.
  - change (py_join (String "010" EmptyString) (l :: l' :: lines))
      with (l ++ String "010" (py_join (String "010" EmptyString) (l' :: lines)))%string.
    rewrite split_append by exact Hl. f_equal. apply IH; [congruence|exact Hrest].
Qed.

Lemma collect_lines_spec blocks : forall lines confidences,
  (Forall (fun b => Engines.BlockType b <> None) blocks ->
   Engines.collect_lines blocks lines confidences
   = Ok ((lines ++ line_texts blocks)%list,
         (confidences ++ line_confidences blocks)%list))
  /\ (Exists (fun b => Engines.BlockType b = None) blocks ->
      Engines.collect_lines blocks lines confidences
      = Raise (Engines.KeyError "BlockType")).
Proof.
  induction blocks as [|b blocks IH]; intros lines confidences.
  - split.
    + intros _. cbn. rewrite !app_nil_r. reflexivity.
    + intros H. inversion H.
  - split.
    + intros Hall. inversion Hall as [|? ? Hb Hrest]; subst.
      cbn [Engines.collect_lines].
      destruct (Engines.BlockType b) as [t|] eqn:Ht; [|congruence].
      assert (Hl : is_line b = String.eqb t "LINE")
        by (unfold is_line; rewrite Ht; reflexivity).
      unfold line_texts, line_confidences. cbn [List.filter]. rewrite Hl.
      destruct (String.eqb t "LINE").
      * rewrite (proj1 (IH _ _) Hrest). cbn [List.map].
        unfold line_texts, line_confidences.
        rewrite <- !app_assoc. reflexivity.
      * apply (proj1 (IH _ _) Hrest).
    + intros Hex. cbn [Engines.collect_lines].
      destruct (Engines.BlockType b) as [t|] eqn:Ht; [|reflexivity].
      inversion Hex as [? ? Hb|? ? Hrest]; subst; [congruence|].
      destruct (String.eqb t "LINE"); apply (proj2 (IH _ _) Hrest).
Qed.

Lemma typed_or_not (blocks : list Engines.Block) :
  Forall (fun b => Engines.BlockType b <> None) blocks
  \/ Exists (fun b => Engines.BlockType b = None) blocks.
Proof.
  induction blocks as [|b blocks [IH|IH]].
  - left. constructor.
  - destruct (Engines.BlockType b) eqn:Hb.
    + left. constructor; [congruence|exact IH].
    + right. apply Exists_cons_hd. exact Hb.
  - right. apply Exists_cons_tl. exact IH.
Qed.

Lemma fold_left_Qplus_bounds (l : list Q) : forall acc lo hi,
  Forall (fun q => lo <= q <= hi) l ->
  acc + inject_Z (Z.of_nat (length l)) * lo <= fold_left Qplus l acc
  /\ fold_left Qplus l acc <= acc + inject_Z (Z.of_nat (length l)) * hi.
Proof.
  induction l as [|q l IH]; intros acc lo hi Hall.
  - cbn [length fold_left]. change (inject_Z (Z.of_nat 0)) with 0.
    split; lra.
  - inversion Hall as [|? ? Hq Hrest]; subst. cbn [fold_left].
    destruct (IH (acc + q) lo hi Hrest) as [H1 H2].
    assert (Hlen : inject_Z (Z.of_nat (length (q :: l)))
                   == inject_Z (Z.of_nat (length l)) + 1).
    { cbn [length]. rewrite Nat2Z.inj_succ. unfold Z.succ.
      rewrite inject_Z_plus. reflexivity. }
    rewrite Hlen. split; lra.
Qed.

Lemma average_bounds (l : list Q) :
  Forall (fun q => 0 <= q <= 1) l -> 0 <= average l <= 1.
Proof.
  intros Hall. destruct l as [|q l]; [cbn; split; lra|].
  unfold average.
  destruct (fold_left_Qplus_bounds (q :: l) 0 0 1 Hall) as [H1 H2].
  set (n := inject_Z (Z.of_nat (length (q :: l)))) in *.
  assert (Hn : 0 < n).
  { unfold n, Qlt. cbn [Qnum Qden inject_Z length]. lia. }
  set (s := fold_left Qplus (q :: l) 0) in *.
  split.
  - apply Qle_shift_div_l; [exact Hn|]. lra.
  - apply Qle_shift_div_r; [exact Hn|]. lra.
Qed.

(** X17.  The text an OCR engine returns splits back into the lines it
    recognised: when at least one line was recognised and no recognised
    line holds a line break, [text.split] of the extractor yields exactly
    the texts of the LINE blocks of Textract, in order, and exactly the
    lines PaddleOCR detected on the first page. *)
Theorem recognised_lines_reach_the_extractor :
  (forall blocks r,
     Engines._call_textract blocks = Ok r ->
     line_texts (default [] blocks) <> [] ->
     Forall one_line (line_texts (default [] blocks)) ->
     PyStr.split "010" (text r) = line_texts (default [] blocks))
  /\ (forall result,
        Engines.detected_lines result <> [] ->
        Forall one_line (List.map fst (Engines.detected_lines result)) ->
        PyStr.split "010" (text (Engines.local_extract_text result))
        = List.map fst (Engines.detected_lines result)).
Proof.
  split.
  - intros blocks r Hr Hne Hall. unfold Engines._call_textract in Hr.
    destruct (typed_or_not (default [] blocks)) as [Hty|Hex].
    + rewrite (proj1 (collect_lines_spec _ [] []) Hty) in Hr.
      cbn [app] in Hr. injection Hr as <-. cbn [text].
      apply split_join; assumption.
    + rewrite (proj2 (collect_lines_spec _ [] []) Hex) in Hr. discriminate.
  - intros result Hne Hall. unfold Engines.local_extract_text.
    cbn [text]. apply split_join; [|exact Hall].
    destruct (Engines.detected_lines result); [congruence|discriminate].
Qed.

(** X18.  [_call_textract] raises [KeyError] as soon as one block of the
    response lacks the key BlockType, whatever its position and whatever
    lines were already collected; otherwise it returns the texts of the
    LINE blocks joined by line breaks with the mean of their confidences
    divided by 100; with no LINE block the text is empty and the
    confidence 0. *)
Theorem textract_call_outcome (blocks : option (list Engines.Block)) :
  (Exists (fun b => Engines.BlockType b = None) (default [] blocks) ->
   Engines._call_textract blocks = Raise (Engines.KeyError "BlockType"))
  /\ (Forall (fun b => Engines.BlockType b <> None) (default [] blocks) ->
      Engines._call_textract blocks
      = Ok {| text := py_join (String "010" EmptyString)
                        (line_texts (default [] blocks));
              confidence := average (line_confidences (default [] blocks)) |})
  /\ (Forall (fun b => is_line b = false) (default [] blocks) ->
      Forall (fun b => Engines.BlockType b <> None) (default [] blocks) ->
      Engines._call_textract blocks
      = Ok {| text := EmptyString; confidence := 0 |}).
Proof.
  unfold Engines._call_textract.
  split; [|split].
  - intros Hex. rewrite (proj2 (collect_lines_spec _ [] []) Hex). reflexivity.
  - intros Hty. rewrite (proj1 (collect_lines_spec _ [] []) Hty). reflexivity.
  - intros Hno Hty. rewrite (proj1 (collect_lines_spec _ [] []) Hty).
    assert (Hf : List.filter is_line (default [] blocks) = []).
    { clear Hty. induction Hno as [|b l Hb _ IH]; [reflexivity|].
      cbn [List.filter]. rewrite Hb. exact IH. }
    unfold line_texts, line_confidences. rewrite Hf. reflexivity.
Qed.

(** X19.  The confidence an engine reports lies in [0, 1]: for Textract
    when the confidence of every LINE block lies in [0, 100] (an absent
    key counts as 0), for PaddleOCR when every detected line has a
    confidence in [0, 1]; a page without lines gives 0. *)
Theorem engine_confidence_is_a_probability :
  (forall blocks r,
     Engines._call_textract blocks = Ok r ->
     Forall (fun b => is_line b = true ->
                      0 <= default 0 (Engines.Confidence b) <= 100)
       (default [] blocks) ->
     0 <= confidence r <= 1)
  /\ (forall result,
        Forall (fun line => 0 <= snd line <= 1)
          (Engines.detected_lines result) ->
        0 <= confidence (Engines.local_extract_text result) <= 1).
Proof.
  split.
  - intros blocks r Hr Hall. unfold Engines._call_textract in Hr.
    destruct (typed_or_not (default [] blocks)) as [Hty|Hex].
    2:{ rewrite (proj2 (collect_lines_spec _ [] []) Hex) in Hr. discriminate. }
    rewrite (proj1 (collect_lines_spec _ [] []) Hty) in Hr.
    injection Hr as <-. cbn [confidence app]. apply average_bounds.
    unfold line_confidences. clear Hty.
    induction Hall as [|b l Hb _ IH]; [constructor|].
    cbn [List.filter]. destruct (is_line b); [|exact IH].
    cbn [List.map]. constructor; [|exact IH].
    destruct (Hb eq_refl) as [H0 H1]. split.
    + apply Qle_shift_div_l; [reflexivity|]. lra.
    + apply Qle_shift_div_r; [reflexivity|]. lra.
  - intros result Hall. unfold Engines.local_extract_text. cbn [confidence].
    apply average_bounds.
    induction Hall as [|p l Hp _ IH]; constructor; assumption.
Qed.

End OcrEngines.

(** ** Per-field scores of pattern-extracted data *)

Section PatternFields.
Local Open Scope Q_scope.

Lemma round_presence_score {A} (truthy : A -> bool) (v : option A) :
  py_round (presence_score truthy v) 4
  == presence (match v with Some a => truthy a | None => false end).
Proof.
  unfold presence_score, presence. destruct v as [a|]; [destruct (truthy a)|];
    vm_compute; reflexivity.
Qed.

(** X20.  For data of the pattern-based extractor, the per-field scores
    [compute_confidence] reports have exactly the six field names as
    keys, and each score is 0.8 or 0: 0.8 when the field is truthy (a
    non-empty string, a non-zero total, a parsed date).  The scores of
    the extractor are kept, the presence heuristic is never used: a
    vendor line with nothing after its colon scores 0. *)
Theorem pattern_per_field_scores (text : string) (o e : Q)
    (rs : list ValidationResult) :
  let x := _simple_extract text in
  let scores := per_field (compute_confidence o e rs (Some x)) in
  dom scores = six_fields
  /\ scored scores "vendor_name" (PyStr.truthy (default EmptyString (vendor_name x)))
  /\ scored scores "tax_id" (PyStr.truthy (default EmptyString (tax_id x)))
  /\ scored scores "invoice_number"
       (PyStr.truthy (default EmptyString (invoice_number x)))
  /\ scored scores "total_amount"
       (PyDecimal.truthy (default PyDecimal.zero (total_amount x)))
  /\ scored scores "invoice_date" (is_some (invoice_date x))
  /\ scored scores "due_date" (is_some (due_date x)).
Proof.
  intros x scores. subst scores x.
  unfold compute_confidence, _simple_extract.
  cbn [per_field field_confidences vendor_name tax_id invoice_number
       total_amount invoice_date due_date].
  rewrite bool_decide_eq_false_2 by apply insert_non_empty.
  set (st := scan_lines (PyStr.split "010" text)).
  rewrite !fmap_insert, fmap_empty.
  split; [|repeat split].
  - rewrite !dom_insert_L, dom_empty_L. unfold six_fields. set_solver.
  - eexists. split; [apply lookup_insert_eq|].
    rewrite round_presence_score. destruct (s_vendor_name st); reflexivity.
  - eexists. split.
    { rewrite lookup_insert_ne by discriminate. apply lookup_insert_eq. }
    rewrite round_presence_score. destruct (s_tax_id st); reflexivity.
  - eexists. split.
    { rewrite !lookup_insert_ne by discriminate. apply lookup_insert_eq. }
    rewrite round_presence_score. destruct (s_invoice_number st); reflexivity.
  - eexists. split.
    { rewrite !lookup_insert_ne by discriminate. apply lookup_insert_eq. }
    rewrite round_presence_score. destruct (s_total_amount st); reflexivity.
  - eexists. split.
    { rewrite !lookup_insert_ne by discriminate. apply lookup_insert_eq. }
    rewrite round_presence_score. destruct (s_invoice_date st); reflexivity.
  - eexists. split.
    { rewrite !lookup_insert_ne by discriminate. apply lookup_insert_eq. }
    rewrite round_presence_score. destruct (s_due_date st); reflexivity.
Qed.

End PatternFields.

(** ** A page without text *)

Section BlankPage.
Import ProcessingPipeline.
Local Open Scope Q_scope.

Variable env : Env.
Variables document_id pdf_bytes : string.



End BlankPage.

(** ** [upload_document] *)

Section Upload.
Import ProcessingPipeline.

Variable settings : OcrSettings.
Variable run_engine : engine -> string -> awaited OCRResult.
Variable env : Env.
Variable new_id : string.
Variable file : Routes.UploadFile.

Lemma upload_document_run st :
  Routes.upload_document settings run_engine env new_id file st
  = if Routes.falsy (Routes.filename file) then
      (Raise (Routes.HTTPException 400 "Missing filename"), st)
    else
      let content_type :=
        if Routes.falsy (Routes.content_type file) then "application/pdf"
        else default EmptyString (Routes.content_type file) in
      if negb (String.eqb content_type "application/pdf") then
        (Raise (Routes.HTTPException 415
                  ("Unsupported content_type=" ++ PyRepr.repr content_type)),
         st)
      else
        match get_ocr_engine settings with
        | Raise e => (Raise e, with_pending new_id file st)
        | Ok ocr_engine =>
            match process_document
                    (Routes.pipeline_env run_engine env ocr_engine)
                    new_id (Routes.contents file)
                    (with_pending new_id file st) with
            | (Ok _, st') =>
                (Ok {| Routes.document_id := new_id;
                       Routes.status :=
                         default EmptyString (status_of st' new_id) |},
                 st')
            | (Raise e, st') => (Raise e, st')
            end
        end.
Proof.
  unfold Routes.upload_document.
  destruct (Routes.falsy (Routes.filename file)); [reflexivity|].
  cbv zeta.
  set (ct := if Routes.falsy (Routes.content_type file) then "application/pdf"
             else default EmptyString (Routes.content_type file)).
  destruct (String.eqb_spec ct "application/pdf") as [Heq|Hne];
    cbn [negb]; [|reflexivity].
  rewrite Heq.
  unfold bind, Routes.add_document, modify, Session.flush, ret, lift,
    Session.get, gets, with_pending, pending_document, status_of.
  destruct (get_ocr_engine settings); [|reflexivity].
  destruct (process_document _ _ _ _) as [[[]|e] st']; reflexivity.
Qed.

Lemma rejected_spec :
  rejected file
  <-> (Routes.falsy (Routes.filename file) = true
       \/ String.eqb
            (if Routes.falsy (Routes.content_type file) then "application/pdf"
             else default EmptyString (Routes.content_type file))
            "application/pdf" = false).
Proof.
  unfold rejected, Routes.falsy.
  destruct (Routes.filename file) as [[|c name]|];
    cbv [from_option id PyStr.truthy negb].
  - split; auto.
  - destruct (Routes.content_type file) as [[|c' ct]|];
      cbv [from_option id PyStr.truthy negb].
    + split.
      * intros [H|[H|(ct' & H & Hne & _)]]; congruence.
      * intros [H|H]; [discriminate|]. rewrite String.eqb_refl in H.
        discriminate.
    + split.
      * intros [H|[H|(ct' & H & _ & Hne)]]; try discriminate.
        right. injection H as <-. apply String.eqb_neq. exact Hne.
      * intros [H|H]; [discriminate|]. right. right. eexists.
        split; [reflexivity|]. split; [discriminate|].
        apply String.eqb_neq. exact H.
    + split.
      * intros [H|[H|(ct' & H & _)]]; discriminate.
      * intros [H|H]; [discriminate|]. rewrite String.eqb_refl in H.
        discriminate.
  - split; auto.
Qed.


Lemma not_all_passed_is_review c rs :
  forallb passed rs = false -> final_status c rs = "review".
Proof.
  intros H. unfold final_status. rewrite H. cbn [negb].
  rewrite orb_true_r. reflexivity.
Qed.

Lemma confident_and_passed_is_completed c rs :
  (0.6 <= overall c)%Q -> forallb passed rs = true ->
  final_status c rs = "completed".
Proof.
  intros Hc H. unfold final_status. rewrite H. cbn [negb].
  destruct (Qlt_le_dec (overall c) 0.6) as [Hlt|_]; [|reflexivity].
  exfalso. apply (Qlt_irrefl 0.6).
  apply Qle_lt_trans with (overall c); assumption.
Qed.


Lemma with_pending_lookup st :
  documents (with_pending new_id file st) !! new_id
  = Some (pending_document file).
Proof. unfold with_pending. cbn [documents]. apply lookup_insert_eq. Qed.



Lemma mock_extraction (image_bytes : string) :
  confidence (mock_extract_text image_bytes) = 0.85%Q
  /\ invoice_number (_simple_extract (text (mock_extract_text image_bytes)))
     = Some "INV-2024-001"
  /\ extraction_confidence
       (_simple_extract (text (mock_extract_text image_bytes))) = 0.7%Q
  /\ RuleEngine._validate_line_items_sum
       (_simple_extract (text (mock_extract_text image_bytes)))
     = Ok {| rule_name := "line_items_sum"; passed := true; score := 1;
             message := Some "Line items sum matches total: 300.00" |}
  /\ passed (RuleEngine._validate_tax_id_format
               (_simple_extract (text (mock_extract_text image_bytes)))) = true
  /\ score (RuleEngine._validate_tax_id_format
              (_simple_extract (text (mock_extract_text image_bytes)))) = 1%Q
  /\ passed (RuleEngine._validate_dates
               (_simple_extract (text (mock_extract_text image_bytes)))) = true
  /\ score (RuleEngine._validate_dates
              (_simple_extract (text (mock_extract_text image_bytes)))) = 1%Q.
Proof. vm_compute. repeat split. Qed.

Lemma mock_final_status (o : OCRResult) (x : ExtractedData)
    (known : gset string) (rs : list ValidationResult) :
  confidence o = 0.85%Q ->
  invoice_number x = Some "INV-2024-001" ->
  extraction_confidence x = 0.7%Q ->
  RuleEngine._validate_line_items_sum x
  = Ok {| rule_name := "line_items_sum"; passed := true; score := 1;
          message := Some "Line items sum matches total: 300.00" |} ->
  passed (RuleEngine._validate_tax_id_format x) = true ->
  score (RuleEngine._validate_tax_id_format x) = 1%Q ->
  passed (RuleEngine._validate_dates x) = true ->
  score (RuleEngine._validate_dates x) = 1%Q ->
  RuleEngine.validate x (Some known) = Ok rs ->
  final_status
    (compute_confidence (confidence o) (extraction_confidence x) rs (Some x))
    rs
  = if bool_decide ("INV-2024-001" ∈ known) then "review" else "completed".
Proof.
  intros Hoc Hnum Hconf Hsum Htp Hts Hdp Hds Hv.
  destruct (validate_shape _ _ _ Hv) as (r1 & Hr1 & ->).
  rewrite Hsum in Hr1. injection Hr1 as <-.
  destruct (bool_decide ("INV-2024-001" ∈ known)) eqn:Hk.
  - apply not_all_passed_is_review.
    cbn [app forallb]. unfold RuleEngine._validate_no_duplicate.
    rewrite Hnum. cbn [PyStr.truthy negb]. rewrite Hk. cbn [passed].
    rewrite !andb_false_r. reflexivity.
  - assert (Hdup : RuleEngine._validate_no_duplicate x known
                   = {| rule_name := "duplicate_invoice"; passed := true;
                        score := 1;
                        message := Some ("Invoice number "
                                         ++ PyRepr.repr "INV-2024-001"
                                         ++ " is unique") |}).
    { unfold RuleEngine._validate_no_duplicate. rewrite Hnum.
      cbn [PyStr.truthy negb]. rewrite Hk. reflexivity. }
    rewrite Hdup. apply confident_and_passed_is_completed.
    + rewrite overall_unfold, Hconf, Hoc.
      unfold mean_score. cbn [app sum_scores length score].
      rewrite Hts, Hds. vm_compute. discriminate.
    + cbn [app forallb passed]. rewrite Htp, Hdp. reflexivity.
Qed.

Lemma mock_run (e0 : Env) (pdf_bytes : string) (o : OCRResult) st r st' :
  confidence o = 0.85%Q
  /\ invoice_number (_simple_extract (text o)) = Some "INV-2024-001"
  /\ extraction_confidence (_simple_extract (text o)) = 0.7%Q
  /\ RuleEngine._validate_line_items_sum (_simple_extract (text o))
     = Ok {| rule_name := "line_items_sum"; passed := true; score := 1;
             message := Some "Line items sum matches total: 300.00" |}
  /\ passed (RuleEngine._validate_tax_id_format (_simple_extract (text o)))
     = true
  /\ score (RuleEngine._validate_tax_id_format (_simple_extract (text o)))
     = 1%Q
  /\ passed (RuleEngine._validate_dates (_simple_extract (text o))) = true
  /\ score (RuleEngine._validate_dates (_simple_extract (text o))) = 1%Q ->
  documents st !! new_id = Some (pending_document file) ->
  outcome (ocr_engine e0 pdf_bytes) = Ok o ->
  extract (extraction_mode e0) (_llm_extract e0) (text o)
  = Ok (_simple_extract (text o)) ->
  run_outcome e0 new_id pdf_bytes st r st' ->
  r = Ok tt
  /\ status_of st' new_id
     = Some (if bool_decide
                  ("INV-2024-001" ∈ other_invoice_numbers new_id (extractions st))
             then "review" else "completed")
  /\ exists row, extractions st' = (extractions st ++ [row])%list
                 /\ Models.document_id row = new_id
                 /\ Models.invoice_number row = Some "INV-2024-001".
Proof.
  intros (Hoc & Hnum & Hconf & Hsum & Htp & Hts & Hdp & Hds) Hdoc Hmock Hx Hp.
  destruct Hp as [Hdoc' | doc' Hdoc' Hs' | doc' e Hdoc' Hs' Hocr'
                  | doc' o' x e Hdoc' Hs' Hocr' Hx' Hv
                  | doc' o' x rs Hdoc' Hs' Hocr' Hx' Hv].
  - congruence.
  - exfalso. rewrite Hdoc in Hdoc'. injection Hdoc' as <-. discriminate.
  - congruence.
  - exfalso. assert (o' = o) by congruence. subst o'.
    assert (x = _simple_extract (text o)) by congruence. subst x.
    destruct (validate_simple_extract_returns (text o)
                (Some (other_invoice_numbers new_id (extractions st))))
      as [rs Hrs].
    unfold Validator.validate in Hv. congruence.
  - assert (o' = o) by congruence. subst o'.
    assert (x = _simple_extract (text o)) by congruence. subst x.
    split; [reflexivity|]. split.
    + unfold status_of, processed. cbn [documents].
      rewrite !lookup_alter_eq, Hdoc.
      cbn [fmap option_fmap option_map Session.with_status Models.status].
      f_equal.
      apply (mock_final_status o _ _ rs Hoc Hnum Hconf Hsum Htp Hts Hdp Hds Hv).
    + unfold processed. cbn [extractions]. eexists.
      split; [reflexivity|]. split; [reflexivity|]. exact Hnum.
Qed.

(** X24.  With the mock provider and the pattern path, every accepted
    upload returns a response: its status is "completed" when no other
    document carries the invoice number INV-2024-001 of the mock text and
    "review" when one does; and after the upload every later document
    finds that number taken, so only the first upload of a store is ever
    completed. *)
Theorem mock_uploads_after_the_first_go_to_review st r st' :
  ~ rejected file ->
  PyStr.strip (PyStr.lower (ocr_provider settings)) = "mock" ->
  (forall image_bytes,
     outcome (run_engine MockOCREngine image_bytes)
     = Ok (mock_extract_text image_bytes)) ->
  extraction_mode env <> "llm"
  \/ (exists exc,
        _llm_extract env (text (mock_extract_text (Routes.contents file)))
        = Raise exc) ->
  Routes.upload_document settings run_engine env new_id file st = (r, st') ->
  exists response,
    r = Ok response
    /\ Routes.document_id response = new_id
    /\ (known_elsewhere new_id "INV-2024-001" st ->
        Routes.status response = "review")
    /\ (~ known_elsewhere new_id "INV-2024-001" st ->
        Routes.status response = "completed")
    /\ (forall later, later <> new_id ->
          known_elsewhere later "INV-2024-001" st').
Proof.
  intros Hnot Hprov Hmock Hpath Hrun.
  rewrite upload_document_run in Hrun.
  pose proof rejected_spec as Hrej.
  destruct (Routes.falsy (Routes.filename file)) eqn:Hname.
  { exfalso. apply Hnot, Hrej. auto. }
  cbv zeta in Hrun.
  destruct (String.eqb _ "application/pdf") eqn:Hct; cbn [negb] in Hrun.
  2:{ exfalso. apply Hnot, Hrej. auto. }
  assert (Heng : get_ocr_engine settings = Ok MockOCREngine).
  { unfold get_ocr_engine. rewrite Hprov. reflexivity. }
  rewrite Heng in Hrun.
  destruct (process_document _ _ _ _) as [r0 st0] eqn:Hp.
  apply run_result in Hp.
  assert (Hx : extract (extraction_mode env) (_llm_extract env)
                 (text (mock_extract_text (Routes.contents file)))
               = Ok (_simple_extract
                       (text (mock_extract_text (Routes.contents file))))).
  { unfold extract. destruct Hpath as [Hmode | [exc Hexc]].
    - destruct (String.eqb_spec (extraction_mode env) "llm");
        [contradiction | reflexivity].
    - rewrite Hexc. destruct (String.eqb (extraction_mode env) "llm");
        reflexivity. }
  destruct (mock_run (Routes.pipeline_env run_engine env MockOCREngine)
              (Routes.contents file) _ _ _ _
              (mock_extraction (Routes.contents file))
              (with_pending_lookup st) (Hmock (Routes.contents file)) Hx Hp)
    as (-> & Hstatus & row & Hrows & Hrow & Hnum).
  injection Hrun as <- <-. eexists. split; [reflexivity|].
  split; [reflexivity|]. cbn [Routes.status]. rewrite Hstatus.
  cbn [from_option id default].
  assert (Hmem : "INV-2024-001"
                 ∈ other_invoice_numbers new_id
                     (extractions (with_pending new_id file st))
                 <-> known_elsewhere new_id "INV-2024-001" st).
  { rewrite elem_of_other_invoice_numbers.
    unfold known_elsewhere. cbn [extractions with_pending].
    split; [intros [_ H]; exact H|].
    intros H. split; [discriminate | exact H]. }
  split; [|split].
  - intros Hk. rewrite bool_decide_eq_true_2 by (apply Hmem; exact Hk).
    reflexivity.
  - intros Hk. rewrite bool_decide_eq_false_2; [reflexivity|].
    intros H. apply Hk, Hmem, H.
  - intros later Hlater. exists row. rewrite Hrows.
    split; [apply in_or_app; right; left; reflexivity|].
    split; [congruence | exact Hnum].
Qed.

End Upload.

(* ===================================================================== *)
(** * The further properties on the samples *)
(* ===================================================================== *)

Lemma process_document_only_appends_witness :
  commits (Fixtures.make_store "pending")
  <= commits (snd Fixtures.successful_run)
  /\ (forall other, other <> Fixtures.doc_id ->
        documents (snd Fixtures.successful_run) !! other
        = documents (Fixtures.make_store "pending") !! other).
Proof.
  destruct (process_document_only_appends Fixtures.mock_env Fixtures.doc_id
              "fake pdf bytes" (Fixtures.make_store "pending")
              (fst Fixtures.successful_run) (snd Fixtures.successful_run))
    as (_ & _ & _ & Hcommits & Hothers & _).
  - apply surjective_pairing.
  - split; assumption.
Defined.



Lemma ocr_failure_is_recorded_and_raised_witness :
  exists st',
    ProcessingPipeline.process_document Fixtures.failing_ocr_env
      Fixtures.doc_id "bytes" (Fixtures.make_store "pending")
    = (Raise (Exn "RuntimeError" "OCR hardware error"), st')
    /\ status_of st' Fixtures.doc_id = Some "failed".
Proof.
  destruct (ocr_failure_is_recorded_and_raised Fixtures.failing_ocr_env
              Fixtures.doc_id "bytes" (Fixtures.make_store "pending")
              (Fixtures.make_doc "pending")
              (Exn "RuntimeError" "OCR hardware error"))
    as (st' & Hrun & _ & Hstatus).
  - vm_compute. reflexivity.
  - discriminate.
  - reflexivity.
  - exists st'. split; assumption.
Defined.


Lemma duplicate_invoice_number_sends_to_review_witness :
  status_of (snd Samples.duplicate_run) Fixtures.doc_id = Some "review".
Proof.
  destruct (duplicate_invoice_number_sends_to_review Fixtures.mock_env
              Fixtures.doc_id "bytes" Samples.store_with_other
              (snd Samples.duplicate_run) (Fixtures.make_doc "pending")
              Fixtures.mock_ocr_result
              (_simple_extract Fixtures.mock_text)
              "INV-2024-001" Fixtures.other_extraction)
    as [Hstatus _].
  - vm_compute. reflexivity.
  - discriminate.
  - vm_compute. reflexivity.
  - reflexivity.
  - reflexivity.
  - vm_compute. reflexivity.
  - discriminate.
  - left. reflexivity.
  - discriminate.
  - reflexivity.
  - exact Hstatus.
Defined.

Lemma successful_run_persists_all_four_rules_witness :
  exists rows row,
    validations (snd Fixtures.successful_run) = rows
    /\ List.map Models.rule_name rows
       = ["line_items_sum"; "tax_id_format"; "date_consistency";
          "duplicate_invoice"]
    /\ extractions (snd Fixtures.successful_run) = [row]
    /\ commits (snd Fixtures.successful_run) = 2.
Proof.
  destruct (successful_run_persists_all_four_rules Fixtures.mock_env
              Fixtures.doc_id "fake pdf bytes"
              (Fixtures.make_store "pending") (snd Fixtures.successful_run)
              (Fixtures.make_doc "pending"))
    as (rows & row & Hv & Hnames & Hx & _ & _ & Hcommits).
  - vm_compute. reflexivity.
  - discriminate.
  - vm_compute. reflexivity.
  - exists rows, row. split; [exact Hv|]. split; [exact Hnames|].
    split; [exact Hx | exact Hcommits].
Defined.

Lemma validate_runs_rules_in_fixed_order_witness :
  exists rs,
    RuleEngine.validate Fixtures.duplicate_case (Some Fixtures.known_numbers)
    = Ok rs
    /\ List.map rule_name rs
       = ["line_items_sum"; "tax_id_format"; "date_consistency";
          "duplicate_invoice"].
Proof.
  eexists. split.
  - vm_compute. reflexivity.
  - apply (validate_runs_rules_in_fixed_order Fixtures.duplicate_case
             (Some Fixtures.known_numbers)).
    vm_compute. reflexivity.
Defined.

Lemma overall_confidence_is_monotone_witness :
  (overall (compute_confidence 0.5 0.3 [] None)
   <= overall (compute_confidence 0.85 0.7 [] None))%Q.
Proof.
  apply (overall_confidence_is_monotone 0.5 0.85 0.3 0.7 [] None None);
    vm_compute; discriminate.
Defined.


Lemma validation_score_tells_whether_all_rules_passed_witness :
  exists rs,
    RuleEngine.validate Fixtures.duplicate_case (Some Fixtures.known_numbers)
    = Ok rs
    /\ ((validation_score (compute_confidence 0.85 0.7 rs None) == 1)%Q
        \/ (validation_score (compute_confidence 0.85 0.7 rs None)
            <= 0.875)%Q).
Proof.
  eexists. split.
  - vm_compute. reflexivity.
  - apply (validation_score_tells_whether_all_rules_passed
             Fixtures.duplicate_case (Some Fixtures.known_numbers)).
    vm_compute. reflexivity.
Defined.

Lemma parse_date_returns_only_real_dates_witness :
  valid_date (Date 2024 1 15).
Proof.
  apply (parse_date_returns_only_real_dates (Some "2024-01-15")).
  vm_compute. reflexivity.
Defined.

Lemma parse_date_reads_iso_dates_back_witness :
  _parse_date (Some "2024-02-29") = Some (Date 2024 2 29).
Proof.
  apply (parse_date_reads_iso_dates_back (Date 2024 2 29)).
  repeat split; vm_compute; discriminate.
Defined.

Lemma recognised_lines_reach_the_extractor_witness :
  exists r,
    Engines._call_textract (Some Samples.blocks) = Ok r
    /\ PyStr.split "010" (text r) = ["Vendor: Acme Corp"; "Total: $300.00"].
Proof.
  eexists. split.
  - reflexivity.
  - apply (proj1 recognised_lines_reach_the_extractor (Some Samples.blocks)).
    + reflexivity.
    + discriminate.
    + repeat constructor.
Defined.

Lemma textract_call_outcome_witness :
  Engines._call_textract (Some Samples.blocks)
  = Ok {| text := py_join (String "010" EmptyString)
                    ["Vendor: Acme Corp"; "Total: $300.00"];
          confidence := average [(991 # 10) / 100; (975 # 10) / 100]%Q |}.
Proof.
  apply (proj1 (proj2 (textract_call_outcome (Some Samples.blocks)))).
  repeat constructor; discriminate.
Defined.

Lemma engine_confidence_is_a_probability_witness :
  (0 <= confidence (Engines.local_extract_text Samples.paddle_result) <= 1)%Q.
Proof.
  apply (proj2 engine_confidence_is_a_probability Samples.paddle_result).
  repeat constructor; vm_compute; discriminate.
Defined.




Lemma mock_uploads_after_the_first_go_to_review_witness :
  exists response,
    fst Samples.pdf_run = Ok response
    /\ Routes.status response = "completed"
    /\ known_elsewhere Fixtures.doc_id "INV-2024-001" (snd Samples.pdf_run).
Proof.
  destruct (mock_uploads_after_the_first_go_to_review
              Samples.default_settings Samples.run_engine Fixtures.mock_env
              Samples.new_id Samples.pdf_upload Samples.empty_store
              (fst Samples.pdf_run) (snd Samples.pdf_run))
    as (response & Hr & _ & _ & Hfirst & Hlater).
  - intros [H | [H | (ct & H & _ & Hne)]]; try discriminate.
    injection H as <-. apply Hne. reflexivity.
  - vm_compute. reflexivity.
  - intros image_bytes. reflexivity.
  - left. discriminate.
  - apply surjective_pairing.
  - exists response. split; [exact Hr|]. split.
    + apply Hfirst. intros (row & [] & _).
    + apply Hlater. discriminate.
Defined.
